(** * scikit-learn-mooc: the notebooks' own code, embedded and checked

    The repository is a set of Jupyter notebooks that drive scikit-learn,
    pandas, scipy and plotting libraries, and a workflow that publishes
    them.  This development has two layers.

    - The few pieces of logic the notebooks define themselves
      ([shorten_param], [reciprocal_int], the [categories] list handed to
      [OrdinalEncoder]) are embedded as Rocq functions, next to models of the
      Python, NumPy, pandas and scikit-learn primitives they call.
    - The notebooks themselves are embedded as data: every code cell is
      transcribed into a small Python abstract syntax, so that statements
      about "every notebook" or "every call" are decided by functions that
      traverse that syntax, and a run of a notebook against the libraries
      is a function of that syntax.

    Part I holds the definitions, Part II evaluates them on concrete
    inputs, Part III holds the lemmas and Part IV the theorems, one group
    per claim (C1 to C10).  Part V holds further properties (X1 to X23) of
    the code that the notebooks write around these pieces: the columns of
    the search results, the preparation of the data, the share of correct
    predictions, and the grids of points of the plots. *)

From Stdlib Require Import List String Ascii Bool Arith ZArith QArith Qround Lia Lqa.
From Stdlib Require Import Permutation Sorted.
Import ListNotations.

Local Close Scope Q_scope.
Local Close Scope Z_scope.
Local Open Scope nat_scope.
Local Open Scope string_scope.

Set Warnings "-register-all".

(* ====================================================================== *)
(** * Part I: definitions *)
(* ====================================================================== *)

(* ====================================================================== *)
(** * Python string primitives used by the notebooks *)
(* ====================================================================== *)

Module PyStr.

(** [s[i:]] *)
Fixpoint drop (n : nat) (s : string) : string :=
  match n, s with
  | O, _ => s
  | S _, EmptyString => EmptyString
  | S n', String _ s' => drop n' s'
  end.

(** [s[:i]] *)
Fixpoint take (n : nat) (s : string) : string :=
  match n, s with
  | O, _ => EmptyString
  | S _, EmptyString => EmptyString
  | S n', String c s' => String c (take n' s')
  end.

(** [s.startswith(sep)] *)
Fixpoint startswith (sep s : string) : bool :=
  match sep, s with
  | EmptyString, _ => true
  | String _ _, EmptyString => false
  | String a sep', String b s' => Ascii.eqb a b && startswith sep' s'
  end.

(** [sep in s]: some suffix of [s] starts with [sep]. *)
Fixpoint contains (sep s : string) : bool :=
  startswith sep s ||
  match s with
  | EmptyString => false
  | String _ s' => contains sep s'
  end.

(** [s.rfind(sep)]: the highest index at which [sep] occurs, [None] for
    Python's [-1]. *)
Fixpoint rfind (sep s : string) : option nat :=
  match s with
  | EmptyString => if startswith sep s then Some O else None
  | String _ s' =>
      match rfind sep s' with
      | Some i => Some (S i)
      | None => if startswith sep s then Some O else None
      end
  end.

(** [s.rsplit(sep, 1)] for a non-empty separator: split once, at the
    rightmost occurrence; a string without the separator comes back as the
    one-element list. *)
Definition rsplit1 (sep s : string) : list string :=
  match rfind sep s with
  | Some i => [take i s; drop (i + String.length sep) s]
  | None => [s]
  end.

(** [sep] occurs in [s] at index [i]. *)
Definition occurs_at (sep s : string) (i : nat) : Prop :=
  exists pre post, s = pre ++ sep ++ post /\ String.length pre = i.

End PyStr.

(* ====================================================================== *)
(** * 04_parameter_tuning_search.ipynb: [shorten_param] *)
(* ====================================================================== *)

(** The double underscore that separates a pipeline step from its
    parameter. *)
Definition dunder : string := "__".

(** <<
    def shorten_param(param_name):
        if "__" in param_name:
            return param_name.rsplit("__", 1)[1]
        return param_name
>>
    Indexing the split with [[1]] is the only step that could fail
    (IndexError), hence the [option]. *)
Definition shorten_param (param_name : string) : option string :=
  if PyStr.contains dunder param_name
  then nth_error (PyStr.rsplit1 dunder param_name) 1
  else Some param_name.

(* ====================================================================== *)
(** * 04_parameter_tuning_search.ipynb: [reciprocal_int] *)
(* ====================================================================== *)

(** Floats are modelled by the rationals they denote. *)

Module Scipy.

(** [scipy.stats.reciprocal(a, b)], the frozen log-uniform distribution on
    [[a, b]]. *)
Record reciprocal := { a : Q; b : Q }.

(** [x] is a value that [rvs()] of the distribution can return: the
    distribution is valid ([0 < a < b], scipy's argument check) and [x] is
    in its support. *)
Definition rvs (d : reciprocal) (x : Q) : Prop :=
  (0 < a d)%Q /\ (a d < b d)%Q /\ (a d <= x)%Q /\ (x <= b d)%Q.

End Scipy.

Module Numpy.

Definition int64_min : Z := (- 2 ^ 63)%Z.
Definition int64_max : Z := (2 ^ 63 - 1)%Z.

(** Dropping the fractional part (rounding toward zero). *)
Definition truncate (x : Q) : Z := Z.quot (Qnum x) (Zpos (Qden x)).

(** [x.astype(int)] of a float: NumPy's default integer is the signed
    64-bit integer on the Linux x86-64 machines that the deployment
    workflow runs on ([runs-on: ubuntu-latest]), and the conversion is the
    C cast.  In range it drops the fractional part; a value that does not
    fit comes out as the minimum integer, which is what the processor's
    conversion instruction leaves. *)
Definition astype_int (x : Q) : Z :=
  let t := truncate x in
  if ((int64_min <=? t) && (t <=? int64_max))%Z then t else int64_min.

End Numpy.

(** <<
    class reciprocal_int:
        def __init__(self, a, b):
            self._distribution = reciprocal(a, b)

        def rvs(self, *args, **kwargs):
            return self._distribution.rvs( *args, **kwargs).astype(int)
>>
    (docstrings left out: "Integer valued version of the log-uniform
    distribution", "Random variable sample"). *)
Module reciprocal_int.

Record t := { _distribution : Scipy.reciprocal }.

Definition __init__ (a b : Q) : t := {| _distribution := {| Scipy.a := a; Scipy.b := b |} |}.

(** [rvs self x]: the value returned when the draw of
    [self._distribution.rvs(...)] is [x]. *)
Definition rvs (self : t) (x : Q) : Z := Numpy.astype_int x.

(** [n] is a value that [reciprocal_int(a, b).rvs()] can return. *)
Definition returns (a b : Q) (n : Z) : Prop :=
  exists x, Scipy.rvs (_distribution (__init__ a b)) x /\ rvs (__init__ a b) x = n.

End reciprocal_int.

(* ====================================================================== *)
(** * The categorical pipelines: [categories] and [OrdinalEncoder] *)
(* ====================================================================== *)

Module Pandas.

(** A categorical column: its values, one per row. *)
Definition series := list string.

(** The categorical part of a data frame: its columns, each with its name. *)
Definition frame := list (string * series).

(** [s.unique()]: the distinct values, in order of first appearance. *)
Fixpoint unique (s : series) : list string :=
  match s with
  | [] => []
  | v :: s' => v :: filter (fun u => negb (String.eqb u v)) (unique s')
  end.

(** [data[column]] (KeyError for an unknown column). *)
Fixpoint getitem (data : frame) (column : string) : option series :=
  match data with
  | [] => None
  | (c, s) :: data' => if String.eqb c column then Some s else getitem data' column
  end.

(** Iterating over a frame yields its column names. *)
Definition columns (data : frame) : list string := map fst data.

(** The rows at the given positions (IndexError out of range): what a
    train or validation fold of a split is. *)
Fixpoint take (s : series) (rows : list nat) : option series :=
  match rows with
  | [] => Some []
  | i :: rows' =>
      match nth_error s i, take s rows' with
      | Some v, Some r => Some (v :: r)
      | _, _ => None
      end
  end.

Fixpoint take_frame (data : frame) (rows : list nat) : option frame :=
  match data with
  | [] => Some []
  | (c, s) :: data' =>
      match take s rows, take_frame data' rows with
      | Some s', Some d' => Some ((c, s') :: d')
      | _, _ => None
      end
  end.

End Pandas.

Module Sklearn.

Inductive error :=
| ShapeMismatch                                   (** as many category lists as columns? *)
| UnknownCategory (column : nat) (value : string).

Inductive result (A : Type) := Ok (x : A) | Error (e : error).
Arguments Ok {A} x.
Arguments Error {A} e.

(** The code of a value: its position in the category list. *)
Fixpoint index_of (cats : list string) (v : string) : option nat :=
  match cats with
  | [] => None
  | c :: cats' =>
      if String.eqb c v then Some 0
      else match index_of cats' v with Some i => Some (S i) | None => None end
  end.

Fixpoint encode_column (j : nat) (cats : list string) (s : list string) : result (list nat) :=
  match s with
  | [] => Ok []
  | v :: s' =>
      match index_of cats v with
      | None => Error (UnknownCategory j v)
      | Some i =>
          match encode_column j cats s' with
          | Ok r => Ok (i :: r)
          | Error e => Error e
          end
      end
  end.

Fixpoint encode (j : nat) (categories : list (list string)) (X : list (list string))
  : result (list (list nat)) :=
  match categories, X with
  | [], [] => Ok []
  | cats :: categories', s :: X' =>
      match encode_column j cats s with
      | Error e => Error e
      | Ok r =>
          match encode (S j) categories' X' with
          | Ok rs => Ok (r :: rs)
          | Error e => Error e
          end
      end
  | _, _ => Error ShapeMismatch
  end.

(** [OrdinalEncoder(categories=categories)] with the default
    [handle_unknown='error'].  Fitting checks the training columns against
    the given categories and keeps them; transforming replaces each value by
    its code.  Both raise on a value that is not in its column's list. *)
Record OrdinalEncoder := { categories : list (list string) }.

Definition fit (enc : OrdinalEncoder) (X : list (list string)) : result OrdinalEncoder :=
  match encode 0 (categories enc) X with
  | Ok _ => Ok enc
  | Error e => Error e
  end.

Definition transform (enc : OrdinalEncoder) (X : list (list string))
  : result (list (list nat)) :=
  encode 0 (categories enc) X.

End Sklearn.

(** <<
    categories = [
        data[column].unique() for column in data[categorical_columns]]
>>
    [data] here is the categorical part of the frame. *)
Definition categories (data : Pandas.frame) : list (list string) :=
  map (fun column =>
         match Pandas.getitem data column with
         | Some s => Pandas.unique s
         | None => []
         end) (Pandas.columns data).

(** One fold of a cross-validation over [data]: the encoder built from
    [categories data] is fitted on the rows [train] and transforms the rows
    [validation] ([None]: a row index out of range). *)
Definition fit_transform_fold (data : Pandas.frame) (train validation : list nat)
  : option (Sklearn.result (list (list nat))) :=
  match Pandas.take_frame data train, Pandas.take_frame data validation with
  | Some d_train, Some d_val =>
      Some match Sklearn.fit {| Sklearn.categories := categories data |} (map snd d_train) with
           | Sklearn.Ok enc => Sklearn.transform enc (map snd d_val)
           | Sklearn.Error e => Sklearn.Error e
           end
  | _, _ => None
  end.

Definition census_sample : Pandas.frame :=
  [("workclass", ["Private"; "Local-gov"; "Private"; "?"]);
   ("sex", ["Male"; "Male"; "Female"; "Male"])].

(* ====================================================================== *)
(** * Python abstract syntax of the notebooks' code cells *)
(* ====================================================================== *)

Local Open Scope list_scope.

(** The constructors carry the names of the node classes of Python's own
    [ast] module.  String constants, f-string text and comments are kept as
    they are spelled in the source (an escape such as [\n] stays two
    characters); float literals are kept as their source text. *)

Inductive constant :=
| CStr (s : string)
| CInt (z : Z)
| CFloat (literal : string)
| CBool (b : bool)
| CNone.

Inductive operator := OpAdd | OpSub | OpMult | OpDiv | OpFloorDiv | OpMod | OpPow.

Inductive cmpop :=
| CmpEq | CmpNotEq | CmpLt | CmpLtE | CmpGt | CmpGtE | CmpIs | CmpIsNot | CmpIn | CmpNotIn.

Inductive expr :=
| Name (id : string)
| Constant (c : constant)
| Attribute (value : expr) (attr : string)
| Call (func : expr) (args : list expr) (keywords : list (string * expr))
| Starred (value : expr)                 (* [*args] among the arguments *)
| DoubleStarred (value : expr)           (* [**kwargs] among the arguments *)
| Subscript (value : expr) (slice : expr)
| Slice (lower upper : option expr)
| Tuple (elts : list expr)
| ListE (elts : list expr)
| Dict (items : list (expr * expr))
| BinOp (op : operator) (left right : expr)
| USub (operand : expr)
| Compare (op : cmpop) (left right : expr)
| IfExp (test body orelse : expr)
| Lambda (params : list string) (body : expr)
| ListComp (elt target iter : expr) (ifs : list expr)
| JoinedStr (values : list expr)         (* an f-string *)
| FormattedValue (value : expr) (format_spec : string).

Abbreviation Str s := (Constant (CStr s)).
Abbreviation Int z := (Constant (CInt z)).

Inductive param :=
| Param (name : string) (default : option expr)
| VarArgs (name : string)
| VarKw (name : string).

Inductive stmt :=
| Expr (value : expr)
| Assign (targets : list expr) (value : expr)
| AugAssign (target : expr) (op : operator) (value : expr)
| Import (module : string) (asname : option string)
| ImportFrom (module : string) (names : list (string * option string))
| Return (value : option expr)
| Raise (exc : option expr)
| FunctionDef (name : string) (params : list param) (body : list stmt)
| ClassDef (name : string) (bases : list expr) (body : list stmt)
| If (test : expr) (body orelse : list stmt)
| For (target iter : expr) (body : list stmt)
| While (test : expr) (body : list stmt)
| With (context : expr) (optional_vars : option expr) (body : list stmt)
| Try (body : list stmt) (exc_types : list expr) (handler : list stmt)
      (finalbody : list stmt).

(** A comment is kept as the pieces of its text that lie between double
    quote characters: [["# f("; "x"; ")"]] is the comment [# f("x")].  *)
Definition comment := list string.

(** A markdown cell carries narration only.  A code cell has an optional
    cell magic (its first line when that starts with [%%]), the comments of
    the cell in order, and the statements of the cell. *)
Inductive cell :=
| Markdown
| Code (magic : option string) (comments : list comment) (body : list stmt).

Record notebook := { path : string; cells : list cell }.

(* ====================================================================== *)
(** * The notebooks *)
(* ====================================================================== *)

Definition nb_part_000_exercise_01 : notebook :=
  {| path := "src/unnamed/part_000";
     cells := [
    (* cell 0 *)
    Markdown;
    (* cell 1 *)
    Code None []
      [Import "pandas" (Some "pd");
       Assign [Name "df"]
         (Call (Attribute (Name "pd") "read_csv") [Str "../datasets/adult-census.csv"] [])];
    (* cell 2 *)
    Code None []
      [Assign [Name "target_name"] (Str "class");
       Assign [Name "target"] (Subscript (Name "df") (Name "target_name"));
       Assign [Name "data"]
         (Call (Attribute (Name "df") "drop") []
            [("columns", ListE [Name "target_name"; Str "fnlwgt"])])];
    (* cell 3 *)
    Code None []
      [ImportFrom "sklearn.compose" [("make_column_selector", Some "selector")];
       Assign [Name "categorical_columns_selector"]
         (Call (Name "selector") [] [("dtype_include", Name "object")]);
       Assign [Name "categorical_columns"]
         (Call (Name "categorical_columns_selector") [Name "data"] []);
       Assign [Name "data_categorical"] (Subscript (Name "data") (Name "categorical_columns"))];
    (* cell 4 *)
    Code None [["# TODO: write me!"]]
      [ImportFrom "sklearn.model_selection" [("cross_val_score", None)];
       ImportFrom "sklearn.pipeline" [("make_pipeline", None)];
       ImportFrom "sklearn.preprocessing" [("OrdinalEncoder", None)];
       ImportFrom "sklearn.linear_model" [("LogisticRegression", None)]]
  ] |}.

Definition nb_part_000_solution_01 : notebook :=
  {| path := "src/unnamed/part_000";
     cells := [
    (* cell 0 *)
    Markdown;
    (* cell 1 *)
    Code None []
      [Import "pandas" (Some "pd");
       Assign [Name "df"]
         (Call (Attribute (Name "pd") "read_csv") [Str "../datasets/adult-census.csv"] [])];
    (* cell 2 *)
    Code None []
      [Assign [Name "target_name"] (Str "class");
       Assign [Name "target"] (Subscript (Name "df") (Name "target_name"));
       Assign [Name "data"]
         (Call (Attribute (Name "df") "drop") []
            [("columns", ListE [Name "target_name"; Str "fnlwgt"])])];
    (* cell 3 *)
    Code None []
      [ImportFrom "sklearn.compose" [("make_column_selector", Some "selector")];
       Assign [Name "categorical_columns_selector"]
         (Call (Name "selector") [] [("dtype_include", Name "object")]);
       Assign [Name "categorical_columns"]
         (Call (Name "categorical_columns_selector") [Name "data"] []);
       Assign [Name "data_categorical"] (Subscript (Name "data") (Name "categorical_columns"))];
    (* cell 4 *)
    Code None []
      [Assign [Name "categories"]
         (ListComp (Call (Attribute (Subscript (Name "data") (Name "column")) "unique") [] [])
            (Name "column")
            (Subscript (Name "data") (Name "categorical_columns"))
            []);
       Expr (Name "categories")];
    (* cell 5 *)
    Code None []
      [ImportFrom "sklearn.model_selection" [("cross_val_score", None)];
       ImportFrom "sklearn.pipeline" [("make_pipeline", None)];
       ImportFrom "sklearn.preprocessing" [("OrdinalEncoder", None)];
       ImportFrom "sklearn.linear_model" [("LogisticRegression", None)];
       Assign [Name "model"]
         (Call (Name "make_pipeline")
            [Call (Name "OrdinalEncoder") [] [("categories", Name "categories")];
             Call (Name "LogisticRegression") [] [("max_iter", Int 1000)]]
            []);
       Assign [Name "scores"]
         (Call (Name "cross_val_score") [Name "model"; Name "data_categorical"; Name "target"]
            []);
       Expr
         (Call (Name "print")
            [JoinedStr
               [Str "The different scores obtained are: \n"; FormattedValue (Name "scores") ""]]
            [])];
    (* cell 6 *)
    Code None []
      [Expr
         (Call (Name "print")
            [JoinedStr
               [Str "The accuracy is: ";
                FormattedValue (Call (Attribute (Name "scores") "mean") [] []) ".3f";
                Str " +- ";
                FormattedValue (Call (Attribute (Name "scores") "std") [] []) ".3f"]]
            [])];
    (* cell 7 *)
    Markdown;
    (* cell 8 *)
    Code None []
      [ImportFrom "sklearn.dummy" [("DummyClassifier", None)];
       Assign [Name "scores"]
         (Call (Name "cross_val_score")
            [Call (Name "DummyClassifier") [] [("strategy", Str "most_frequent")];
             Name "data_categorical";
             Name "target"]
            []);
       Expr
         (Call (Name "print")
            [JoinedStr
               [Str "The different scores obtained are: \n"; FormattedValue (Name "scores") ""]]
            []);
       Expr
         (Call (Name "print")
            [JoinedStr
               [Str "The accuracy is: ";
                FormattedValue (Call (Attribute (Name "scores") "mean") [] []) ".3f";
                Str " +- ";
                FormattedValue (Call (Attribute (Name "scores") "std") [] []) ".3f"]]
            [])];
    (* cell 9 *)
    Markdown;
    (* cell 10 *)
    Code None []
      [ImportFrom "sklearn.preprocessing" [("OneHotEncoder", None)];
       Assign [Name "model"]
         (Call (Name "make_pipeline")
            [Call (Name "OneHotEncoder") [] [("handle_unknown", Str "ignore")];
             Call (Name "LogisticRegression") [] [("max_iter", Int 1000)]]
            []);
       Assign [Name "scores"]
         (Call (Name "cross_val_score") [Name "model"; Name "data_categorical"; Name "target"]
            []);
       Expr
         (Call (Name "print")
            [JoinedStr
               [Str "The different scores obtained are: \n"; FormattedValue (Name "scores") ""]]
            []);
       Expr
         (Call (Name "print")
            [JoinedStr
               [Str "The accuracy is: ";
                FormattedValue (Call (Attribute (Name "scores") "mean") [] []) ".3f";
                Str " +- ";
                FormattedValue (Call (Attribute (Name "scores") "std") [] []) ".3f"]]
            [])]
  ] |}.

Definition nb_part_001 : notebook :=
  {| path := "src/unnamed/part_001";
     cells := [
    (* cell 0 *)
    Markdown;
    (* cell 1 *)
    Code None []
      [Import "pandas" (Some "pd");
       Assign [Name "df"]
         (Call (Attribute (Name "pd") "read_csv") [Str "../datasets/adult-census.csv"] [])];
    (* cell 2 *)
    Markdown;
    (* cell 3 *)
    Code None [] [Expr (Call (Attribute (Name "df") "head") [] [])];
    (* cell 4 *)
    Code None []
      [Assign [Name "target_name"] (Str "class");
       Assign [Name "target"] (Subscript (Name "df") (Name "target_name"));
       Expr (Name "target")];
    (* cell 5 *)
    Markdown;
    (* cell 6 *)
    Code None []
      [Assign [Name "data"]
         (Call (Attribute (Name "df") "drop") []
            [("columns", ListE [Name "target_name"; Str "fnlwgt"])]);
       Expr (Call (Attribute (Name "data") "head") [] [])];
    (* cell 7 *)
    Markdown;
    (* cell 8 *)
    Code None [] [Expr (Attribute (Name "data") "columns")];
    (* cell 9 *)
    Code None [] [Expr (Attribute (Name "data") "dtypes")];
    (* cell 10 *)
    Code None []
      [ImportFrom "sklearn.compose" [("make_column_selector", Some "selector")];
       Assign [Name "numerical_columns_selector"]
         (Call (Name "selector") [] [("dtype_exclude", Name "object")]);
       Assign [Name "numerical_columns"]
         (Call (Name "numerical_columns_selector") [Name "data"] []);
       Expr (Name "numerical_columns")];
    (* cell 11 *)
    Code None []
      [Assign [Name "data_numeric"] (Subscript (Name "data") (Name "numerical_columns"));
       Expr (Call (Attribute (Name "data_numeric") "head") [] [])];
    (* cell 12 *)
    Markdown;
    (* cell 13 *)
    Code None []
      [ImportFrom "sklearn.model_selection" [("train_test_split", None)];
       Assign
         [Tuple [Name "data_train"; Name "data_test"; Name "target_train"; Name "target_test"]]
         (Call (Name "train_test_split") [Name "data_numeric"; Name "target"]
            [("random_state", Int 42)])];
    (* cell 14 *)
    Code None []
      [Expr
         (Call (Name "print")
            [JoinedStr
               [Str "The training dataset contains ";
                FormattedValue (Subscript (Attribute (Name "data_train") "shape") (Int 0)) "";
                Str " samples and ";
                FormattedValue (Subscript (Attribute (Name "data_train") "shape") (Int 1)) "";
                Str " features"]]
            [])];
    (* cell 15 *)
    Code None []
      [Expr
         (Call (Name "print")
            [JoinedStr
               [Str "The testing dataset contains ";
                FormattedValue (Subscript (Attribute (Name "data_test") "shape") (Int 0)) "";
                Str " samples and ";
                FormattedValue (Subscript (Attribute (Name "data_test") "shape") (Int 1)) "";
                Str " features"]]
            [])];
    (* cell 16 *)
    Markdown;
    (* cell 17 *)
    Code None []
      [ImportFrom "sklearn.linear_model" [("LogisticRegression", None)];
       Import "time" None;
       Assign [Name "model"] (Call (Name "LogisticRegression") [] []);
       Assign [Name "start"] (Call (Attribute (Name "time") "time") [] []);
       Expr (Call (Attribute (Name "model") "fit") [Name "data_train"; Name "target_train"] []);
       Assign [Name "elapsed_time"]
         (BinOp OpSub (Call (Attribute (Name "time") "time") [] []) (Name "start"));
       Expr
         (Call (Name "print")
            [JoinedStr
               [Str "The model ";
                FormattedValue (Attribute (Attribute (Name "model") "__class__") "__name__") "";
                Str " was trained in ";
                FormattedValue (Name "elapsed_time") ".3f";
                Str " seconds for ";
                FormattedValue (Attribute (Name "model") "n_iter_") "";
                Str " iterations"]]
            [])];
    (* cell 18 *)
    Markdown;
    (* cell 19 *)
    Code None []
      [Assign [Name "target_predicted"]
         (Call (Attribute (Name "model") "predict") [Name "data_test"] []);
       Expr (Subscript (Name "target_predicted") (Slice None (Some (Int 5))))];
    (* cell 20 *)
    Code None [] [Expr (Subscript (Name "target_test") (Slice None (Some (Int 5))))];
    (* cell 21 *)
    Code None []
      [Assign [Name "predictions"] (Call (Attribute (Name "data_test") "copy") [] []);
       Assign [Subscript (Name "predictions") (Str "predicted-class")] (Name "target_predicted");
       Assign [Subscript (Name "predictions") (Str "expected-class")] (Name "target_test");
       Assign [Subscript (Name "predictions") (Str "correct")]
         (Compare CmpEq (Name "target_predicted") (Name "target_test"));
       Expr (Call (Attribute (Name "predictions") "head") [] [])];
    (* cell 22 *)
    Markdown;
    (* cell 23 *)
    Code None []
      [Expr
         (Call (Name "print")
            [JoinedStr
               [Str "The test accuracy using a ";
                FormattedValue (Attribute (Attribute (Name "model") "__class__") "__name__") "";
                Str " is ";
                FormattedValue
                  (Call (Attribute (Name "model") "score")
                     [Name "data_test"; Name "target_test"]
                     [])
                  ".3f"]]
            [])];
    (* cell 24 *)
    Markdown;
    (* cell 25 *)
    Code None []
      [Expr
         (Call (Attribute (Compare CmpEq (Name "target_test") (Name "target_predicted")) "mean")
            []
            [])];
    (* cell 26 *)
    Markdown
  ] |}.

Definition nb_part_002 : notebook :=
  {| path := "src/unnamed/part_002";
     cells := [
    (* cell 0 *)
    Markdown;
    (* cell 1 *)
    Markdown;
    (* cell 2 *)
    Code None []
      [Import "pandas" (Some "pd");
       Assign [Name "df"]
         (Call (Attribute (Name "pd") "read_csv") [Str "../datasets/adult-census.csv"] [])];
    (* cell 3 *)
    Code None []
      [Assign [Name "target_name"] (Str "class");
       Assign [Name "target"] (Subscript (Name "df") (Name "target_name"));
       Expr (Name "target")];
    (* cell 4 *)
    Code None []
      [Assign [Name "data"]
         (Call (Attribute (Name "df") "drop") []
            [("columns", ListE [Name "target_name"; Str "fnlwgt"])]);
       Expr (Call (Attribute (Name "data") "head") [] [])];
    (* cell 5 *)
    Markdown;
    (* cell 6 *)
    Code None []
      [ImportFrom "sklearn.model_selection" [("train_test_split", None)];
       Assign [Tuple [Name "df_train"; Name "df_test"; Name "target_train"; Name "target_test"]]
         (Call (Name "train_test_split") [Name "data"; Name "target"]
            [("random_state", Int 42)])];
    (* cell 7 *)
    Markdown;
    (* cell 8 *)
    Code None []
      [ImportFrom "sklearn.compose" [("ColumnTransformer", None)];
       ImportFrom "sklearn.compose" [("make_column_selector", Some "selector")];
       ImportFrom "sklearn.preprocessing" [("OrdinalEncoder", None)];
       Assign [Name "categorical_columns_selector"]
         (Call (Name "selector") [] [("dtype_include", Name "object")]);
       Assign [Name "categorical_columns"]
         (Call (Name "categorical_columns_selector") [Name "data"] []);
       Assign [Name "categories"]
         (ListComp (Call (Attribute (Subscript (Name "data") (Name "column")) "unique") [] [])
            (Name "column")
            (Subscript (Name "data") (Name "categorical_columns"))
            []);
       Assign [Name "categorical_preprocessor"]
         (Call (Name "OrdinalEncoder") [] [("categories", Name "categories")]);
       Assign [Name "preprocessor"]
         (Call (Name "ColumnTransformer")
            [ListE
               [Tuple
                  [Str "cat-preprocessor";
                   Name "categorical_preprocessor";
                   Name "categorical_columns"]]]
            [("remainder", Str "passthrough"); ("sparse_threshold", Int 0)])];
    (* cell 9 *)
    Markdown;
    (* cell 10 *)
    Code (Some "%%time")
      [["# for the moment this line is required to import HistGradientBoostingClassifier"];
       ["# In the previous example, we created an histogram gradient-boosting classifier"];
       ["# using the default parameters by omitting to explicitely set these parameters."];
       ["#"];
       ["# However, there is no reason that these parameters are optimal for our"];
       ["# dataset. For instance, we can try to set the `learning_rate` parameter and"];
       ["# see how it changes the score:"]]
      [ImportFrom "sklearn.experimental" [("enable_hist_gradient_boosting", None)];
       ImportFrom "sklearn.ensemble" [("HistGradientBoostingClassifier", None)];
       ImportFrom "sklearn.pipeline" [("Pipeline", None)];
       Assign [Name "model"]
         (Call (Name "Pipeline")
            [ListE
               [Tuple [Str "preprocessor"; Name "preprocessor"];
                Tuple
                  [Str "classifier";
                   Call (Name "HistGradientBoostingClassifier") [] [("random_state", Int 42)]]]]
            []);
       Expr (Call (Attribute (Name "model") "fit") [Name "df_train"; Name "target_train"] []);
       Expr
         (Call (Name "print")
            [JoinedStr
               [Str "The test accuracy score of the gradient boosting pipeline is: ";
                FormattedValue
                  (Call (Attribute (Name "model") "score") [Name "df_test"; Name "target_test"]
                     [])
                  ".2f"]]
            [])];
    (* cell 11 *)
    Code None []
      [Assign [Name "model"]
         (Call (Name "Pipeline")
            [ListE
               [Tuple [Str "preprocessor"; Name "preprocessor"];
                Tuple
                  [Str "classifier";
                   Call (Name "HistGradientBoostingClassifier") []
                     [("random_state", Int 42); ("learning_rate", Constant (CFloat "1e-3"))]]]]
            []);
       Expr (Call (Attribute (Name "model") "fit") [Name "df_train"; Name "target_train"] []);
       Expr
         (Call (Name "print")
            [JoinedStr
               [Str "The test accuracy score of the gradient boosting pipeline is: ";
                FormattedValue
                  (Call (Attribute (Name "model") "score") [Name "df_test"; Name "target_test"]
                     [])
                  ".2f"]]
            [])];
    (* cell 12 *)
    Code None
      [["# # %% [markdown]"];
       ["# ## Quizz"];
       ["#"];
       ["# 1. What is the default value of the `learning_rate` parameter of the"];
       ["# `HistGradientBoostingClassifier` class? ([link to the API documentation]("];
       ["# https://scikit-learn.org/stable/modules/generated/sklearn.ensemble.HistGradientBoostingClassifier.html))"];
       ["#"];
       ["# 2. Decrease progressively value of `learning_rate`: can you find a value that"];
       ["# yields an accuracy higher than with the default learning rate?"];
       ["#"];
       ["# 3. Fix `learning_rate` to 0.05 and try setting the value of `max_leaf_nodes`"];
       ["# to the minimum value of 2. Does it improve the accuracy?"];
       ["#"];
       ["# 4. Try to progressively increase the value of `max_leaf_nodes` to 256 by"];
       ["# taking powers of 2. What do you observe?"]]
      [Assign [Name "model"]
         (Call (Name "Pipeline")
            [ListE
               [Tuple [Str "preprocessor"; Name "preprocessor"];
                Tuple
                  [Str "classifier";
                   Call (Name "HistGradientBoostingClassifier") []
                     [("random_state", Int 42); ("learning_rate", Int 10)]]]]
            []);
       Expr (Call (Attribute (Name "model") "fit") [Name "df_train"; Name "target_train"] []);
       Expr
         (Call (Name "print")
            [JoinedStr
               [Str "The test accuracy score of the gradient boosting pipeline is: ";
                FormattedValue
                  (Call (Attribute (Name "model") "score") [Name "df_test"; Name "target_test"]
                     [])
                  ".2f"]]
            [])];
    (* cell 13 *)
    Markdown;
    (* cell 14 *)
    Code None []
      [Expr
         (Call (Attribute (Name "model") "set_params") []
            [("classifier__learning_rate", Constant (CFloat "1e-3"))]);
       Expr (Call (Attribute (Name "model") "fit") [Name "df_train"; Name "target_train"] []);
       Expr
         (Call (Name "print")
            [JoinedStr
               [Str "The test accuracy score of the gradient boosting pipeline is: ";
                FormattedValue
                  (Call (Attribute (Name "model") "score") [Name "df_test"; Name "target_test"]
                     [])
                  ".2f"]]
            [])];
    (* cell 15 *)
    Markdown;
    (* cell 16 *)
    Markdown;
    (* cell 17 *)
    Code None []
      [For (Name "parameter") (Call (Attribute (Name "model") "get_params") [] [])
         [Expr (Call (Name "print") [Name "parameter"] [])]];
    (* cell 18 *)
    Markdown;
    (* cell 19 *)
    Code None []
      [Expr
         (Subscript (Call (Attribute (Name "model") "get_params") [] [])
            (Str "classifier__learning_rate"))];
    (* cell 20 *)
    Markdown
  ] |}.

Definition nb_part_003 : notebook :=
  {| path := "src/unnamed/part_003";
     cells := [
    (* cell 0 *)
    Code None [] [];
    (* cell 1 *)
    Markdown;
    (* cell 2 *)
    Code None []
      [Import "pandas" (Some "pd");
       Assign [Name "df"]
         (Call (Attribute (Name "pd") "read_csv") [Str "../datasets/adult-census.csv"] []);
       Assign [Name "target_name"] (Str "class");
       Assign [Name "target"] (Subscript (Name "df") (Name "target_name"));
       Assign [Name "data"]
         (Call (Attribute (Name "df") "drop") []
            [("columns", ListE [Name "target_name"; Str "fnlwgt"])])];
    (* cell 3 *)
    Markdown;
    (* cell 4 *)
    Code None []
      [ImportFrom "sklearn.compose" [("make_column_selector", Some "selector")];
       Assign [Name "numerical_columns_selector"]
         (Call (Name "selector") [] [("dtype_exclude", Name "object")]);
       Assign [Name "categorical_columns_selector"]
         (Call (Name "selector") [] [("dtype_include", Name "object")]);
       Assign [Name "numerical_columns"]
         (Call (Name "numerical_columns_selector") [Name "data"] []);
       Assign [Name "categorical_columns"]
         (Call (Name "categorical_columns_selector") [Name "data"] [])];
    (* cell 5 *)
    Markdown;
    (* cell 6 *)
    Code None []
      [Assign [Name "binary_encoding_columns"] (ListE [Str "sex"]);
       Assign [Name "one_hot_encoding_columns"]
         (ListComp (Name "c") (Name "c") (Name "categorical_columns")
            [Compare CmpNotIn (Name "c") (Name "binary_encoding_columns")])];
    (* cell 7 *)
    Markdown;
    (* cell 8 *)
    Code None []
      [ImportFrom "sklearn.preprocessing" [("OrdinalEncoder", None)];
       ImportFrom "sklearn.preprocessing" [("OneHotEncoder", None)];
       ImportFrom "sklearn.preprocessing" [("StandardScaler", None)];
       ImportFrom "sklearn.compose" [("ColumnTransformer", None)];
       ImportFrom "sklearn.linear_model" [("LogisticRegression", None)];
       ImportFrom "sklearn.pipeline" [("make_pipeline", None)];
       Assign [Name "preprocessor"]
         (Call (Name "ColumnTransformer")
            [ListE
               [Tuple
                  [Str "binary-encoder";
                   Call (Name "OrdinalEncoder") [] [];
                   Name "binary_encoding_columns"];
                Tuple
                  [Str "one-hot-encoder";
                   Call (Name "OneHotEncoder") [] [("handle_unknown", Str "ignore")];
                   Name "one_hot_encoding_columns"];
                Tuple
                  [Str "standard-scaler";
                   Call (Name "StandardScaler") [] [];
                   Name "numerical_columns"]]]
            [])];
    (* cell 9 *)
    Code None []
      [Assign [Name "model"]
         (Call (Name "make_pipeline")
            [Name "preprocessor"; Call (Name "LogisticRegression") [] [("max_iter", Int 1000)]]
            [])];
    (* cell 10 *)
    Markdown;
    (* cell 11 *)
    Code None []
      [ImportFrom "sklearn" [("config_context", None)];
       With (Call (Name "config_context") [] [("display", Str "diagram")]) None
         [Expr (Name "model")]];
    (* cell 12 *)
    Markdown;
    (* cell 13 *)
    Code None []
      [ImportFrom "sklearn.model_selection" [("train_test_split", None)];
       Assign
         [Tuple [Name "data_train"; Name "data_test"; Name "target_train"; Name "target_test"]]
         (Call (Name "train_test_split") [Name "data"; Name "target"]
            [("random_state", Int 42)])];
    (* cell 14 *)
    Code None []
      [Assign [Name "_"]
         (Call (Attribute (Name "model") "fit") [Name "data_train"; Name "target_train"] [])];
    (* cell 15 *)
    Code None [] [Expr (Call (Attribute (Name "data_test") "head") [] [])];
    (* cell 16 *)
    Code None []
      [Expr
         (Subscript (Call (Attribute (Name "model") "predict") [Name "data_test"] [])
            (Slice None (Some (Int 5))))];
    (* cell 17 *)
    Code None [] [Expr (Subscript (Name "target_test") (Slice None (Some (Int 5))))];
    (* cell 18 *)
    Code None []
      [Expr (Call (Attribute (Name "model") "score") [Name "data_test"; Name "target_test"] [])];
    (* cell 19 *)
    Markdown;
    (* cell 20 *)
    Code None []
      [ImportFrom "sklearn.model_selection" [("cross_val_score", None)];
       Assign [Name "scores"]
         (Call (Name "cross_val_score") [Name "model"; Name "data"; Name "target"]
            [("cv", Int 5)]);
       Expr (Name "scores")];
    (* cell 21 *)
    Code None []
      [Expr
         (Call (Name "print")
            [JoinedStr
               [Str "The accuracy is: ";
                FormattedValue (Call (Attribute (Name "scores") "mean") [] []) ".3f";
                Str " +- ";
                FormattedValue (Call (Attribute (Name "scores") "std") [] []) ".3f"]]
            [])];
    (* cell 22 *)
    Markdown;
    (* cell 23 *)
    Markdown;
    (* cell 24 *)
    Code None
      [["# For each categorical column, extract the list of all possible categories"];
       ["# in some arbritrary order."]]
      [ImportFrom "sklearn.experimental" [("enable_hist_gradient_boosting", None)];
       ImportFrom "sklearn.ensemble" [("HistGradientBoostingClassifier", None)];
       Assign [Name "categories"]
         (ListComp (Call (Attribute (Subscript (Name "data") (Name "column")) "unique") [] [])
            (Name "column")
            (Name "categorical_columns")
            []);
       Assign [Name "preprocessor"]
         (Call (Name "ColumnTransformer")
            [ListE
               [Tuple
                  [Str "categorical";
                   Call (Name "OrdinalEncoder") [] [("categories", Name "categories")];
                   Name "categorical_columns"]]]
            [("remainder", Str "passthrough")]);
       Assign [Name "model"]
         (Call (Name "make_pipeline")
            [Name "preprocessor"; Call (Name "HistGradientBoostingClassifier") [] []]
            [])];
    (* cell 25 *)
    Code (Some "%%time") []
      [Assign [Name "_"]
         (Call (Attribute (Name "model") "fit") [Name "data_train"; Name "target_train"] [])];
    (* cell 26 *)
    Code None []
      [Expr (Call (Attribute (Name "model") "score") [Name "data_test"; Name "target_test"] [])];
    (* cell 27 *)
    Markdown;
    (* cell 28 *)
    Markdown
  ] |}.

Definition nb_04_parameter_tuning_search : notebook :=
  {| path := "src/notebooks/04_parameter_tuning_search.ipynb";
     cells := [
    (* cell 0 *)
    Markdown;
    (* cell 1 *)
    Markdown;
    (* cell 2 *)
    Code None []
      [Import "pandas" (Some "pd");
       Assign [Name "df"]
         (Call (Attribute (Name "pd") "read_csv") [Str "../datasets/adult-census.csv"] [])];
    (* cell 3 *)
    Code None []
      [Assign [Name "target_name"] (Str "class");
       Assign [Name "target"] (Subscript (Name "df") (Name "target_name"));
       Expr (Name "target")];
    (* cell 4 *)
    Code None []
      [Assign [Name "data"]
         (Call (Attribute (Name "df") "drop") []
            [("columns", ListE [Name "target_name"; Str "fnlwgt"])]);
       Expr (Call (Attribute (Name "data") "head") [] [])];
    (* cell 5 *)
    Markdown;
    (* cell 6 *)
    Code None []
      [ImportFrom "sklearn.model_selection" [("train_test_split", None)];
       Assign [Tuple [Name "df_train"; Name "df_test"; Name "target_train"; Name "target_test"]]
         (Call (Name "train_test_split") [Name "data"; Name "target"]
            [("random_state", Int 42)])];
    (* cell 7 *)
    Markdown;
    (* cell 8 *)
    Code None []
      [ImportFrom "sklearn.compose" [("ColumnTransformer", None)];
       ImportFrom "sklearn.compose" [("make_column_selector", Some "selector")];
       ImportFrom "sklearn.preprocessing" [("OrdinalEncoder", None)];
       Assign [Name "categorical_columns_selector"]
         (Call (Name "selector") [] [("dtype_include", Name "object")]);
       Assign [Name "categorical_columns"]
         (Call (Name "categorical_columns_selector") [Name "data"] []);
       Assign [Name "categories"]
         (ListComp (Call (Attribute (Subscript (Name "data") (Name "column")) "unique") [] [])
            (Name "column")
            (Subscript (Name "data") (Name "categorical_columns"))
            []);
       Assign [Name "categorical_preprocessor"]
         (Call (Name "OrdinalEncoder") [] [("categories", Name "categories")]);
       Assign [Name "preprocessor"]
         (Call (Name "ColumnTransformer")
            [ListE
               [Tuple
                  [Str "cat-preprocessor";
                   Name "categorical_preprocessor";
                   Name "categorical_columns"]]]
            [("remainder", Str "passthrough"); ("sparse_threshold", Int 0)])];
    (* cell 9 *)
    Markdown;
    (* cell 10 *)
    Code (Some "%%time")
      [["# for the moment this line is required to import HistGradientBoostingClassifier"]]
      [ImportFrom "sklearn.experimental" [("enable_hist_gradient_boosting", None)];
       ImportFrom "sklearn.ensemble" [("HistGradientBoostingClassifier", None)];
       ImportFrom "sklearn.pipeline" [("Pipeline", None)];
       Assign [Name "model"]
         (Call (Name "Pipeline")
            [ListE
               [Tuple [Str "preprocessor"; Name "preprocessor"];
                Tuple
                  [Str "classifier";
                   Call (Name "HistGradientBoostingClassifier") []
                     [("random_state", Int 42); ("max_leaf_nodes", Int 4)]]]]
            []);
       Expr (Call (Attribute (Name "model") "fit") [Name "df_train"; Name "target_train"] [])];
    (* cell 11 *)
    Markdown;
    (* cell 12 *)
    Code (Some "%%time") []
      [Import "numpy" (Some "np");
       ImportFrom "sklearn.model_selection" [("GridSearchCV", None)];
       Assign [Name "param_grid"]
         (Dict
            [(Str "classifier__learning_rate",
              Tuple
                [Constant (CFloat "0.05");
                 Constant (CFloat "0.1");
                 Constant (CFloat "0.5");
                 Int 1;
                 Int 5]);
             (Str "classifier__max_leaf_nodes", Tuple [Int 3; Int 10; Int 30; Int 100])]);
       Assign [Name "model_grid_search"]
         (Call (Name "GridSearchCV") [Name "model"]
            [("param_grid", Name "param_grid"); ("n_jobs", Int 4); ("cv", Int 2)]);
       Expr
         (Call (Attribute (Name "model_grid_search") "fit")
            [Name "df_train"; Name "target_train"]
            []);
       Expr
         (Call (Name "print")
            [JoinedStr
               [Str "The test accuracy score of the grid-searched pipeline is: ";
                FormattedValue
                  (Call (Attribute (Name "model_grid_search") "score")
                     [Name "df_test"; Name "target_test"]
                     [])
                  ".2f"]]
            [])];
    (* cell 13 *)
    Markdown;
    (* cell 14 *)
    Code None []
      [Expr
         (Call (Attribute (Name "model_grid_search") "predict")
            [Subscript (Attribute (Name "df_test") "iloc") (Slice (Some (Int 0)) (Some (Int 5)))]
            [])];
    (* cell 15 *)
    Markdown;
    (* cell 16 *)
    Code None []
      [Expr
         (Call (Name "print")
            [JoinedStr
               [Str "The best set of parameters is: ";
                FormattedValue (Attribute (Name "model_grid_search") "best_params_") ""]]
            [])];
    (* cell 17 *)
    Markdown;
    (* cell 18 *)
    Markdown;
    (* cell 19 *)
    Code None []
      [Assign [Name "cv_results"]
         (Call
            (Attribute
               (Call (Attribute (Name "pd") "DataFrame")
                  [Attribute (Name "model_grid_search") "cv_results_"]
                  [])
               "sort_values")
            [Str "mean_test_score"]
            [("ascending", Constant (CBool false))]);
       Expr (Call (Attribute (Name "cv_results") "head") [] [])];
    (* cell 20 *)
    Markdown;
    (* cell 21 *)
    Code None [["# get the parameter names"]]
      [Assign [Name "column_results"]
         (ListComp (JoinedStr [Str "param_"; FormattedValue (Name "name") ""]) (Name "name")
            (Call (Attribute (Name "param_grid") "keys") [] [])
            []);
       AugAssign (Name "column_results") OpAdd
         (ListE [Str "mean_test_score"; Str "std_test_score"; Str "rank_test_score"]);
       Assign [Name "cv_results"] (Subscript (Name "cv_results") (Name "column_results"))];
    (* cell 22 *)
    Code None []
      [FunctionDef "shorten_param" [Param "param_name" None]
         [If (Compare CmpIn (Str "__") (Name "param_name"))
            [Return
               (Some
                  (Subscript
                     (Call (Attribute (Name "param_name") "rsplit") [Str "__"; Int 1] [])
                     (Int 1)))]
            [];
          Return (Some (Name "param_name"))];
       Assign [Name "cv_results"]
         (Call (Attribute (Name "cv_results") "rename") [Name "shorten_param"]
            [("axis", Int 1)]);
       Expr (Name "cv_results")];
    (* cell 23 *)
    Markdown;
    (* cell 24 *)
    Code None []
      [Assign [Name "pivoted_cv_results"]
         (Call (Attribute (Name "cv_results") "pivot_table") []
            [("values", Str "mean_test_score");
             ("index", ListE [Str "learning_rate"]);
             ("columns", ListE [Str "max_leaf_nodes"])]);
       Expr (Name "pivoted_cv_results")];
    (* cell 25 *)
    Code None []
      [Import "matplotlib.pyplot" (Some "plt");
       ImportFrom "seaborn" [("heatmap", None)];
       Assign [Name "ax"]
         (Call (Name "heatmap") [Name "pivoted_cv_results"]
            [("annot", Constant (CBool true));
             ("cmap", Str "YlGnBu");
             ("vmin", Constant (CFloat "0.7"));
             ("vmax", Constant (CFloat "0.9"))]);
       Expr (Call (Attribute (Name "ax") "invert_yaxis") [] [])];
    (* cell 26 *)
    Markdown;
    (* cell 27 *)
    Markdown;
    (* cell 28 *)
    Code None []
      [ImportFrom "scipy.stats" [("reciprocal", None)];
       ImportFrom "sklearn.model_selection" [("RandomizedSearchCV", None)];
       ImportFrom "pprint" [("pprint", None)];
       ClassDef "reciprocal_int" []
         [Expr (Str "Integer valued version of the log-uniform distribution");
          FunctionDef "__init__" [Param "self" None; Param "a" None; Param "b" None]
            [Assign [Attribute (Name "self") "_distribution"]
               (Call (Name "reciprocal") [Name "a"; Name "b"] [])];
          FunctionDef "rvs" [Param "self" None; VarArgs "args"; VarKw "kwargs"]
            [Expr (Str "Random variable sample");
             Return
               (Some
                  (Call
                     (Attribute
                        (Call (Attribute (Attribute (Name "self") "_distribution") "rvs")
                           [Starred (Name "args"); DoubleStarred (Name "kwargs")]
                           [])
                        "astype")
                     [Name "int"]
                     []))]];
       Assign [Name "param_distributions"]
         (Dict
            [(Str "classifier__l2_regularization",
              Call (Name "reciprocal") [Constant (CFloat "1e-6"); Constant (CFloat "1e3")] []);
             (Str "classifier__learning_rate",
              Call (Name "reciprocal") [Constant (CFloat "0.001"); Int 10] []);
             (Str "classifier__max_leaf_nodes",
              Call (Name "reciprocal_int") [Int 2; Int 256] []);
             (Str "classifier__min_samples_leaf",
              Call (Name "reciprocal_int") [Int 1; Int 100] []);
             (Str "classifier__max_bins", Call (Name "reciprocal_int") [Int 2; Int 255] [])]);
       Assign [Name "model_random_search"]
         (Call (Name "RandomizedSearchCV") [Name "model"]
            [("param_distributions", Name "param_distributions");
             ("n_iter", Int 10);
             ("n_jobs", Int 4);
             ("cv", Int 5)]);
       Expr
         (Call (Attribute (Name "model_random_search") "fit")
            [Name "df_train"; Name "target_train"]
            []);
       Expr
         (Call (Name "print")
            [JoinedStr
               [Str "The test accuracy score of the best model is ";
                FormattedValue
                  (Call (Attribute (Name "model_random_search") "score")
                     [Name "df_test"; Name "target_test"]
                     [])
                  ".2f"]]
            [])];
    (* cell 29 *)
    Code None []
      [Expr (Call (Name "print") [Str "The best parameters are:"] []);
       Expr (Call (Name "pprint") [Attribute (Name "model_random_search") "best_params_"] [])];
    (* cell 30 *)
    Markdown;
    (* cell 31 *)
    Code None [["# get the parameter names"]]
      [Assign [Name "column_results"]
         (ListComp (JoinedStr [Str "param_"; FormattedValue (Name "name") ""]) (Name "name")
            (Call (Attribute (Name "param_distributions") "keys") [] [])
            []);
       AugAssign (Name "column_results") OpAdd
         (ListE [Str "mean_test_score"; Str "std_test_score"; Str "rank_test_score"]);
       Assign [Name "cv_results"]
         (Call (Attribute (Name "pd") "DataFrame")
            [Attribute (Name "model_random_search") "cv_results_"]
            []);
       Assign [Name "cv_results"]
         (Call (Attribute (Subscript (Name "cv_results") (Name "column_results")) "sort_values")
            [Str "mean_test_score"]
            [("ascending", Constant (CBool false))]);
       Assign [Name "cv_results"]
         (Call (Attribute (Name "cv_results") "rename") [Name "shorten_param"]
            [("axis", Int 1)]);
       Expr (Name "cv_results")];
    (* cell 32 *)
    Markdown;
    (* cell 33 *)
    Code None
      [["# model_random_search = RandomizedSearchCV("];
       ["#     model, param_distributions=param_distributions, n_iter=500,"];
       ["#     n_jobs=4, cv=5)"];
       ["# model_random_search.fit(df_train, target_train)"];
       ["# cv_results =  pd.DataFrame(model_random_search.cv_results_)"];
       ["# cv_results.to_csv("; "../figures/randomized_search_results.csv"; ")"]]
      [];
    (* cell 34 *)
    Code None []
      [Assign [Name "cv_results"]
         (Call (Attribute (Name "pd") "read_csv")
            [Str "../figures/randomized_search_results.csv"]
            [("index_col", Int 0)])];
    (* cell 35 *)
    Markdown;
    (* cell 36 *)
    Code None []
      [Expr
         (Call
            (Attribute
               (Call
                  (Attribute (Subscript (Name "cv_results") (Name "column_results")) "rename")
                  [Name "shorten_param"]
                  [("axis", Int 1)])
               "sort_values")
            [Str "mean_test_score"]
            [])];
    (* cell 37 *)
    Code None []
      [Import "plotly.express" (Some "px");
       Assign [Name "fig"]
         (Call (Attribute (Name "px") "parallel_coordinates")
            [Call
               (Attribute
                  (Call (Attribute (Name "cv_results") "rename") [Name "shorten_param"]
                     [("axis", Int 1)])
                  "apply")
               [Dict
                  [(Str "learning_rate", Attribute (Name "np") "log10");
                   (Str "max_leaf_nodes", Attribute (Name "np") "log2");
                   (Str "max_bins", Attribute (Name "np") "log2");
                   (Str "min_samples_leaf", Attribute (Name "np") "log10");
                   (Str "l2_regularization", Attribute (Name "np") "log10");
                   (Str "mean_test_score", Lambda ["x"] (Name "x"))]]
               []]
            [("color", Str "mean_test_score");
             ("color_continuous_scale",
              Attribute (Attribute (Attribute (Name "px") "colors") "sequential") "Viridis")]);
       Expr (Call (Attribute (Name "fig") "show") [] [])];
    (* cell 38 *)
    Markdown;
    (* cell 39 *)
    Markdown;
    (* cell 40 *)
    Markdown
  ] |}.

Definition nb_feature_selection : notebook :=
  {| path := "src/notebooks/feature_selection.ipynb";
     cells := [
    (* cell 0 *)
    Markdown;
    (* cell 1 *)
    Markdown;
    (* cell 2 *)
    Code None []
      [ImportFrom "sklearn.datasets" [("make_classification", None)];
       Assign [Tuple [Name "X"; Name "y"]]
         (Call (Name "make_classification") []
            [("n_samples", Int 5000);
             ("n_features", Int 100);
             ("n_informative", Int 2);
             ("n_redundant", Int 0);
             ("n_repeated", Int 0);
             ("random_state", Int 0)])];
    (* cell 3 *)
    Markdown;
    (* cell 4 *)
    Code None []
      [ImportFrom "sklearn.ensemble" [("RandomForestClassifier", None)];
       ImportFrom "sklearn.feature_selection" [("SelectKBest", None)];
       ImportFrom "sklearn.feature_selection" [("f_classif", None)];
       ImportFrom "sklearn.pipeline" [("make_pipeline", None)];
       Assign [Name "model_without_selection"]
         (Call (Name "RandomForestClassifier") [] [("n_jobs", Int (-1))]);
       Assign [Name "model_with_selection"]
         (Call (Name "make_pipeline")
            [Call (Name "SelectKBest") [] [("score_func", Name "f_classif"); ("k", Int 2)];
             Call (Name "RandomForestClassifier") [] [("n_jobs", Int (-1))]]
            [])];
    (* cell 5 *)
    Markdown;
    (* cell 6 *)
    Code None []
      [Import "pandas" (Some "pd");
       ImportFrom "sklearn.model_selection" [("cross_validate", None)];
       Assign [Name "cv_results_without_selection"]
         (Call (Attribute (Name "pd") "DataFrame")
            [Call (Name "cross_validate") [Name "model_without_selection"; Name "X"; Name "y"]
               []]
            []);
       Assign [Name "cv_results_with_selection"]
         (Call (Attribute (Name "pd") "DataFrame")
            [Call (Name "cross_validate") [Name "model_with_selection"; Name "X"; Name "y"]
               [("return_estimator", Constant (CBool true))]]
            [])];
    (* cell 7 *)
    Code None []
      [Assign [Name "cv_results"]
         (Call
            (Attribute
               (Call (Attribute (Name "pd") "concat")
                  [ListE [Name "cv_results_without_selection"; Name "cv_results_with_selection"]]
                  [("axis", Int 1);
                   ("keys",
                    ListE [Str "Without feature selection"; Str "With feature selection"])])
               "swaplevel")
            []
            [("axis", Str "columns")])];
    (* cell 8 *)
    Markdown;
    (* cell 9 *)
    Code None []
      [Import "matplotlib.pyplot" (Some "plt");
       Expr
         (Call
            (Attribute (Attribute (Subscript (Name "cv_results") (Str "fit_time")) "plot")
               "box")
            []
            [("vert", Constant (CBool false)); ("whis", Int 100)]);
       Expr (Call (Attribute (Name "plt") "xlabel") [Str "Elapsed time (s)"] []);
       Assign [Name "_"]
         (Call (Attribute (Name "plt") "title") [Str "Time to fit the model"] [])];
    (* cell 10 *)
    Code None []
      [Expr
         (Call
            (Attribute (Attribute (Subscript (Name "cv_results") (Str "score_time")) "plot")
               "box")
            []
            [("vert", Constant (CBool false)); ("whis", Int 100)]);
       Expr (Call (Attribute (Name "plt") "xlabel") [Str "Elapsed time (s)"] []);
       Assign [Name "_"]
         (Call (Attribute (Name "plt") "title") [Str "Time to make prediction"] [])];
    (* cell 11 *)
    Markdown;
    (* cell 12 *)
    Code None []
      [Expr
         (Call
            (Attribute (Attribute (Subscript (Name "cv_results") (Str "test_score")) "plot")
               "box")
            []
            [("vert", Constant (CBool false)); ("whis", Int 100)]);
       Expr (Call (Attribute (Name "plt") "xlabel") [Str "Accuracy score"] []);
       Assign [Name "_"]
         (Call (Attribute (Name "plt") "title") [Str "Test score via cross-validation"] [])];
    (* cell 13 *)
    Markdown;
    (* cell 14 *)
    Code None []
      [Import "numpy" (Some "np");
       For (Tuple [Name "idx"; Name "pipeline"])
         (Call (Name "enumerate")
            [Subscript (Name "cv_results_with_selection") (Str "estimator")]
            [])
         [Expr
            (Call (Name "print")
               [JoinedStr
                  [Str "Fold #";
                   FormattedValue (Name "idx") "";
                   Str " - features selected are: ";
                   FormattedValue
                     (Subscript
                        (Call (Attribute (Name "np") "argsort")
                           [Attribute (Subscript (Name "pipeline") (Int 0)) "scores_"]
                           [])
                        (Slice (Some (Int (-2))) None))
                     ""]]
               [])]];
    (* cell 15 *)
    Markdown;
    (* cell 16 *)
    Code None []
      [Assign [Name "rng"]
         (Call (Attribute (Attribute (Name "np") "random") "RandomState") [Int 42] []);
       Assign [Tuple [Name "X"; Name "y"]]
         (Tuple
            [Call (Attribute (Name "rng") "randn") [Int 100; Int 100000] [];
             Call (Attribute (Name "rng") "randint") [Int 0; Int 2] [("size", Int 100)]])];
    (* cell 17 *)
    Code None []
      [ImportFrom "sklearn.model_selection" [("cross_val_score", None)];
       ImportFrom "sklearn.linear_model" [("LogisticRegression", None)];
       Assign [Name "model"] (Call (Name "LogisticRegression") [] []);
       Assign [Name "test_score"]
         (Call (Name "cross_val_score") [Name "model"; Name "X"; Name "y"]
            [("n_jobs", Int (-1))]);
       Expr
         (Call (Name "print")
            [JoinedStr
               [Str "The mean accuracy is: ";
                FormattedValue (Call (Attribute (Name "test_score") "mean") [] []) ".3f"]]
            [])];
    (* cell 18 *)
    Markdown;
    (* cell 19 *)
    Code None []
      [ImportFrom "sklearn.model_selection" [("cross_val_score", None)];
       Assign [Name "feature_selector"]
         (Call (Name "SelectKBest") [] [("score_func", Name "f_classif"); ("k", Int 10)]);
       Assign [Name "test_score"]
         (Call (Name "cross_val_score")
            [Name "model";
             Call (Attribute (Name "feature_selector") "fit_transform") [Name "X"; Name "y"] [];
             Name "y"]
            []);
       Expr
         (Call (Name "print")
            [JoinedStr
               [Str "The mean accuracy is: ";
                FormattedValue (Call (Attribute (Name "test_score") "mean") [] []) ".3f"]]
            [])];
    (* cell 20 *)
    Markdown;
    (* cell 21 *)
    Code None []
      [Assign [Name "model"]
         (Call (Name "make_pipeline")
            [Name "feature_selector"; Call (Name "LogisticRegression") [] []]
            []);
       Assign [Name "test_score"]
         (Call (Name "cross_val_score") [Name "model"; Name "X"; Name "y"] []);
       Expr
         (Call (Name "print")
            [JoinedStr
               [Str "The mean accuracy is: ";
                FormattedValue (Call (Attribute (Name "test_score") "mean") [] []) ".3f"]]
            [])];
    (* cell 22 *)
    Markdown;
    (* cell 23 *)
    Code None []
      [Assign [Tuple [Name "X"; Name "y"]]
         (Call (Name "make_classification") []
            [("n_samples", Int 5000);
             ("n_features", Int 100);
             ("n_informative", Int 2);
             ("n_redundant", Int 5);
             ("n_repeated", Int 5);
             ("class_sep", Constant (CFloat "0.3"));
             ("random_state", Int 0)])];
    (* cell 24 *)
    Markdown;
    (* cell 25 *)
    Code None []
      [Assign [Name "model_without_selection"]
         (Call (Name "RandomForestClassifier") [] [("n_jobs", Int (-1))]);
       Assign [Name "cv_results_without_selection"]
         (Call (Attribute (Name "pd") "DataFrame")
            [Call (Name "cross_validate") [Name "model_without_selection"; Name "X"; Name "y"]
               [("cv", Int 5)]]
            [])];
    (* cell 26 *)
    Markdown;
    (* cell 27 *)
    Code None []
      [ImportFrom "sklearn.feature_selection" [("SelectFromModel", None)];
       Assign [Name "model_with_selection"]
         (Call (Name "make_pipeline")
            [Call (Name "SelectFromModel") []
               [("estimator", Call (Name "RandomForestClassifier") [] [("n_jobs", Int (-1))])];
             Call (Name "RandomForestClassifier") [] [("n_jobs", Int (-1))]]
            []);
       Assign [Name "cv_results_with_selection"]
         (Call (Attribute (Name "pd") "DataFrame")
            [Call (Name "cross_validate") [Name "model_with_selection"; Name "X"; Name "y"]
               [("cv", Int 5)]]
            [])];
    (* cell 28 *)
    Markdown;
    (* cell 29 *)
    Code None []
      [Assign [Name "cv_results"]
         (Call
            (Attribute
               (Call (Attribute (Name "pd") "concat")
                  [ListE [Name "cv_results_without_selection"; Name "cv_results_with_selection"]]
                  [("axis", Int 1);
                   ("keys",
                    ListE [Str "Without feature selection"; Str "With feature selection"])])
               "swaplevel")
            []
            [("axis", Str "columns")]);
       Expr
         (Call
            (Attribute (Attribute (Subscript (Name "cv_results") (Str "test_score")) "plot")
               "box")
            []
            [("vert", Constant (CBool false)); ("whis", Int 100)]);
       Expr (Call (Attribute (Name "plt") "xlabel") [Str "Accuracy"] []);
       Assign [Name "_"]
         (Call (Attribute (Name "plt") "title")
            [Str "Limitation of using a random forest for feature selection"]
            [])];
    (* cell 30 *)
    Markdown
  ] |}.

Definition nb_trees : notebook :=
  {| path := "src/notebooks/trees.ipynb";
     cells := [
    (* cell 0 *)
    Markdown;
    (* cell 1 *)
    Code None [["# select the features of interest"]]
      [Import "pandas" (Some "pd");
       Assign [Name "data"]
         (Call (Attribute (Name "pd") "read_csv") [Str "../datasets/penguins.csv"] []);
       Assign [Name "culmen_columns"]
         (ListE [Str "Culmen Length (mm)"; Str "Culmen Depth (mm)"]);
       Assign [Name "target_column"] (Str "Species");
       Assign [Name "data"]
         (Subscript (Name "data")
            (BinOp OpAdd (Name "culmen_columns") (ListE [Name "target_column"])));
       Assign [Subscript (Name "data") (Name "target_column")]
         (Subscript
            (Attribute
               (Call
                  (Attribute (Attribute (Subscript (Name "data") (Name "target_column")) "str")
                     "split")
                  []
                  [])
               "str")
            (Int 0))];
    (* cell 2 *)
    Markdown;
    (* cell 3 *)
    Code None [] [Expr (Call (Attribute (Name "data") "info") [] [])];
    (* cell 4 *)
    Markdown;
    (* cell 5 *)
    Code None []
      [Assign [Name "data"] (Call (Attribute (Name "data") "dropna") [] []);
       Expr (Call (Attribute (Name "data") "info") [] [])];
    (* cell 6 *)
    Markdown;
    (* cell 7 *)
    Code None []
      [ImportFrom "sklearn.model_selection" [("train_test_split", None)];
       Assign [Tuple [Name "X"; Name "y"]]
         (Tuple
            [Subscript (Name "data") (Name "culmen_columns");
             Subscript (Name "data") (Name "target_column")]);
       Assign [Tuple [Name "X_train"; Name "X_test"; Name "y_train"; Name "y_test"]]
         (Call (Name "train_test_split") [Name "X"; Name "y"]
            [("stratify", Name "y"); ("random_state", Int 0)])];
    (* cell 8 *)
    Markdown;
    (* cell 9 *)
    Code None []
      [Import "seaborn" (Some "sns");
       Assign [Name "_"]
         (Call (Attribute (Name "sns") "pairplot") []
            [("data", Name "data"); ("hue", Str "Species")])];
    (* cell 10 *)
    Markdown;
    (* cell 11 *)
    Code None
      [["# create a grid to evaluate all possible samples"];
       ["# compute the associated prediction"];
       ["# make the plot of the boundary and the data samples"]]
      [Import "numpy" (Some "np");
       Import "matplotlib.pyplot" (Some "plt");
       FunctionDef "plot_decision_function"
         [Param "X" None; Param "y" None; Param "clf" None; Param "ax" (Some (Constant CNone))]
         [Expr (Str "Plot the boundary of the decision function of a classifier.");
          ImportFrom "sklearn.preprocessing" [("LabelEncoder", None)];
          Expr (Call (Attribute (Name "clf") "fit") [Name "X"; Name "y"] []);
          Assign [Name "plot_step"] (Constant (CFloat "0.02"));
          Assign [Tuple [Name "feature_0_min"; Name "feature_0_max"]]
            (Tuple
               [BinOp OpSub
                  (Call
                     (Attribute
                        (Subscript (Attribute (Name "X") "iloc")
                           (Tuple [Slice None None; Int 0]))
                        "min")
                     []
                     [])
                  (Int 1);
                BinOp OpAdd
                  (Call
                     (Attribute
                        (Subscript (Attribute (Name "X") "iloc")
                           (Tuple [Slice None None; Int 0]))
                        "max")
                     []
                     [])
                  (Int 1)]);
          Assign [Tuple [Name "feature_1_min"; Name "feature_1_max"]]
            (Tuple
               [BinOp OpSub
                  (Call
                     (Attribute
                        (Subscript (Attribute (Name "X") "iloc")
                           (Tuple [Slice None None; Int 1]))
                        "min")
                     []
                     [])
                  (Int 1);
                BinOp OpAdd
                  (Call
                     (Attribute
                        (Subscript (Attribute (Name "X") "iloc")
                           (Tuple [Slice None None; Int 1]))
                        "max")
                     []
                     [])
                  (Int 1)]);
          Assign [Tuple [Name "xx"; Name "yy"]]
            (Call (Attribute (Name "np") "meshgrid")
               [Call (Attribute (Name "np") "arange")
                  [Name "feature_0_min"; Name "feature_0_max"; Name "plot_step"]
                  [];
                Call (Attribute (Name "np") "arange")
                  [Name "feature_1_min"; Name "feature_1_max"; Name "plot_step"]
                  []]
               []);
          Assign [Name "Z"]
            (Call (Attribute (Name "clf") "predict")
               [Subscript (Attribute (Name "np") "c_")
                  (Tuple
                     [Call (Attribute (Name "xx") "ravel") [] [];
                      Call (Attribute (Name "yy") "ravel") [] []])]
               []);
          Assign [Name "Z"]
            (Call (Attribute (Call (Name "LabelEncoder") [] []) "fit_transform") [Name "Z"] []);
          Assign [Name "Z"]
            (Call (Attribute (Name "Z") "reshape") [Attribute (Name "xx") "shape"] []);
          If (Compare CmpIs (Name "ax") (Constant CNone))
            [Assign [Tuple [Name "_"; Name "ax"]]
               (Call (Attribute (Name "plt") "subplots") [] [])]
            [];
          Expr
            (Call (Attribute (Name "ax") "contourf") [Name "xx"; Name "yy"; Name "Z"]
               [("alpha", Constant (CFloat "0.4"))]);
          Expr
            (Call (Attribute (Name "sns") "scatterplot") []
               [("data",
                 Call (Attribute (Name "pd") "concat") [ListE [Name "X"; Name "y"]]
                   [("axis", Int 1)]);
                ("x", Subscript (Attribute (Name "X") "columns") (Int 0));
                ("y", Subscript (Attribute (Name "X") "columns") (Int 1));
                ("hue", Attribute (Name "y") "name");
                ("ax", Name "ax")])]];
    (* cell 12 *)
    Markdown;
    (* cell 13 *)
    Code None []
      [ImportFrom "sklearn.linear_model" [("LogisticRegression", None)];
       Assign [Name "linear_model"] (Call (Name "LogisticRegression") [] []);
       Expr
         (Call (Name "plot_decision_function")
            [Name "X_train"; Name "y_train"; Name "linear_model"]
            [])];
    (* cell 14 *)
    Markdown;
    (* cell 15 *)
    Code None []
      [Expr
         (Call (Name "print")
            [JoinedStr
               [Str "Accuracy of the ";
                FormattedValue
                  (Attribute (Attribute (Name "linear_model") "__class__") "__name__")
                  "";
                Str ": ";
                FormattedValue
                  (Call
                     (Attribute
                        (Call (Attribute (Name "linear_model") "fit")
                           [Name "X_train"; Name "y_train"]
                           [])
                        "score")
                     [Name "X_test"; Name "y_test"]
                     [])
                  ".2f"]]
            [])];
    (* cell 16 *)
    Markdown;
    (* cell 17 *)
    Code None []
      [ImportFrom "sklearn.tree" [("DecisionTreeClassifier", None)];
       Assign [Name "tree"] (Call (Name "DecisionTreeClassifier") [] [("max_depth", Int 1)]);
       Expr
         (Call (Name "plot_decision_function") [Name "X_train"; Name "y_train"; Name "tree"] [])];
    (* cell 18 *)
    Markdown;
    (* cell 19 *)
    Code None []
      [ImportFrom "sklearn.tree" [("plot_tree", None)];
       Assign [Tuple [Name "_"; Name "ax"]]
         (Call (Attribute (Name "plt") "subplots") [] [("figsize", Tuple [Int 8; Int 6])]);
       Assign [Name "_"] (Call (Name "plot_tree") [Name "tree"] [("ax", Name "ax")])];
    (* cell 20 *)
    Markdown;
    (* cell 21 *)
    Code None []
      [Expr (Call (Attribute (Name "tree") "predict") [ListE [ListE [Int 40; Int 0]]] [])];
    (* cell 22 *)
    Markdown;
    (* cell 23 *)
    Code None []
      [Expr (Call (Attribute (Name "tree") "predict") [ListE [ListE [Int 50; Int 0]]] [])];
    (* cell 24 *)
    Markdown;
    (* cell 25 *)
    Code None []
      [Expr (Call (Attribute (Name "tree") "predict_proba") [ListE [ListE [Int 50; Int 0]]] [])];
    (* cell 26 *)
    Markdown;
    (* cell 27 *)
    Code None []
      [Expr
         (Call (Name "print")
            [JoinedStr
               [Str "Probabilities for the different classes:\nAdelie: ";
                FormattedValue (BinOp OpDiv (Int 4) (Int 138)) ".3f";
                Str "\nChinstrap: ";
                FormattedValue (BinOp OpDiv (Int 48) (Int 138)) ".3f";
                Str "\nGentoo: ";
                FormattedValue (BinOp OpDiv (Int 86) (Int 138)) ".3f";
                Str "\n"]]
            [])];
    (* cell 28 *)
    Markdown;
    (* cell 29 *)
    Code None []
      [Expr
         (Call (Attribute (Name "tree") "predict_proba") [ListE [ListE [Int 50; Int 10000]]] [])];
    (* cell 30 *)
    Markdown;
    (* cell 31 *)
    Code None []
      [Expr
         (Call (Name "print")
            [JoinedStr
               [Str "Accuracy of the ";
                FormattedValue (Attribute (Attribute (Name "tree") "__class__") "__name__") "";
                Str ": ";
                FormattedValue
                  (Call
                     (Attribute
                        (Call (Attribute (Name "tree") "fit") [Name "X_train"; Name "y_train"]
                           [])
                        "score")
                     [Name "X_test"; Name "y_test"]
                     [])
                  ".2f"]]
            [])];
    (* cell 32 *)
    Markdown;
    (* cell 33 *)
    Code None []
      [Assign [Name "tree"] (Call (Name "DecisionTreeClassifier") [] [("max_depth", Int 2)]);
       Expr
         (Call (Name "plot_decision_function") [Name "X_train"; Name "y_train"; Name "tree"] [])];
    (* cell 34 *)
    Markdown;
    (* cell 35 *)
    Code None []
      [Expr
         (Call (Name "print")
            [JoinedStr
               [Str "Accuracy of the ";
                FormattedValue (Attribute (Attribute (Name "tree") "__class__") "__name__") "";
                Str ": ";
                FormattedValue
                  (Call
                     (Attribute
                        (Call (Attribute (Name "tree") "fit") [Name "X_train"; Name "y_train"]
                           [])
                        "score")
                     [Name "X_test"; Name "y_test"]
                     [])
                  ".2f"]]
            [])];
    (* cell 36 *)
    Markdown;
    (* cell 37 *)
    Markdown;
    (* cell 38 *)
    Code None []
      [Assign [Name "data"]
         (Call (Attribute (Name "pd") "read_csv") [Str "../datasets/penguins.csv"] []);
       Assign [Name "data_columns"] (ListE [Str "Flipper Length (mm)"]);
       Assign [Name "target_column"] (Str "Body Mass (g)");
       Assign [Name "data"]
         (Subscript (Name "data")
            (BinOp OpAdd (Name "data_columns") (ListE [Name "target_column"])));
       Assign [Name "data"] (Call (Attribute (Name "data") "dropna") [] []);
       Assign [Tuple [Name "X"; Name "y"]]
         (Tuple
            [Subscript (Name "data") (Name "data_columns");
             Subscript (Name "data") (Name "target_column")]);
       Assign [Tuple [Name "X_train"; Name "X_test"; Name "y_train"; Name "y_test"]]
         (Call (Name "train_test_split") [Name "X"; Name "y"] [("random_state", Int 0)])];
    (* cell 39 *)
    Code None []
      [Expr
         (Call (Attribute (Name "sns") "scatterplot") []
            [("data", Name "data");
             ("x", Str "Flipper Length (mm)");
             ("y", Str "Body Mass (g)")])];
    (* cell 40 *)
    Markdown;
    (* cell 41 *)
    Code None []
      [ImportFrom "sklearn.linear_model" [("LinearRegression", None)];
       Assign [Name "linear_model"] (Call (Name "LinearRegression") [] [])];
    (* cell 42 *)
    Markdown;
    (* cell 43 *)
    Code None
      [["# train our model"];
       ["# make a scatter plot of the input data and target"];
       ["# only necessary if we want to see the extrapolation of our model"];
       ["# generate a testing set spanning between min and max of the training set"];
       ["# predict for this testing set and plot the response"];
       ["# return the axes in case we want to add something to it"]]
      [FunctionDef "plot_regression_model"
         [Param "X" None;
          Param "y" None;
          Param "model" None;
          Param "extrapolate" (Some (Constant (CBool false)));
          Param "ax" (Some (Constant CNone))]
         [Expr (Str "Plot the dataset and the prediction of a learnt regression model.");
          Expr (Call (Attribute (Name "model") "fit") [Name "X"; Name "y"] []);
          Assign [Name "training_data"]
            (Call (Attribute (Name "pd") "concat") [ListE [Name "X"; Name "y"]]
               [("axis", Int 1)]);
          If (Compare CmpIs (Name "ax") (Constant CNone))
            [Assign [Tuple [Name "_"; Name "ax"]]
               (Call (Attribute (Name "plt") "subplots") [] [])]
            [];
          Expr
            (Call (Attribute (Name "sns") "scatterplot") []
               [("data", Name "training_data");
                ("x", Str "Flipper Length (mm)");
                ("y", Str "Body Mass (g)");
                ("ax", Name "ax");
                ("color", Str "black");
                ("alpha", Constant (CFloat "0.5"))]);
          Assign [Name "offset"] (IfExp (Name "extrapolate") (Int 20) (Int 0));
          Assign [Name "X_test"]
            (Call
               (Attribute
                  (Call (Attribute (Name "np") "linspace")
                     [BinOp OpSub (Call (Attribute (Name "X") "min") [] []) (Name "offset");
                      BinOp OpAdd (Call (Attribute (Name "X") "max") [] []) (Name "offset")]
                     [("num", Int 100)])
                  "reshape")
               [Int (-1); Int 1]
               []);
          Assign [Name "y_pred"] (Call (Attribute (Name "model") "predict") [Name "X_test"] []);
          Expr
            (Call (Attribute (Name "ax") "plot") [Name "X_test"; Name "y_pred"]
               [("label",
                 JoinedStr
                   [FormattedValue (Attribute (Attribute (Name "model") "__class__") "__name__")
                      "";
                    Str " trained"]);
                ("linewidth", Int 3)]);
          Expr (Call (Attribute (Name "plt") "legend") [] []);
          Return (Some (Name "ax"))]];
    (* cell 44 *)
    Code None []
      [Assign [Name "_"]
         (Call (Name "plot_regression_model")
            [Name "X_train"; Name "y_train"; Name "linear_model"]
            [])];
    (* cell 45 *)
    Markdown;
    (* cell 46 *)
    Code None []
      [Assign [Name "X_test_subset"] (Subscript (Name "X_test") (Slice None (Some (Int 10))));
       Assign [Name "ax"]
         (Call (Name "plot_regression_model")
            [Name "X_train"; Name "y_train"; Name "linear_model"]
            []);
       Assign [Name "y_pred"]
         (Call (Attribute (Name "linear_model") "predict") [Name "X_test_subset"] []);
       Expr
         (Call (Attribute (Name "ax") "plot") [Name "X_test_subset"; Name "y_pred"]
            [("label", Str "Test predictions");
             ("color", Str "tab:green");
             ("marker", Str "^");
             ("markersize", Int 10);
             ("linestyle", Str "")]);
       Expr (Call (Attribute (Name "plt") "legend") [] [])];
    (* cell 47 *)
    Markdown;
    (* cell 48 *)
    Code None []
      [ImportFrom "sklearn.tree" [("DecisionTreeRegressor", None)];
       Assign [Name "tree"] (Call (Name "DecisionTreeRegressor") [] [("max_depth", Int 1)])];
    (* cell 49 *)
    Code None []
      [Assign [Name "_"]
         (Call (Name "plot_regression_model") [Name "X_train"; Name "y_train"; Name "tree"] [])];
    (* cell 50 *)
    Markdown;
    (* cell 51 *)
    Code None [] [Assign [Name "_"] (Call (Name "plot_tree") [Name "tree"] [])];
    (* cell 52 *)
    Markdown;
    (* cell 53 *)
    Code None []
      [Assign [Name "tree"] (Call (Name "DecisionTreeRegressor") [] [("max_depth", Int 3)]);
       Assign [Name "_"]
         (Call (Name "plot_regression_model") [Name "X_train"; Name "y_train"; Name "tree"] [])];
    (* cell 54 *)
    Markdown;
    (* cell 55 *)
    Code None []
      [Expr
         (Call (Name "plot_regression_model")
            [Name "X_train"; Name "y_train"; Name "linear_model"]
            [("extrapolate", Constant (CBool true))])];
    (* cell 56 *)
    Markdown;
    (* cell 57 *)
    Code None []
      [Assign [Name "ax"]
         (Call (Name "plot_regression_model")
            [Name "X_train"; Name "y_train"; Name "linear_model"]
            [("extrapolate", Constant (CBool true))]);
       Assign [Name "_"]
         (Call (Name "plot_regression_model") [Name "X_train"; Name "y_train"; Name "tree"]
            [("extrapolate", Constant (CBool true)); ("ax", Name "ax")])];
    (* cell 58 *)
    Markdown;
    (* cell 59 *)
    Code None []
      [Assign [Name "data"]
         (Call (Attribute (Name "pd") "read_csv") [Str "../datasets/penguins.csv"] [])];
    (* cell 60 *)
    Code None []
      [Assign [Name "data_clf_columns"]
         (ListE [Str "Culmen Length (mm)"; Str "Culmen Depth (mm)"]);
       Assign [Name "target_clf_column"] (Str "Species");
       Assign [Name "data_clf"]
         (Subscript (Name "data")
            (BinOp OpAdd (Name "data_clf_columns") (ListE [Name "target_clf_column"])));
       Assign [Subscript (Name "data_clf") (Name "target_clf_column")]
         (Subscript
            (Attribute
               (Call
                  (Attribute
                     (Attribute (Subscript (Name "data_clf") (Name "target_clf_column")) "str")
                     "split")
                  []
                  [])
               "str")
            (Int 0));
       Assign [Name "data_clf"] (Call (Attribute (Name "data_clf") "dropna") [] []);
       Assign [Tuple [Name "X_clf"; Name "y_clf"]]
         (Tuple
            [Subscript (Name "data_clf") (Name "data_clf_columns");
             Subscript (Name "data_clf") (Name "target_clf_column")]);
       Assign
         [Tuple [Name "X_train_clf"; Name "X_test_clf"; Name "y_train_clf"; Name "y_test_clf"]]
         (Call (Name "train_test_split") [Name "X_clf"; Name "y_clf"]
            [("stratify", Name "y_clf"); ("random_state", Int 0)])];
    (* cell 61 *)
    Code None []
      [Assign [Name "data_reg_columns"] (ListE [Str "Flipper Length (mm)"]);
       Assign [Name "target_reg_column"] (Str "Body Mass (g)");
       Assign [Name "data_reg"]
         (Subscript (Name "data")
            (BinOp OpAdd (Name "data_reg_columns") (ListE [Name "target_reg_column"])));
       Assign [Name "data_reg"] (Call (Attribute (Name "data_reg") "dropna") [] []);
       Assign [Tuple [Name "X_reg"; Name "y_reg"]]
         (Tuple
            [Subscript (Name "data_reg") (Name "data_reg_columns");
             Subscript (Name "data_reg") (Name "target_reg_column")]);
       Assign
         [Tuple [Name "X_train_reg"; Name "X_test_reg"; Name "y_train_reg"; Name "y_test_reg"]]
         (Call (Name "train_test_split") [Name "X_reg"; Name "y_reg"] [("random_state", Int 0)])];
    (* cell 62 *)
    Code None []
      [Assign [Tuple [Name "_"; Name "axs"]]
         (Call (Attribute (Name "plt") "subplots") []
            [("ncols", Int 2); ("figsize", Tuple [Int 10; Int 5])]);
       Expr
         (Call (Attribute (Name "sns") "scatterplot") []
            [("data", Name "data_clf");
             ("x", Str "Culmen Length (mm)");
             ("y", Str "Culmen Depth (mm)");
             ("hue", Str "Species");
             ("ax", Subscript (Name "axs") (Int 0))]);
       Expr
         (Call (Attribute (Subscript (Name "axs") (Int 0)) "set_title")
            [Str "Classification dataset"]
            []);
       Expr
         (Call (Attribute (Name "sns") "scatterplot") []
            [("data", Name "data_reg");
             ("x", Str "Flipper Length (mm)");
             ("y", Str "Body Mass (g)");
             ("ax", Subscript (Name "axs") (Int 1))]);
       Assign [Name "_"]
         (Call (Attribute (Subscript (Name "axs") (Int 1)) "set_title")
            [Str "Regression dataset"]
            [])];
    (* cell 63 *)
    Markdown;
    (* cell 64 *)
    Code None []
      [Assign [Name "max_depth"] (Int 2);
       Assign [Name "tree_clf"]
         (Call (Name "DecisionTreeClassifier") [] [("max_depth", Name "max_depth")]);
       Assign [Name "tree_reg"]
         (Call (Name "DecisionTreeRegressor") [] [("max_depth", Name "max_depth")]);
       Assign [Tuple [Name "fig"; Name "axs"]]
         (Call (Attribute (Name "plt") "subplots") []
            [("ncols", Int 2); ("figsize", Tuple [Int 10; Int 5])]);
       Expr
         (Call (Name "plot_decision_function")
            [Name "X_train_clf"; Name "y_train_clf"; Name "tree_clf"]
            [("ax", Subscript (Name "axs") (Int 0))]);
       Expr
         (Call (Name "plot_regression_model")
            [Name "X_train_reg"; Name "y_train_reg"; Name "tree_reg"]
            [("ax", Subscript (Name "axs") (Int 1))]);
       Assign [Name "_"]
         (Call (Attribute (Name "fig") "suptitle")
            [JoinedStr
               [Str "Shallow tree with a max-depth of "; FormattedValue (Name "max_depth") ""]]
            [])];
    (* cell 65 *)
    Code None []
      [Assign [Name "max_depth"] (Int 30);
       Assign [Name "tree_clf"]
         (Call (Name "DecisionTreeClassifier") [] [("max_depth", Name "max_depth")]);
       Assign [Name "tree_reg"]
         (Call (Name "DecisionTreeRegressor") [] [("max_depth", Name "max_depth")]);
       Assign [Tuple [Name "fig"; Name "axs"]]
         (Call (Attribute (Name "plt") "subplots") []
            [("ncols", Int 2); ("figsize", Tuple [Int 10; Int 5])]);
       Expr
         (Call (Name "plot_decision_function")
            [Name "X_train_clf"; Name "y_train_clf"; Name "tree_clf"]
            [("ax", Subscript (Name "axs") (Int 0))]);
       Expr
         (Call (Name "plot_regression_model")
            [Name "X_train_reg"; Name "y_train_reg"; Name "tree_reg"]
            [("ax", Subscript (Name "axs") (Int 1))]);
       Assign [Name "_"]
         (Call (Attribute (Name "fig") "suptitle")
            [JoinedStr
               [Str "Deep tree with a max-depth of "; FormattedValue (Name "max_depth") ""]]
            [])];
    (* cell 66 *)
    Markdown;
    (* cell 67 *)
    Code None []
      [ImportFrom "sklearn.model_selection" [("GridSearchCV", None)];
       Assign [Name "param_grid"]
         (Dict
            [(Str "max_depth", Call (Attribute (Name "np") "arange") [Int 2; Int 10; Int 1] [])]);
       Assign [Name "tree_clf"]
         (Call (Name "GridSearchCV") [Call (Name "DecisionTreeClassifier") [] []]
            [("param_grid", Name "param_grid")]);
       Assign [Name "tree_reg"]
         (Call (Name "GridSearchCV") [Call (Name "DecisionTreeRegressor") [] []]
            [("param_grid", Name "param_grid")])];
    (* cell 68 *)
    Code None []
      [Assign [Tuple [Name "fig"; Name "axs"]]
         (Call (Attribute (Name "plt") "subplots") []
            [("ncols", Int 2); ("figsize", Tuple [Int 10; Int 5])]);
       Expr
         (Call (Name "plot_decision_function")
            [Name "X_train_clf"; Name "y_train_clf"; Name "tree_clf"]
            [("ax", Subscript (Name "axs") (Int 0))]);
       Expr
         (Call (Attribute (Subscript (Name "axs") (Int 0)) "set_title")
            [JoinedStr
               [Str "Optimal depth found via CV: ";
                FormattedValue
                  (Subscript (Attribute (Name "tree_clf") "best_params_") (Str "max_depth"))
                  ""]]
            []);
       Expr
         (Call (Name "plot_regression_model")
            [Name "X_train_reg"; Name "y_train_reg"; Name "tree_reg"]
            [("ax", Subscript (Name "axs") (Int 1))]);
       Assign [Name "_"]
         (Call (Attribute (Subscript (Name "axs") (Int 1)) "set_title")
            [JoinedStr
               [Str "Optimal depth found via CV: ";
                FormattedValue
                  (Subscript (Attribute (Name "tree_reg") "best_params_") (Str "max_depth"))
                  ""]]
            [])];
    (* cell 69 *)
    Markdown
  ] |}.

Definition repository : list notebook :=
  [nb_part_000_exercise_01; nb_part_000_solution_01; nb_part_001; nb_part_002; nb_part_003;
   nb_04_parameter_tuning_search; nb_feature_selection; nb_trees].

(* ====================================================================== *)
(** * Traversals of the syntax *)
(* ====================================================================== *)

Definition option_list {A} (o : option A) : list A :=
  match o with Some a => [a] | None => [] end.

(** Every sub-expression of [e], [e] first. *)
Fixpoint subexprs (e : expr) : list expr :=
  e ::
  match e with
  | Name _ | Constant _ => []
  | Attribute v _ | Starred v | DoubleStarred v | USub v | FormattedValue v _ => subexprs v
  | Call f args kws =>
      subexprs f ++ flat_map subexprs args ++
      flat_map (fun kv : string * expr => let (_, v) := kv in subexprs v) kws
  | Subscript v s => subexprs v ++ subexprs s
  | Slice lo hi =>
      match lo with Some a => subexprs a | None => [] end ++
      match hi with Some a => subexprs a | None => [] end
  | Tuple l | ListE l | JoinedStr l => flat_map subexprs l
  | Dict items => flat_map (fun kv : expr * expr => let (k, v) := kv in subexprs k ++ subexprs v) items
  | BinOp _ a b | Compare _ a b => subexprs a ++ subexprs b
  | IfExp c a b => subexprs c ++ subexprs a ++ subexprs b
  | Lambda _ b => subexprs b
  | ListComp elt tgt it ifs =>
      subexprs elt ++ subexprs tgt ++ subexprs it ++ flat_map subexprs ifs
  end.

Definition param_name (p : param) : string :=
  match p with Param x _ | VarArgs x | VarKw x => x end.

Definition param_default (p : param) : list expr :=
  match p with Param _ d => option_list d | _ => [] end.

(** The expressions a statement holds itself (not those of the statements
    nested in it). *)
Definition own_exprs (s : stmt) : list expr :=
  match s with
  | Expr v => [v]
  | Assign ts v => v :: ts
  | AugAssign t _ v => [v; t]
  | Import _ _ | ImportFrom _ _ => []
  | Return v | Raise v => option_list v
  | FunctionDef _ ps _ => flat_map param_default ps
  | ClassDef _ bases _ => bases
  | If t _ _ | While t _ => [t]
  | For t it _ => [it; t]
  | With c ov _ => c :: option_list ov
  | Try _ tys _ _ => tys
  end.

(** Every statement nested in [s], [s] first. *)
Fixpoint substmts (s : stmt) : list stmt :=
  s ::
  match s with
  | FunctionDef _ _ b | ClassDef _ _ b | For _ _ b | While _ b | With _ _ b =>
      flat_map substmts b
  | If _ b o => flat_map substmts b ++ flat_map substmts o
  | Try b _ h f => flat_map substmts b ++ flat_map substmts h ++ flat_map substmts f
  | _ => []
  end.

Definition cell_body (c : cell) : list stmt :=
  match c with Markdown => [] | Code _ _ b => b end.

Definition cell_comments (c : cell) : list comment :=
  match c with Markdown => [] | Code _ cs _ => cs end.

(** The statements of a notebook's cells, in order. *)
Definition code (nb : notebook) : list stmt := flat_map cell_body (cells nb).

(** All statements, at any depth. *)
Definition statements (nb : notebook) : list stmt := flat_map substmts (code nb).

(** All expressions, at any depth. *)
Definition expressions (nb : notebook) : list expr :=
  flat_map (fun s => flat_map subexprs (own_exprs s)) (statements nb).

Definition comments (nb : notebook) : list comment := flat_map cell_comments (cells nb).

(** ** Calls *)

(** The dotted spelling of a callee: [pd.read_csv] gives ["pd.read_csv"];
    a callee that is not a chain of names and attributes (a method of a call
    result, of a subscript, ...) keeps a ["(...)"] for the receiver. *)
Fixpoint dotted (e : expr) : string :=
  match e with
  | Name x => x
  | Attribute v a => (dotted v ++ "." ++ a)%string
  | _ => "(...)"
  end.

(** The last component of a callee: the function or method name. *)
Definition callee_name (f : expr) : string :=
  match f with
  | Name x => x
  | Attribute _ a => a
  | _ => ""
  end.

Record call := { callee : expr; arguments : list expr; kwargs : list (string * expr) }.

Definition as_call (e : expr) : list call :=
  match e with
  | Call f args kws => [{| callee := f; arguments := args; kwargs := kws |}]
  | _ => []
  end.

Definition calls_in (l : list expr) : list call := flat_map as_call l.

Definition calls (nb : notebook) : list call := calls_in (expressions nb).

(** The argument lists of the calls of [name]. *)
Definition calls_of (name : string) (nb : notebook) : list (list expr) :=
  map arguments (filter (fun c => String.eqb (dotted (callee c)) name) (calls nb)).

(** The callee of a call expression (the expression itself otherwise). *)
Definition callee_of (e : expr) : expr :=
  match e with Call f _ _ => f | _ => e end.

Definition last_event {A} (l : list A) : option A :=
  match rev l with [] => None | a :: _ => Some a end.

Definition mem (x : string) (l : list string) : bool :=
  existsb (String.eqb x) l.

(** ** Imports *)

(** The first component of a dotted module name. *)
Fixpoint module_root (m : string) : string :=
  match m with
  | EmptyString => EmptyString
  | String c m' => if Ascii.eqb c "."%char then EmptyString else String c (module_root m')
  end.

(** One imported binding: the module it comes from, the name imported from
    it ([None] for [import m]), and the name it is bound to in the notebook. *)
Record binding := { from_module : string; imported : option string; bound_as : string }.

Definition stmt_imports (s : stmt) : list binding :=
  match s with
  | Import m a =>
      [{| from_module := m; imported := None;
          bound_as := match a with Some x => x | None => module_root m end |}]
  | ImportFrom m names =>
      map (fun na : string * option string =>
             let (n, a) := na in
             {| from_module := m; imported := Some n;
                bound_as := match a with Some x => x | None => n end |}) names
  | _ => []
  end.

Definition imports (nb : notebook) : list binding := flat_map stmt_imports (statements nb).

Definition imported_modules (nb : notebook) : list string :=
  nodup string_dec (map (fun b => module_root (from_module b)) (imports nb)).

(** [x] is bound in [nb] by an import from a module under [root]. *)
Definition imported_from (nb : notebook) (root x : string) : bool :=
  existsb (fun b => String.eqb (bound_as b) x && String.eqb (module_root (from_module b)) root)
          (imports nb).

(** ** Definitions made by the notebooks *)

Definition stmt_def_name (s : stmt) : list string :=
  match s with
  | FunctionDef n _ _ | ClassDef n _ _ => [n]
  | _ => []
  end.

(** The functions and classes a notebook defines at the top level of its
    cells. *)
Definition definitions (nb : notebook) : list stmt :=
  filter (fun s => match s with FunctionDef _ _ _ | ClassDef _ _ _ => true | _ => false end)
         (code nb).

Definition defined_names (nb : notebook) : list string := flat_map stmt_def_name (definitions nb).

Definition classes (nb : notebook) : list stmt :=
  filter (fun s => match s with ClassDef _ _ _ => true | _ => false end) (definitions nb).

(** The names of the methods of a class (of the functions defined in a
    statement's body, for any other statement). *)
Definition methods (s : stmt) : list string :=
  match s with
  | ClassDef _ _ b => flat_map stmt_def_name b
  | _ => []
  end.

Definition stmt_exprs (s : stmt) : list expr :=
  flat_map (fun s' => flat_map subexprs (own_exprs s')) (substmts s).

Definition stmt_calls (s : stmt) : list call := calls_in (stmt_exprs s).

Definition is_loop (s : stmt) : bool :=
  match s with For _ _ _ | While _ _ => true | _ => false end.

Definition is_comprehension (e : expr) : bool :=
  match e with ListComp _ _ _ _ => true | _ => false end.

(** ** Small string helpers *)

Definition endswith (suffix s : string) : bool :=
  PyStr.startswith suffix (PyStr.drop (String.length s - String.length suffix) s).

Definition is_upper (c : ascii) : bool :=
  ((65 <=? nat_of_ascii c)%nat && (nat_of_ascii c <=? 90)%nat)%bool.

Definition capitalised (s : string) : bool :=
  match s with String c _ => is_upper c | EmptyString => false end.

Definition any_prefix (prefixes : list string) (s : string) : bool :=
  existsb (fun p => PyStr.startswith p s) prefixes.

Definition comment_text (c : comment) : string :=
  String.concat (String (ascii_of_nat 34) EmptyString) c.

(* ====================================================================== *)
(** * The deployment workflow: .github/workflows/deploy-gh-pages.yml *)
(* ====================================================================== *)

Record step := {
  step_name : option string;
  uses : option string;
  with_ : list (string * string);
  run : list string
}.

Record workflow := {
  workflow_name : string;
  on_push_branches : list string;
  job : string;
  runs_on : string;
  env : list (string * Z);
  steps : list step
}.

Definition deploy_gh_pages : workflow :=
  {| workflow_name := "deploy-gh-pages";
     on_push_branches := ["master"];
     job := "deploy-gh-pages";
     runs_on := "ubuntu-latest";
     env := [("OMP_NUM_THREADS", 1%Z); ("MKL_NUM_THREADS", 2%Z); ("OPENBLAS_NUM_THREADS", 2%Z)];
     steps :=
       [{| step_name := None; uses := Some "actions/checkout@v2"; with_ := []; run := [] |};
        {| step_name := Some "Set up Python 3.7"; uses := Some "actions/setup-python@v1";
           with_ := [("python-version", "3.7")]; run := [] |};
        {| step_name := Some "Install dependencies"; uses := None; with_ := [];
           run := ["pip install -r requirements.txt"; "pip install jupyter-book"] |};
        {| step_name := Some "Build the book"; uses := None; with_ := [];
           run := ["cd jupyter-book"; "make"] |};
        {| step_name := Some "Create folder for gh-pages"; uses := None; with_ := [];
           run := ["cp -r jupyter-book/_build/html gh-pages"] |};
        {| step_name := Some "GitHub Pages action";
           uses := Some "peaceiris/actions-gh-pages@v3.6.1";
           with_ := [("github_token", "${{ secrets.GITHUB_TOKEN }}");
                     ("publish_dir", "./gh-pages")];
           run := [] |}] |}.

(** The environment variables that cap the threads of the numerical
    libraries (OpenMP, MKL, OpenBLAS). *)
Definition thread_env (w : workflow) : list (string * Z) :=
  filter (fun kv : string * Z => let (k, _) := kv in endswith "_NUM_THREADS" k) (env w).

(* ====================================================================== *)
(** * What the notebooks do, read off their syntax *)
(* ====================================================================== *)

(** ** Where the data comes from *)

Definition is_read_csv (c : call) : bool := String.eqb (dotted (callee c)) "pd.read_csv".

(** The notebook imports pandas as [pd] and calls [pd.read_csv]. *)
Definition loads_csv (nb : notebook) : bool :=
  imported_from nb "pandas" "pd" && existsb is_read_csv (calls nb).

(** The first argument of every [pd.read_csv] call. *)
Definition csv_sources (nb : notebook) : list expr :=
  flat_map (fun c => if is_read_csv c then firstn 1 (arguments c) else []) (calls nb).

(** The library's makers of synthetic data that the notebooks use: the
    scikit-learn dataset generator and the draws of a NumPy random state. *)
Definition synthetic_generators : list string := ["make_classification"; "randn"; "randint"].

Definition generates_data (nb : notebook) : bool :=
  existsb (fun c => mem (callee_name (callee c)) synthetic_generators) (calls nb).

(** A literal relative path to a CSV file. *)
Definition relative_csv_literal (e : expr) : bool :=
  match e with
  | Str p => PyStr.startswith "../" p && endswith ".csv" p
  | _ => false
  end.

(** ** What touches the file system *)

(** Entry points that read files: pandas' [read_*], NumPy's and joblib's
    [load*], scikit-learn's [fetch_*], and [open]. *)
Definition reads_files (name : string) : bool :=
  any_prefix ["read_"; "load"; "fetch_"; "genfromtxt"; "imread"; "open"] name.

(** Entry points that write or remove files: pandas' [to_*], NumPy's and
    Matplotlib's [save*], pickle's and joblib's [dump], plotly's [write_*],
    and the usual file and directory operations. *)
Definition writes_files (name : string) : bool :=
  any_prefix ["to_"; "save"; "dump"; "write"; "tofile"; "open"; "mkdir"; "makedirs";
              "remove"; "unlink"; "rmtree"] name.

Definition file_calls (nb : notebook) : list call :=
  filter (fun c => reads_files (callee_name (callee c)) || writes_files (callee_name (callee c)))
         (calls nb).

Definition write_calls (nb : notebook) : list call :=
  filter (fun c => writes_files (callee_name (callee c))) (calls nb).

(** The comments that mention a writer of CSV files. *)
Definition commented_out_writes (nb : notebook) : list comment :=
  filter (fun c => PyStr.contains ".to_csv(" (comment_text c)) (comments nb).

(** ** The steps of a modelling notebook *)

(** Calls of a class imported from scikit-learn: constructing an estimator
    or a transformer. *)
Definition constructs_estimator (nb : notebook) : bool :=
  existsb (fun c => match callee c with
                    | Name x => capitalised x && imported_from nb "sklearn" x
                    | _ => false
                    end) (calls nb).

(** Calls of [Pipeline] or [make_pipeline]. *)
Definition builds_pipeline (nb : notebook) : bool :=
  existsb (fun c => match callee c with
                    | Name x => mem x ["Pipeline"; "make_pipeline"] && imported_from nb "sklearn" x
                    | _ => false
                    end) (calls nb).

Definition estimator_entry_points : list string :=
  ["fit"; "predict"; "predict_proba"; "score"; "transform"; "fit_transform";
   "cross_val_score"; "cross_validate"].

Definition calls_entry_points (nb : notebook) : bool :=
  existsb (fun c => mem (callee_name (callee c)) estimator_entry_points) (calls nb).

Definition printers : list string := ["print"; "pprint"].

Definition plotters : list string :=
  ["plot"; "box"; "scatterplot"; "pairplot"; "heatmap"; "contourf"; "plot_tree";
   "parallel_coordinates"; "show"].

Definition prints_or_plots (nb : notebook) : bool :=
  existsb (fun c => mem (callee_name (callee c)) (printers ++ plotters)) (calls nb).

(** ** Parallelism *)

(** Every [n_jobs=...] keyword: the callee it is passed to and its value. *)
Definition n_jobs_of (c : call) : list (string * expr) :=
  flat_map (fun kv : string * expr =>
              let (k, v) := kv in
              if String.eqb k "n_jobs" then [(dotted (callee c), v)] else []) (kwargs c).

Definition parallelism_selections (nb : notebook) : list (string * expr) :=
  flat_map n_jobs_of (calls nb).

(** Modules with which Python code starts threads, processes or tasks of
    its own. *)
Definition concurrency_modules : list string :=
  ["threading"; "multiprocessing"; "concurrent"; "asyncio"; "subprocess"; "joblib"; "_thread"].

Definition concurrency_imports (nb : notebook) : list string :=
  filter (fun m => mem m concurrency_modules) (imported_modules nb).

(** A notebook left for the reader to finish: it carries a TODO comment. *)
Definition unfinished (nb : notebook) : bool :=
  existsb (fun c => PyStr.contains "# TODO" (comment_text c)) (comments nb).

(** ** Who computes *)

Definition def_name (s : stmt) : string :=
  match s with
  | FunctionDef n _ _ | ClassDef n _ _ => n
  | _ => ""
  end.

Definition def_params (s : stmt) : list string :=
  match s with
  | FunctionDef _ ps _ => map param_name ps
  | _ => []
  end.

(** The third-party libraries the notebooks import, and the modules of
    Python's standard library they import. *)
Definition third_party : list string :=
  ["sklearn"; "pandas"; "numpy"; "scipy"; "matplotlib"; "seaborn"; "plotly"].

Definition standard_library : list string := ["time"; "pprint"].

(** Every import of the notebook is of a library: none is of a module of
    the repository. *)
Definition imports_libraries_only (nb : notebook) : bool :=
  forallb (fun m => mem m (third_party ++ standard_library)) (imported_modules nb).

(** The operations the specification calls interesting: fitting,
    predicting and scoring a model, cross-validation, hyper-parameter
    search, tree construction, encoding. *)
Definition algorithmic_entry_points : list string :=
  estimator_entry_points ++
  ["train_test_split"; "GridSearchCV"; "RandomizedSearchCV"; "DecisionTreeClassifier";
   "DecisionTreeRegressor"; "RandomForestClassifier"; "HistGradientBoostingClassifier";
   "LogisticRegression"; "LinearRegression"; "OrdinalEncoder"; "OneHotEncoder";
   "LabelEncoder"; "StandardScaler"; "ColumnTransformer"; "SelectKBest"; "SelectFromModel"].

(** A call of an algorithmic entry point goes to a library: the entry
    point is a name imported from scikit-learn, or a method of an object. *)
Definition delegated (nb : notebook) (c : call) : bool :=
  if mem (callee_name (callee c)) algorithmic_entry_points
  then match callee c with
       | Name x => imported_from nb "sklearn" x
       | Attribute _ _ => true
       | _ => false
       end
  else true.

(** A class that is a sampling distribution: it has the method [rvs],
    through which scipy and scikit-learn's randomized search draw from a
    distribution object. *)
Definition draws_samples (s : stmt) : bool :=
  match s with
  | ClassDef _ _ _ => mem "rvs" (methods s)
  | _ => false
  end.

(** Python's own string-splitting methods. *)
Definition string_parsers : list string :=
  ["split"; "rsplit"; "partition"; "rpartition"; "splitlines"].

(** A function that takes one of its parameters apart as a string. *)
Definition parses_parameter (s : stmt) : bool :=
  existsb (fun c => match callee c with
                    | Attribute (Name x) m => mem x (def_params s) && mem m string_parsers
                    | _ => false
                    end) (stmt_calls s).

(** A definition with a sampling or parsing computation of its own. *)
Definition own_computation (s : stmt) : bool := draws_samples s || parses_parameter s.

(** No loop and no comprehension, at any depth. *)
Definition loop_free (s : stmt) : bool :=
  forallb (fun s' => negb (is_loop s')) (substmts s) &&
  forallb (fun e => negb (is_comprehension e)) (stmt_exprs s).

(** The calls of a definition that go to another definition of the
    repository. *)
Definition internal_calls (repo_names : list string) (s : stmt) : list string :=
  flat_map (fun c => match callee c with
                     | Name x => if mem x repo_names then [x] else []
                     | _ => []
                     end) (stmt_calls s).

Definition all_definitions (repo : list notebook) : list stmt := flat_map definitions repo.

(** No dynamic access to names or files: every file call names its file by
    a literal, no call goes through [exec], [eval] and the like, and the
    only cell magic is [%%time]. *)
Definition dynamic_names : list string :=
  ["exec"; "eval"; "compile"; "globals"; "locals"; "vars"; "getattr"; "setattr"; "delattr";
   "__import__"; "import_module"].

Definition cell_magic (c : cell) : list string :=
  match c with Code (Some m) _ _ => [m] | _ => [] end.

Definition literal_first_argument (c : call) : bool :=
  match arguments c with Str _ :: _ => true | _ => false end.

Definition static (nb : notebook) : bool :=
  forallb literal_first_argument (file_calls nb) &&
  forallb (fun c => negb (mem (callee_name (callee c)) dynamic_names)) (calls nb) &&
  forallb (String.eqb "%%time") (flat_map cell_magic (cells nb)).

(* ====================================================================== *)
(** * Names: what a notebook reads before it has bound it *)
(* ====================================================================== *)

(** Python's built-in names (the ones notebooks of this kind use). *)
Definition builtins : list string :=
  ["print"; "enumerate"; "int"; "float"; "str"; "bool"; "object"; "len"; "range"; "list";
   "dict"; "tuple"; "set"; "zip"; "map"; "sum"; "min"; "max"; "abs"; "sorted"; "isinstance";
   "type"].

(** The names an assignment target binds. *)
Fixpoint target_names (t : expr) : list string :=
  match t with
  | Name x => [x]
  | Tuple l | ListE l => flat_map target_names l
  | Starred v => target_names v
  | _ => []
  end.

(** The names [e] reads that are not in [bound].  A lambda binds its
    parameters in its body, a comprehension its target in its element and
    conditions. *)
Fixpoint reads (bound : list string) (e : expr) : list string :=
  match e with
  | Name x => if mem x bound then [] else [x]
  | Constant _ => []
  | Attribute v _ | Starred v | DoubleStarred v | USub v | FormattedValue v _ => reads bound v
  | Call f args kws =>
      reads bound f ++ flat_map (reads bound) args ++
      flat_map (fun kv : string * expr => let (_, v) := kv in reads bound v) kws
  | Subscript v s => reads bound v ++ reads bound s
  | Slice lo hi =>
      match lo with Some a => reads bound a | None => [] end ++
      match hi with Some a => reads bound a | None => [] end
  | Tuple l | ListE l | JoinedStr l => flat_map (reads bound) l
  | Dict items =>
      flat_map (fun kv : expr * expr => let (k, v) := kv in reads bound k ++ reads bound v) items
  | BinOp _ a b | Compare _ a b => reads bound a ++ reads bound b
  | IfExp c a b => reads bound c ++ reads bound a ++ reads bound b
  | Lambda ps b => reads (ps ++ bound) b
  | ListComp elt tgt it ifs =>
      reads bound it ++
      reads (target_names tgt ++ bound) elt ++
      flat_map (reads (target_names tgt ++ bound)) ifs
  end.

(** What assigning to [t] reads: nothing for a name, the object and the
    index for [obj.attr = ...] and [obj[i] = ...]. *)
Fixpoint target_reads (bound : list string) (t : expr) : list string :=
  match t with
  | Name _ => []
  | Tuple l | ListE l => flat_map (target_reads bound) l
  | Starred v => target_reads bound v
  | _ => reads bound t
  end.

(** [scan bound s] is the names [s] reads without their being bound, and
    the names bound once [s] has run.  A name bound only inside a branch or
    a loop body does not count as bound after it; a function body is
    checked where the function is defined, against the names bound by then,
    its own name and its parameters. *)
Fixpoint scan (bound : list string) (s : stmt) {struct s} : list string * list string :=
  let block :=
    fix block (bound : list string) (l : list stmt) {struct l} : list string * list string :=
      match l with
      | [] => ([], bound)
      | s' :: l' =>
          let (u1, b1) := scan bound s' in
          let (u2, b2) := block b1 l' in
          (u1 ++ u2, b2)
      end in
  match s with
  | Expr v => (reads bound v, bound)
  | Assign ts v =>
      (reads bound v ++ flat_map (target_reads bound) ts, flat_map target_names ts ++ bound)
  | AugAssign t _ v => (reads bound t ++ reads bound v, bound)
  | Import _ _ | ImportFrom _ _ => ([], map bound_as (stmt_imports s) ++ bound)
  | Return v | Raise v => (flat_map (reads bound) (option_list v), bound)
  | FunctionDef n ps b =>
      (flat_map (reads bound) (flat_map param_default ps) ++
       fst (block (map param_name ps ++ n :: bound) b),
       n :: bound)
  | ClassDef n bases b =>
      (flat_map (reads bound) bases ++ fst (block bound b), n :: bound)
  | If t b o => (reads bound t ++ fst (block bound b) ++ fst (block bound o), bound)
  | For t it b =>
      (reads bound it ++ target_reads bound t ++ fst (block (target_names t ++ bound) b), bound)
  | While t b => (reads bound t ++ fst (block bound b), bound)
  | With c ov b =>
      let bound' := flat_map target_names (option_list ov) ++ bound in
      let (u, b') := block bound' b in
      (reads bound c ++ flat_map (target_reads bound) (option_list ov) ++ u, b')
  | Try b tys h f =>
      (fst (block bound b) ++ flat_map (reads bound) tys ++ fst (block bound h) ++
       fst (block bound f), bound)
  end.

Fixpoint scan_block (bound : list string) (l : list stmt) : list string * list string :=
  match l with
  | [] => ([], bound)
  | s :: l' =>
      let (u1, b1) := scan bound s in
      let (u2, b2) := scan_block b1 l' in
      (u1 ++ u2, b2)
  end.

(** The names a notebook reads from outside itself: read, not built in, and
    not bound by an earlier statement of the notebook. *)
Definition free_names (nb : notebook) : list string := fst (scan_block builtins (code nb)).

(** The names a notebook leaves bound. *)
Definition bound_names (nb : notebook) : list string :=
  nodup string_dec (snd (scan_block [] (code nb))).

Definition literal_path (e : expr) : list string :=
  match e with Str p => [p] | _ => [] end.

(** The files a notebook reads and writes: the literal first arguments of
    its file calls. *)
Definition files_read (nb : notebook) : list string :=
  flat_map (fun c => if reads_files (callee_name (callee c))
                     then flat_map literal_path (firstn 1 (arguments c)) else [])
           (calls nb).

Definition files_written (nb : notebook) : list string :=
  flat_map (fun c => flat_map literal_path (firstn 1 (arguments c))) (write_calls nb).

(* ====================================================================== *)
(** * Running a notebook against the libraries: exceptions *)
(* ====================================================================== *)

(** The repository's code is executed cell by cell and statement by
    statement; what the libraries compute is outside it.  The model below
    runs the statements and asks a [world] for everything the libraries
    decide: whether an operation raises, which way a test goes, how many
    items an iteration yields.  It records every operation with its
    result.  Exceptions and files are the effects it tracks: a raised
    exception aborts the statements that follow, unless a [Try] or the
    [%%time] magic of the cell catches it. *)

(** [Try] and [Raise], the statements with which code catches, replaces or
    throws an exception. *)
Definition handles (s : stmt) : bool :=
  match s with Try _ _ _ _ | Raise _ => true | _ => false end.

(** No statement of [s], at any depth, is a [Try] or a [Raise]. *)
Definition handler_free (s : stmt) : bool := forallb (fun s' => negb (handles s')) (substmts s).

Definition exception_statements (nb : notebook) : list stmt := filter handles (statements nb).

(** The direct sub-expressions of an expression, in evaluation order. *)
Definition children (e : expr) : list expr :=
  match e with
  | Name _ | Constant _ => []
  | Attribute v _ | Starred v | DoubleStarred v | USub v | FormattedValue v _ => [v]
  | Call f args kws => f :: args ++ map snd kws
  | Subscript v s => [v; s]
  | Slice lo hi => option_list lo ++ option_list hi
  | Tuple l | ListE l | JoinedStr l => l
  | Dict items => flat_map (fun kv : expr * expr => [fst kv; snd kv]) items
  | BinOp _ a b | Compare _ a b => [a; b]
  | IfExp c a b => [c; a; b]
  | Lambda _ b => [b]
  | ListComp elt tgt it ifs => it :: tgt :: ifs ++ [elt]
  end.

(** The body that runs when a class is instantiated. *)
Fixpoint init_body (class_body : list stmt) : list stmt :=
  match class_body with
  | [] => []
  | FunctionDef "__init__" _ b :: _ => b
  | _ :: rest => init_body rest
  end.

Section Execution.

Variable exn : Type.

(** The files on disk: the contents at each path. *)
Definition files : Type := string -> option string.

(** What the libraries do may depend on the files, and may change them. *)
Record world := {
  (** what the k-th operation of the run, the operation [c], raises, if
      anything *)
  raises : nat -> expr -> files -> option exn;
  (** the k-th decision: 0 for a false test, else the number of items *)
  decides : nat -> files -> nat;
  (** what the k-th operation of the run, the operation [c], does to the
      files *)
  effect : nat -> expr -> files -> files;
  (** the exception a [raise e] statement throws *)
  thrown : expr -> exn
}.

(** An operation of the run, and the exception it raised. *)
Definition event : Type := expr * option exn.

Record state := {
  n_calls : nat;                     (** operations so far *)
  n_decisions : nat;
  trace : list event;
  defs : list (string * list stmt);  (** functions and classes defined so far *)
  disk : files;
  shown : list exn                   (** the tracebacks shown by [%%time] cells *)
}.

(** A fresh kernel, on the files [d]. *)
Definition initial (d : files) : state :=
  {| n_calls := 0; n_decisions := 0; trace := []; defs := []; disk := d; shown := [] |}.

Inductive outcome := Normal | Returned | Raised (x : exn) | OutOfFuel.

Definition action : Type := state -> outcome * state.

Definition ret : action := fun st => (Normal, st).

(** Sequencing: the second action runs only when the first ends normally. *)
Definition seq (m1 m2 : action) : action :=
  fun st => match m1 st with (Normal, st') => m2 st' | r => r end.

Fixpoint repeat_action (n : nat) (m : action) : action :=
  match n with O => ret | S n' => seq m (repeat_action n' m) end.

Variable w : world.

(** An operation on what the libraries provide: a call, an import, the
    lookup of a name, an attribute access, an indexing, an arithmetic
    operation or comparison, a formatting, a truth test, a step of an
    iteration, an unpacking.  The world says whether it raises and what it
    does to the files. *)
Definition operation (c : expr) : action :=
  fun st =>
    let r := raises w (n_calls st) c (disk st) in
    (match r with Some x => Raised x | None => Normal end,
     {| n_calls := S (n_calls st); n_decisions := n_decisions st;
        trace := trace st ++ [(c, r)]; defs := defs st;
        disk := effect w (n_calls st) c (disk st); shown := shown st |}).

(** The expressions whose evaluation ends in an operation.  A constant, a
    [lambda], a slice and the joining of an f-string cannot fail once their
    parts are evaluated; every other expression can (a name may be
    unbound, a tuple or list may stand for an unpacking). *)
Definition operates (e : expr) : bool :=
  match e with
  | Constant _ | Lambda _ _ | Slice _ _ | JoinedStr _ => false
  | _ => true
  end.

Definition decided (st : state) : state :=
  {| n_calls := n_calls st; n_decisions := S (n_decisions st);
     trace := trace st; defs := defs st; disk := disk st; shown := shown st |}.

Definition decide (k : nat -> action) : action :=
  fun st => k (decides w (n_decisions st) (disk st)) (decided st).

Definition define (name : string) (body : list stmt) : action :=
  fun st =>
    (Normal, {| n_calls := n_calls st; n_decisions := n_decisions st;
                trace := trace st; defs := (name, body) :: defs st; disk := disk st;
                shown := shown st |}).

Fixpoint lookup (name : string) (l : list (string * list stmt)) : option (list stmt) :=
  match l with
  | [] => None
  | (n, b) :: rest => if String.eqb n name then Some b else lookup name rest
  end.

(** Leaving a function: [return] ends the body, not the caller. *)
Definition returning (m : action) : action :=
  fun st => match m st with (Returned, st') => (Normal, st') | r => r end.

(** Leaving a class body: the functions it defined are its methods, not
    names of the notebook. *)
Definition scoped (m : action) : action :=
  fun st =>
    match m st with
    | (o, st') => (o, {| n_calls := n_calls st'; n_decisions := n_decisions st';
                         trace := trace st'; defs := defs st; disk := disk st';
                         shown := shown st' |})
    end.

(** [try: m  except: h  finally: f]: the handler runs when the body raises
    and the world decides that the clause matches. *)
Definition try_action (m h f : action) : action :=
  fun st =>
    match m st with
    | (Raised x, st') =>
        decide (fun d => if Nat.eqb d 0 then seq f (fun s => (Raised x, s)) else seq h f) st'
    | (Normal, st') => f st'
    | r => r
    end.

(** A cell under [%%time]: IPython's magic runs the body inside a
    [try: ... except: self.shell.showtraceback(); return]; an exception of
    the body is shown and the cell ends as if nothing had happened. *)
Definition timed (m : action) : action :=
  fun st =>
    match m st with
    | (Raised x, st') =>
        (Normal, {| n_calls := n_calls st'; n_decisions := n_decisions st';
                    trace := trace st'; defs := defs st'; disk := disk st';
                    shown := shown st' ++ [x] |})
    | r => r
    end.

(** The actions of a list, in order. *)
Definition seq_list {A} (f : A -> action) : list A -> action :=
  fix go (l : list A) : action :=
    match l with [] => ret | a :: l' => seq (f a) (go l') end.

(** A call: of a function or class the notebook has defined, by running its
    body; of anything else, as an operation of the libraries. *)
Definition apply (block : list stmt -> action) (e : expr) : action :=
  fun st =>
    match e with
    | Call (Name g) _ _ =>
        match lookup g (defs st) with
        | Some body => returning (block body) st
        | None => operation e st
        end
    | _ => operation e st
    end.

(** [fuel] bounds the nesting depth of what is run.  An expression is
    evaluated part by part, then operated on; a test is evaluated, then
    asked for its truth; every step of an iteration is an operation on what
    is iterated over, the last one being the step that finds it
    exhausted. *)
Fixpoint eval (fuel : nat) (e : expr) {struct fuel} : action :=
  match fuel with
  | O => fun st => (OutOfFuel, st)
  | S fuel' =>
      let eval_list := seq_list (eval fuel') in
      let block := seq_list (exec fuel') in
      match e with
      | Lambda _ _ => ret
      | IfExp c a b =>
          seq (eval fuel' c)
              (seq (operation c)
                   (decide (fun d => if Nat.eqb d 0 then eval fuel' b else eval fuel' a)))
      | ListComp elt tgt it ifs =>
          seq (eval fuel' it)
              (decide (fun n =>
                 seq (repeat_action n
                        (seq (operation it)
                             (seq (eval fuel' tgt)
                                  (seq (seq_list (fun i => seq (eval fuel' i) (operation i)) ifs)
                                       (eval fuel' elt)))))
                     (operation it)))
      | Call _ _ _ => seq (eval_list (children e)) (apply block e)
      | _ => seq (eval_list (children e)) (if operates e then operation e else ret)
      end
  end

with exec (fuel : nat) (s : stmt) {struct fuel} : action :=
  match fuel with
  | O => fun st => (OutOfFuel, st)
  | S fuel' =>
      let eval_list := seq_list (eval fuel') in
      let block := seq_list (exec fuel') in
      match s with
      | Expr _ | Assign _ _ => eval_list (own_exprs s)
      | AugAssign t op v => seq (eval_list (own_exprs s)) (operation (BinOp op t v))
      | Import m _ | ImportFrom m _ => operation (Name m)
      | Return _ => seq (eval_list (own_exprs s)) (fun st => (Returned, st))
      | Raise v =>
          seq (eval_list (own_exprs s))
              (fun st =>
                 (Raised (thrown w (match v with Some e => e | None => Constant CNone end)), st))
      | FunctionDef n _ b => seq (eval_list (own_exprs s)) (define n b)
      | ClassDef n _ b =>
          seq (eval_list (own_exprs s)) (seq (scoped (block b)) (define n (init_body b)))
      | If t b o =>
          seq (eval fuel' t)
              (seq (operation t)
                   (decide (fun d => if Nat.eqb d 0 then block o else block b)))
      | For t it b =>
          seq (eval fuel' it)
              (decide (fun n =>
                 seq (repeat_action n (seq (operation it) (seq (eval fuel' t) (block b))))
                     (operation it)))
      | While t b =>
          decide (fun n =>
            seq (repeat_action n (seq (eval fuel' t) (seq (operation t) (block b))))
                (seq (eval fuel' t) (operation t)))
      | With c _ b =>
          (* entering and, when the body has ended normally, leaving the
             context are operations on it; the context managers of the
             libraries the notebooks use pass an exception of the body on *)
          seq (eval_list (own_exprs s)) (seq (operation c) (seq (block b) (operation c)))
      | Try b tys h f => try_action (block b) (seq (eval_list tys) (block h)) (block f)
      end
  end.

Definition exec_block (fuel : nat) : list stmt -> action := seq_list (exec fuel).

(** A cell: its statements in order; under [%%time], with IPython's
    handler around them.  Any other cell magic takes the cell for itself,
    which makes the cell one operation of that magic. *)
Definition run_cell (fuel : nat) (c : cell) : action :=
  match c with
  | Markdown => ret
  | Code None _ b => exec_block fuel b
  | Code (Some m) _ b =>
      if String.eqb m "%%time" then timed (exec_block fuel b) else operation (Name m)
  end.

(** Running a notebook: its cells, in order, in a fresh kernel on the
    files [d].  The run ends with the first exception that reaches the top
    of a cell. *)
Definition execute (fuel : nat) (nb : notebook) (d : files) : outcome * state :=
  seq_list (run_cell fuel) (cells nb) (initial d).

End Execution.

Arguments Normal {exn}.
Arguments Returned {exn}.
Arguments Raised {exn} x.
Arguments OutOfFuel {exn}.

(* ---------------------------------------------------------------------- *)
(** ** Enough fuel: a run of bounded depth does not stop short *)

Section Fuel.

(** [N]: the names of the functions, classes and methods a program
    defines.  [D]: a depth that covers the body of each of them. *)
Variable N : list string.
Variable D : nat.

Definition local_depth (f : expr) : nat :=
  match f with Name g => if mem g N then D else 0 | _ => 0 end.

(** The nesting depth of an expression; a call of a name in [N] counts
    for the body it runs. *)
Fixpoint depth (e : expr) : nat :=
  S match e with
    | Name _ | Constant _ => 0
    | Attribute v _ | Starred v | DoubleStarred v | USub v | FormattedValue v _ => depth v
    | Call f args kws =>
        Nat.max (local_depth f)
          (Nat.max (depth f)
             (Nat.max (list_max (map depth args))
                (list_max (map (fun kv : string * expr => let (_, v) := kv in depth v) kws))))
    | Subscript v s => Nat.max (depth v) (depth s)
    | Slice lo hi =>
        Nat.max match lo with Some a => depth a | None => 0 end
                match hi with Some a => depth a | None => 0 end
    | Tuple l | ListE l | JoinedStr l => list_max (map depth l)
    | Dict items =>
        list_max (map (fun kv : expr * expr => let (k, v) := kv in Nat.max (depth k) (depth v))
                      items)
    | BinOp _ a b | Compare _ a b => Nat.max (depth a) (depth b)
    | IfExp c a b => Nat.max (depth c) (Nat.max (depth a) (depth b))
    | Lambda _ b => depth b
    | ListComp elt tgt it ifs =>
        Nat.max (depth elt) (Nat.max (depth tgt) (Nat.max (depth it) (list_max (map depth ifs))))
    end.

Definition depths (l : list expr) : nat := list_max (map depth l).

Fixpoint sdepth (s : stmt) : nat :=
  S (Nat.max (depths (own_exprs s))
       match s with
       | FunctionDef _ _ b | ClassDef _ _ b | For _ _ b | While _ b | With _ _ b =>
           list_max (map sdepth b)
       | If _ b o => Nat.max (list_max (map sdepth b)) (list_max (map sdepth o))
       | Try b _ h f =>
           Nat.max (list_max (map sdepth b))
             (Nat.max (list_max (map sdepth h)) (list_max (map sdepth f)))
       | _ => 0
       end).

Definition bdepth (b : list stmt) : nat := list_max (map sdepth b).

(** Every definition nested in [s] has its name in [N] and a body of depth
    at most [D]. *)
Definition covered1 (d : stmt) : bool :=
  match d with
  | FunctionDef n _ b => mem n N && Nat.leb (bdepth b) D
  | ClassDef n _ _ => mem n N
  | _ => true
  end.

Definition covered (s : stmt) : bool := forallb covered1 (substmts s).

End Fuel.

(* ---------------------------------------------------------------------- *)
(** ** Code that does not write *)

(** No operation in [e] is on an entry point that writes files: no call
    of one, and no name or attribute that is one. *)
Definition no_writes (e : expr) : bool :=
  forallb (fun e' => negb (writes_files (callee_name (callee_of e')))) (subexprs e).

Definition reads_only1 (s : stmt) : bool :=
  forallb no_writes (own_exprs s) &&
  match s with
  | Import m _ | ImportFrom m _ => negb (writes_files m)
  | _ => true
  end.

(** No statement of [s], at any depth, holds a call that writes files. *)
Definition reads_only (s : stmt) : bool := forallb reads_only1 (substmts s).

(* ---------------------------------------------------------------------- *)
(** ** What holds along a run *)

Section RunInvariants.

Variable exn : Type.

Local Abbreviation action := (action exn).
Local Abbreviation state := (state exn).
Local Abbreviation event := (event exn).

(** No operation of the trace raised. *)
Definition quiet (tr : list event) : Prop := Forall (fun ev => snd ev = None) tr.

(** What an action may add to the trace, given how it ended: a raised [x]
    is the exception of the last operation, and no operation before it
    raised; any other ending has seen no operation raise. *)
Definition fits (o : outcome exn) (new : list event) : Prop :=
  match o with
  | Raised x => exists pre c, new = pre ++ [(c, Some x)] /\ quiet pre
  | _ => quiet new
  end.

Definition clean (b : list stmt) : Prop := forallb handler_free b = true.

Definition good_defs (st : state) : Prop := Forall (fun d => clean (snd d)) (defs exn st).

(** An action of code without handler: nothing is shown, and what it
    adds to the trace fits how it ended. *)
Definition safe (m : action) : Prop :=
  forall st o st', good_defs st -> m st = (o, st') ->
    good_defs st' /\ shown exn st' = shown exn st /\
    exists new, trace exn st' = trace exn st ++ new /\ fits o new.

(** The exceptions raised along a trace, in order. *)
Definition raised (tr : list event) : list exn :=
  flat_map (fun ev : event => match snd ev with Some x => [x] | None => [] end) tr.

(** The exception a run ends with. *)
Definition ending (o : outcome exn) : list exn :=
  match o with Raised x => [x] | _ => [] end.

(** An action of cells: every exception raised by an operation has been
    shown by a [%%time] cell or is the one the action ends with; at most
    [k] have been shown; an action that ends with an exception ends with
    the operation that raised it. *)
Definition accounted (k : nat) (m : action) : Prop :=
  forall st o st', good_defs st -> m st = (o, st') ->
    good_defs st' /\
    exists new sh,
      trace exn st' = trace exn st ++ new /\ shown exn st' = shown exn st ++ sh /\
      List.length sh <= k /\
      raised new = sh ++ ending o /\
      (forall x, o = Raised x -> exists pre c, new = pre ++ [(c, Some x)]).

(** [N]: names of definitions; [D]: a depth that covers their bodies
    (see [covered]).  Every definition of the state is of that kind. *)
Variable N : list string.
Variable D : nat.

Definition known (st : state) : Prop :=
  Forall (fun d => mem (fst d) N = true /\
                   forallb (covered N D) (snd d) = true /\
                   bdepth N D (snd d) <= D) (defs exn st).

(** The action does not run out of fuel. *)
Definition live (m : action) : Prop :=
  forall st o st', known st -> m st = (o, st') -> o <> OutOfFuel /\ known st'.

(** What is assumed of the libraries about files: an operation changes
    the files only if it is on an entry point that writes files. *)
Definition writers_only (w : world exn) : Prop :=
  forall k c d, writes_files (callee_name (callee_of c)) = false -> effect exn w k c d = d.

Definition reading_defs (st : state) : Prop :=
  Forall (fun d => forallb reads_only (snd d) = true) (defs exn st).

(** The action leaves the files as they were. *)
Definition frozen (m : action) : Prop :=
  forall st o st', reading_defs st -> m st = (o, st') ->
    disk exn st' = disk exn st /\ reading_defs st'.

End RunInvariants.

(* ====================================================================== *)
(** * Worlds, programs and bounds used by the theorems *)
(* ====================================================================== *)

Definition no_files : files := fun _ => None.

(** The operation [c] is a call of the entry point [name]. *)
Definition calls_entry (name : string) (c : expr) : bool :=
  match c with
  | Call f _ _ => String.eqb (callee_name f) name
  | _ => false
  end.

(** A malformed CSV file: [read_csv] raises. *)
Definition malformed_csv : world string :=
  {| raises := fun _ c _ => if calls_entry "read_csv" c then Some "ParserError" else None;
     decides := fun _ _ => 1;
     effect := fun _ _ d => d;
     thrown := fun _ => "" |}.

(** An unknown category: [cross_val_score] raises. *)
Definition unknown_category : world string :=
  {| raises := fun _ c _ => if calls_entry "cross_val_score" c then Some "ValueError" else None;
     decides := fun _ _ => 1;
     effect := fun _ _ d => d;
     thrown := fun _ => "" |}.

(** A scikit-learn without the module [sklearn.experimental]: importing
    from it raises, and so does the lookup of [Pipeline], the name that an
    import further down the same cell would have bound. *)
Definition removed_module : world string :=
  {| raises := fun _ c _ =>
       match c with
       | Name "sklearn.experimental" => Some "ImportError"
       | Name "Pipeline" => Some "NameError"
       | _ => None
       end;
     decides := fun _ _ => 1;
     effect := fun _ _ d => d;
     thrown := fun _ => "" |}.

(** A world with one file system behaviour: [to_csv] creates the file
    named by its first argument, [read_csv] raises when the file named by
    its first argument does not exist. *)
Definition first_path (c : expr) : string :=
  match c with
  | Call _ (Str p :: _) _ => p
  | _ => ""
  end.

Definition csv_world : world string :=
  {| raises := fun _ _ _ => None;
     decides := fun _ _ => 1;
     effect := fun _ c d =>
       if calls_entry "to_csv" c
       then fun p => if String.eqb p (first_path c) then Some "a,b" else d p
       else d;
     thrown := fun _ => "" |}.

Definition csv_reader_world : world string :=
  {| raises := fun _ c d =>
       if calls_entry "read_csv" c
       then match d (first_path c) with Some _ => None | None => Some "FileNotFoundError" end
       else None;
     decides := fun _ _ => 1;
     effect := fun _ _ d => d;
     thrown := fun _ => "" |}.

Definition writer : list stmt :=
  [Expr (Call (Attribute (Name "cv_results") "to_csv") [Str "results.csv"] [])].

Definition reader : list stmt :=
  [Expr (Call (Attribute (Name "pd") "read_csv") [Str "results.csv"] [])].

(** The names the notebooks define, at any depth; each of their bodies has
    depth at most 8, and each notebook depth at most 16. *)
Definition repository_names : list string :=
  flat_map (fun nb => flat_map stmt_def_name (statements nb)) repository.

(* ====================================================================== *)
(** * More of the notebooks' own code *)
(* ====================================================================== *)

(** A comprehension [[f(x) for x in l]] whose [f] can raise: the first
    exception ends it. *)
Fixpoint traverse {A B} (f : A -> option B) (l : list A) : option (list B) :=
  match l with
  | [] => Some []
  | a :: l' =>
      match f a with
      | None => None
      | Some b => match traverse f l' with Some r => Some (b :: r) | None => None end
      end
  end.

(* ---------------------------------------------------------------------- *)
(** ** 04_parameter_tuning_search.ipynb: the columns of the search results *)

Definition score_columns : list string :=
  ["mean_test_score"; "std_test_score"; "rank_test_score"].

(** <<
    column_results = [f"param_{name}" for name in param_grid.keys()]
    column_results += [
        "mean_test_score", "std_test_score", "rank_test_score"]
>>
    [keys] is [param_grid.keys()] (or [param_distributions.keys()]). *)
Definition column_results (keys : list string) : list string :=
  map (fun name => ("param_" ++ name)%string) keys ++ score_columns.

(** The key of a parameter of a pipeline step, as the notebook writes them
    (['classifier__learning_rate']). *)
Definition step_parameter (step name : string) : string :=
  (step ++ dunder ++ name)%string.

Module DataFrame.

(** [df.rename(mapper, axis=1)], on the column labels: the mapper is
    called on every label; an exception it raises is the call's. *)
Definition rename (mapper : string -> option string) (labels : list string)
  : option (list string) :=
  traverse mapper labels.

(** [df.drop(columns=labels)]: the frame without the columns so labelled
    (KeyError when a label is not a column). *)
Definition drop (df : Pandas.frame) (labels : list string) : option Pandas.frame :=
  if forallb (fun l => mem l (Pandas.columns df)) labels
  then Some (filter (fun cs : string * Pandas.series => negb (mem (fst cs) labels)) df)
  else None.

(** [df[labels]] with a list of labels: those columns, in the order of the
    list (KeyError when a label is not a column). *)
Definition select (df : Pandas.frame) (labels : list string) : option Pandas.frame :=
  traverse (fun l => option_map (fun s => (l, s)) (Pandas.getitem df l)) labels.

End DataFrame.

(** <<
    cv_results = cv_results[column_results]
    cv_results = cv_results.rename(shorten_param, axis=1)
>>
    The labels of the result. *)
Definition renamed_columns (keys : list string) : option (list string) :=
  DataFrame.rename shorten_param (column_results keys).

(* ---------------------------------------------------------------------- *)
(** ** The census notebooks: target, features and kinds of columns *)

Module census.

Definition target_name : string := "class".

(** [target = df[target_name]] *)
Definition target (df : Pandas.frame) : option Pandas.series :=
  Pandas.getitem df target_name.

(** [data = df.drop(columns=[target_name, "fnlwgt"])] *)
Definition data (df : Pandas.frame) : option Pandas.frame :=
  DataFrame.drop df [target_name; "fnlwgt"].

Definition adult_sample : Pandas.frame :=
  [("age", ["39"; "50"; "38"]);
   ("workclass", ["State-gov"; "Self-emp-not-inc"; "Private"]);
   ("fnlwgt", ["77516"; "83311"; "215646"]);
   ("sex", ["Male"; "Male"; "Female"]);
   ("class", [" <=50K"; " <=50K"; " >50K"])].

End census.

(** <<
    categories = [
        data[column].unique() for column in data[categorical_columns]]
>>
    with [data] the whole frame (part_000, part_002,
    04_parameter_tuning_search.ipynb): the comprehension iterates over the
    labels of the frame [data[categorical_columns]]. *)
Definition categories_of (data : Pandas.frame) (categorical_columns : list string)
  : option (list (list string)) :=
  match DataFrame.select data categorical_columns with
  | None => None
  | Some data_categorical =>
      traverse (fun column => option_map Pandas.unique (Pandas.getitem data column))
               (Pandas.columns data_categorical)
  end.

(** <<
    categories = [
        data[column].unique()
        for column in categorical_columns
    ]
>>
    (part_003). *)
Definition categories_003 (data : Pandas.frame) (categorical_columns : list string)
  : option (list (list string)) :=
  traverse (fun column => option_map Pandas.unique (Pandas.getitem data column))
           categorical_columns.

(** The kinds of columns, as [data.dtypes] shows them. *)
Inductive dtype := object | int64 | float64.

Definition is_object (d : dtype) : bool :=
  match d with object => true | _ => false end.

(** [make_column_selector(dtype_include=object)] and
    [make_column_selector(dtype_exclude=object)], called on a frame with
    the given [dtypes]: the labels of the columns of that kind, in the
    order of the frame. *)
Definition selector_include_object (dtypes : list (string * dtype)) : list string :=
  map fst (filter (fun cd : string * dtype => is_object (snd cd)) dtypes).

Definition selector_exclude_object (dtypes : list (string * dtype)) : list string :=
  map fst (filter (fun cd : string * dtype => negb (is_object (snd cd))) dtypes).

(** part_003.
<<
    numerical_columns = numerical_columns_selector(data)
    categorical_columns = categorical_columns_selector(data)
    binary_encoding_columns = ['sex']
    one_hot_encoding_columns = [
        c for c in categorical_columns if c not in binary_encoding_columns]
>> *)
Definition numerical_columns (dtypes : list (string * dtype)) : list string :=
  selector_exclude_object dtypes.

Definition categorical_columns (dtypes : list (string * dtype)) : list string :=
  selector_include_object dtypes.

Definition binary_encoding_columns : list string := ["sex"].

Definition one_hot_encoding_columns (dtypes : list (string * dtype)) : list string :=
  filter (fun c => negb (mem c binary_encoding_columns)) (categorical_columns dtypes).

(** The columns that the three transformers of
<<
    preprocessor = ColumnTransformer([
        ('binary-encoder', OrdinalEncoder(), binary_encoding_columns),
        ('one-hot-encoder', OneHotEncoder(handle_unknown='ignore'),
         one_hot_encoding_columns),
        ('standard-scaler', StandardScaler(), numerical_columns)])
>>
    are given, in the order of the transformers.  A column in none of the
    lists is dropped ([remainder] is left at its default). *)
Definition preprocessor_columns (dtypes : list (string * dtype)) : list (list string) :=
  [binary_encoding_columns; one_hot_encoding_columns dtypes; numerical_columns dtypes].

(* ---------------------------------------------------------------------- *)
(** ** part_001: the share of correct predictions *)

(** A float that may be NaN. *)
Inductive float := nan | num (q : Q).

Module Series.

(** [a == b], element by element ([ValueError: Lengths must match to
    compare] otherwise). *)
Fixpoint eq (a b : list string) : option (list bool) :=
  match a, b with
  | [], [] => Some []
  | x :: a', y :: b' =>
      match eq a' b' with
      | Some r => Some (String.eqb x y :: r)
      | None => None
      end
  | _, _ => None
  end.

(** [s.mean()] of booleans: the share of [True]; NaN for no element. *)
Definition mean (s : list bool) : float :=
  match s with
  | [] => nan
  | _ :: _ =>
      num (Z.of_nat (count_occ bool_dec s true) # Pos.of_nat (List.length s))
  end.

Definition qmin (x y : Q) : Q := if Qle_bool x y then x else y.
Definition qmax (x y : Q) : Q := if Qle_bool x y then y else x.

(** [s.min()] and [s.max()] of a numeric column without missing values
    ([None]: NaN, for no element). *)
Definition min (s : list Q) : option Q :=
  match s with
  | [] => None
  | x :: s' => Some (fold_left qmin s' x)
  end.

Definition max (s : list Q) : option Q :=
  match s with
  | [] => None
  | x :: s' => Some (fold_left qmax s' x)
  end.

End Series.

(** [(target_test == target_predicted).mean()] *)
Definition mean_correct (target_test target_predicted : list string) : option float :=
  option_map Series.mean (Series.eq target_test target_predicted).

(* ---------------------------------------------------------------------- *)
(** ** trees.ipynb: the points at which the plots evaluate a model *)

(** As for [reciprocal_int], floats are modelled by the rationals they
    denote: the arithmetic is that of the source, without rounding. *)

Module np.

(** [np.linspace(start, stop, num)]: NumPy computes
    [step = (stop - start) / (num - 1)], the values [i * step + start] for
    [i < num], and, for [num > 1], stores [stop] in the last place. *)
Definition linspace (start stop : Q) (num : nat) : list Q :=
  let step := ((stop - start) / inject_Z (Z.of_nat (num - 1)))%Q in
  let y := map (fun i => (inject_Z (Z.of_nat i) * step + start)%Q) (List.seq 0 num) in
  if Nat.ltb 1 num then removelast y ++ [stop] else y.

(** [np.arange(start, stop, step)]: the [ceil((stop - start) / step)]
    values [start + i * step]. *)
Definition arange (start stop step : Q) : list Q :=
  map (fun i => (start + inject_Z (Z.of_nat i) * step)%Q)
      (List.seq 0 (Z.to_nat (Qceiling ((stop - start) / step)))).

(** [np.c_[xx.ravel(), yy.ravel()]] for [xx, yy = np.meshgrid(a, b)]: the
    arrays have one row per element of [b] and one column per element of
    [a]; flattened row by row, they pair every [x] with every [y]. *)
Definition meshgrid_points (a b : list Q) : list (Q * Q) :=
  flat_map (fun y => map (fun x => (x, y)) a) b.

(** [idx] is what [np.argsort(a)] may return: the indices of [a], so
    ordered that the values at them do not decrease.  (NumPy's default
    sort leaves the order of equal values open.) *)
Definition sorts (a : list Q) (idx : list nat) : Prop :=
  Permutation idx (List.seq 0 (List.length a)) /\
  Sorted (fun i j => (nth i a 0 <= nth j a 0)%Q) idx.

Fixpoint insert (a : list Q) (i : nat) (idx : list nat) : list nat :=
  match idx with
  | [] => [i]
  | j :: idx' =>
      if Qle_bool (nth i a 0%Q) (nth j a 0%Q) then i :: idx else j :: insert a i idx'
  end.

(** One such order, by insertion: equal values keep the order of their
    indices. *)
Definition argsort (a : list Q) : list nat :=
  fold_right (insert a) [] (List.seq 0 (List.length a)).

End np.

(** <<
    offset = 20 if extrapolate else 0
    X_test = np.linspace(
        X.min() - offset, X.max() + offset, num=100
    ).reshape(-1, 1)
>>
    of [plot_regression_model].  [X] is a frame of numeric columns;
    [X.min()] and [X.max()] are taken column by column, [linspace] gives
    one row per step and one column per column of [X], and the reshape
    lays the rows end to end.  [None]: a column without rows, whose
    minimum is NaN. *)
Definition X_test (X : list (list Q)) (extrapolate : bool) : option (list Q) :=
  let offset : Q := if extrapolate then 20%Q else 0%Q in
  match
    traverse (fun c => match Series.min c, Series.max c with
                       | Some lo, Some hi => Some (np.linspace (lo - offset) (hi + offset) 100)
                       | _, _ => None
                       end) X
  with
  | Some grids => Some (flat_map (fun i => map (fun g => nth i g 0%Q) grids) (List.seq 0 100))
  | None => None
  end.

Definition plot_step : Q := 0.02%Q.

(** <<
    plot_step = 0.02
    feature_0_min, feature_0_max = (X.iloc[:, 0].min() - 1,
                                    X.iloc[:, 0].max() + 1)
    feature_1_min, feature_1_max = (X.iloc[:, 1].min() - 1,
                                    X.iloc[:, 1].max() + 1)
    xx, yy = np.meshgrid(
        np.arange(feature_0_min, feature_0_max, plot_step),
        np.arange(feature_1_min, feature_1_max, plot_step)
    )
    Z = clf.predict(np.c_[xx.ravel(), yy.ravel()])
>>
    of [plot_decision_function]: the points handed to [clf.predict].
    [None]: [X] has fewer than two columns (IndexError) or no rows. *)
Definition decision_grid (X : list (list Q)) : option (list (Q * Q)) :=
  match X with
  | c0 :: c1 :: _ =>
      match Series.min c0, Series.max c0, Series.min c1, Series.max c1 with
      | Some lo0, Some hi0, Some lo1, Some hi1 =>
          Some (np.meshgrid_points (np.arange (lo0 - 1) (hi0 + 1) plot_step)
                                   (np.arange (lo1 - 1) (hi1 + 1) plot_step))
      | _, _, _, _ => None
      end
  | _ => None
  end.

(* ---------------------------------------------------------------------- *)
(** ** trees.ipynb: the species, shortened to its first word *)

(** Strings are taken to be ASCII here: beyond it, Python counts further
    characters as white space. *)

Module str.

(** The ASCII characters that Python's [str.split()] treats as white
    space: tab to carriage return, the four separators [\x1c] to [\x1f],
    and the space. *)
Definition is_space (c : ascii) : bool :=
  let n := nat_of_ascii c in
  (Nat.leb 9 n && Nat.leb n 13) || (Nat.leb 28 n && Nat.leb n 32).

(** [s.split()]: the maximal runs of characters that are not white
    space. *)
Fixpoint split (s : string) : list string :=
  match s with
  | EmptyString => []
  | String c s' =>
      if is_space c then split s'
      else
        match s' with
        | EmptyString => [String c EmptyString]
        | String c' _ =>
            if is_space c' then String c EmptyString :: split s'
            else
              match split s' with
              | w :: ws => String c w :: ws
              | [] => [String c EmptyString]
              end
        end
  end.

(** [.str[i]] on a column of lists: the element at [i], NaN when there is
    none. *)
Definition get {A} (l : list A) (i : nat) : option A := nth_error l i.

Definition is_ascii (s : string) : bool :=
  forallb (fun c => Nat.ltb (nat_of_ascii c) 128) (list_ascii_of_string s).

(** Nothing but white space; no white space at all. *)
Definition blank (s : string) : bool := forallb is_space (list_ascii_of_string s).

Definition solid (s : string) : bool :=
  forallb (fun c => negb (is_space c)) (list_ascii_of_string s).

End str.

(** [data[target_column].str.split().str[0]], for one cell of the column
    ([None]: a missing value, which the [.str] methods pass on). *)
Definition first_word (cell : option string) : option string :=
  match cell with
  | None => None
  | Some s => str.get (str.split s) 0
  end.

(* ---------------------------------------------------------------------- *)
(** ** trees.ipynb: the penguins, prepared for classification *)

Module Table.

(** A column as [read_csv] types it: numbers or strings, with missing
    values. *)
Inductive column :=
| numeric (cells : list (option Q))
| text (cells : list (option string)).

(** A frame: its columns, each with its label. *)
Definition table := list (string * column).

Definition present {A} (cell : option A) : bool :=
  match cell with Some _ => true | None => false end.

Definition rows (c : column) : nat :=
  match c with numeric l => List.length l | text l => List.length l end.

(** [c.notna()] *)
Definition notna (c : column) : list bool :=
  match c with numeric l => map present l | text l => map present l end.

(** No missing value. *)
Definition complete (c : column) : bool := forallb (fun b : bool => b) (notna c).

(** The rows at which the mask holds. *)
Fixpoint keep {A} (m : list bool) (l : list A) : list A :=
  match m, l with
  | b :: m', x :: l' => if b then x :: keep m' l' else keep m' l'
  | _, _ => []
  end.

Definition keep_rows (m : list bool) (c : column) : column :=
  match c with numeric l => numeric (keep m l) | text l => text (keep m l) end.

(** [t[label]] (KeyError for an unknown label). *)
Fixpoint getitem (t : table) (label : string) : option column :=
  match t with
  | [] => None
  | (l, c) :: t' => if String.eqb l label then Some c else getitem t' label
  end.

(** [t[labels]] (KeyError for an unknown label). *)
Definition select (t : table) (labels : list string) : option table :=
  traverse (fun l => option_map (fun c => (l, c)) (getitem t l)) labels.

(** [t[label] = c]: the column is replaced where it stands, or added at
    the end. *)
Fixpoint setitem (t : table) (label : string) (c : column) : table :=
  match t with
  | [] => [(label, c)]
  | (l, c0) :: t' =>
      if String.eqb l label then (l, c) :: t' else (l, c0) :: setitem t' label c
  end.

Fixpoint both (a b : list bool) : list bool :=
  match a, b with
  | x :: a', y :: b' => (x && y) :: both a' b'
  | _, _ => []
  end.

(** The rows without a missing value in any column. *)
Definition full_rows (t : table) : list bool :=
  match t with
  | [] => []
  | (_, c) :: t' => fold_left (fun m lc => both m (notna (snd lc))) t' (notna c)
  end.

(** [t.dropna()]: the rows with a missing value are dropped. *)
Definition dropna (t : table) : table :=
  map (fun lc : string * column => (fst lc, keep_rows (full_rows t) (snd lc))) t.

(** [c.str.split().str[0]] (AttributeError on a column that does not hold
    strings). *)
Definition str_first_word (c : column) : option column :=
  match c with
  | text l => Some (text (map first_word l))
  | numeric _ => None
  end.

(** Every column has as many rows as the first. *)
Definition rectangular (t : table) : Prop :=
  forall l1 c1 l2 c2, In (l1, c1) t -> In (l2, c2) t -> rows c1 = rows c2.

End Table.

Definition culmen_columns : list string := ["Culmen Length (mm)"; "Culmen Depth (mm)"].
Definition target_column : string := "Species".

(** <<
    data = data[culmen_columns + [target_column]]
    data[target_column] = data[target_column].str.split().str[0]
    data = data.dropna()
    X, y = data[culmen_columns], data[target_column]
>> *)
Definition classification_data (data : Table.table) : option (Table.table * Table.column) :=
  match Table.select data (culmen_columns ++ [target_column]) with
  | None => None
  | Some data1 =>
      match Table.getitem data1 target_column with
      | None => None
      | Some species =>
          match Table.str_first_word species with
          | None => None
          | Some words =>
              let data2 := Table.dropna (Table.setitem data1 target_column words) in
              match Table.select data2 culmen_columns, Table.getitem data2 target_column with
              | Some X, Some y => Some (X, y)
              | _, _ => None
              end
          end
      end
  end.

Definition penguins_sample : Table.table :=
  [("Island", Table.text [Some "Torgersen"; Some "Torgersen"; Some "Biscoe"; Some "Dream"]);
   ("Species", Table.text [Some "Adelie Penguin (Pygoscelis adeliae)"; None;
                           Some "Gentoo penguin (Pygoscelis papua)";
                           Some "Chinstrap penguin (Pygoscelis antarctica)"]);
   ("Culmen Length (mm)", Table.numeric [Some 39.1%Q; Some 39.5%Q; None; Some 46.5%Q]);
   ("Culmen Depth (mm)", Table.numeric [Some 18.7%Q; Some 17.4%Q; Some 14.3%Q; Some 17.9%Q])].

(* ---------------------------------------------------------------------- *)
(** ** feature_selection.ipynb: the features printed for every fold *)

(** [l[-2:]] *)
Definition last_two {A} (l : list A) : list A := skipn (List.length l - 2) l.

(** [np.argsort(pipeline[0].scores_)[-2:]] *)
Definition selected_features (scores : list Q) : list nat :=
  last_two (np.argsort scores).

(* ====================================================================== *)
(** * Part II: the definitions on concrete inputs *)
(* ====================================================================== *)

Example shorten_param_learning_rate :
  shorten_param "param_classifier__learning_rate" = Some "learning_rate".
Proof. reflexivity. Qed.

Example shorten_param_mean_test_score :
  shorten_param "mean_test_score" = Some "mean_test_score".
Proof. reflexivity. Qed.

Example shorten_param_three_underscores :
  shorten_param "a___b" = Some "b".
Proof. reflexivity. Qed.

Example rvs_max_leaf_nodes : reciprocal_int.rvs (reciprocal_int.__init__ 2 256) (1023 # 4) = 255%Z.
Proof. reflexivity. Qed.

Example fold_of_census_sample :
  fit_transform_fold census_sample [0; 1] [2; 3] = Some (Sklearn.Ok [[0; 2]; [1; 0]]).
Proof. reflexivity. Qed.

Example malformed_csv_surfaces :
  let (o, st) := execute string malformed_csv 20 nb_part_000_solution_01 no_files in
  o = Raised "ParserError" /\
  map (fun ev : event string => (dotted (callee_of (fst ev)), snd ev)) (trace string st) =
    [("pandas", None); ("pd", None); ("pd.read_csv", None);
     ("pd.read_csv", Some "ParserError")].
Proof. vm_compute. split; reflexivity. Qed.

Example unknown_category_surfaces :
  let (o, st) := execute string unknown_category 20 nb_part_000_solution_01 no_files in
  o = Raised "ValueError" /\
  option_map (fun ev : event string => (dotted (callee_of (fst ev)), snd ev))
             (last_event (trace string st)) =
    Some ("cross_val_score", Some "ValueError") /\
  raised string (trace string st) = ["ValueError"] /\
  shown string st = [].
Proof. vm_compute. repeat split. Qed.

(** With a handler the same does not hold: the exception of the call is
    caught, the run goes on and ends normally. *)
Example handler_recovers :
  let (o, st) :=
    exec_block string malformed_csv 20
      [Try [Expr (Call (Name "f") [] []); Expr (Call (Name "read_csv") [] [])] [] [] [];
       Expr (Call (Name "h") [] [])]
      (initial string no_files) in
  o = Normal /\
  map (fun ev : event string => (dotted (callee_of (fst ev)), snd ev)) (trace string st) =
    [("f", None); ("f", None); ("read_csv", None); ("read_csv", Some "ParserError");
     ("h", None); ("h", None)].
Proof. vm_compute. split; reflexivity. Qed.

(** The [%%time] magic does the same for its cell: the body stops at the
    import that fails, the traceback is shown and the next cell runs. *)
Example timed_cell_goes_on :
  let (o, st) :=
    seq_list string
      (run_cell string removed_module 20)
      [Code (Some "%%time") []
         [ImportFrom "sklearn.experimental" [("enable_hist_gradient_boosting", None)];
          Expr (Call (Name "print") [Str "fitted"] [])];
       Code None [] [Expr (Call (Name "print") [Str "next cell"] [])]]
      (initial string no_files) in
  o = Normal /\ shown string st = ["ImportError"] /\
  map (fun ev : event string => (dotted (callee_of (fst ev)), snd ev)) (trace string st) =
    [("sklearn.experimental", Some "ImportError"); ("print", None); ("print", None)].
Proof. vm_compute. repeat split. Qed.

(** Code that writes a file does interfere with code that reads it: the
    reader fails on its own and succeeds after the writer. *)
Example writer_interferes :
  fst (exec_block string csv_reader_world 5 reader (initial string no_files)) =
    Raised "FileNotFoundError" /\
  fst (exec_block string csv_reader_world 5 reader
         (initial string
            (disk string (snd (exec_block string csv_world 5 writer (initial string no_files)))))) =
    Normal.
Proof. split; reflexivity. Qed.

(** The one mention of a writer in the repository is commented out. *)
Example write_is_commented_out :
  flat_map commented_out_writes repository =
    [["# cv_results.to_csv("; "../figures/randomized_search_results.csv"; ")"]].
Proof. reflexivity. Qed.

(* ====================================================================== *)
(** * Part III: lemmas *)
(* ====================================================================== *)

(** Case analysis over the notebooks of the repository. *)
Ltac each_notebook H :=
  unfold repository in H; simpl in H;
  repeat (destruct H as [<- | H]); [ .. | destruct H ].

(* ---------------------------------------------------------------------- *)
(** ** Facts about the string primitives *)

Section PyStrFacts.
Import PyStr.
Local Open Scope string_scope.

Lemma startswith_app sep post : startswith sep (sep ++ post) = true.
Proof.
  induction sep as [|a sep IH]; simpl; [reflexivity|].
  now rewrite Ascii.eqb_refl, IH.
Qed.

Lemma startswith_split sep : forall s,
  startswith sep s = true -> s = sep ++ drop (String.length sep) s.
Proof.
  induction sep as [|a sep IH]; intros [|b s]; simpl; try easy.
  intros H. apply andb_true_iff in H as [Hab Hs].
  apply Ascii.eqb_eq in Hab. subst b. f_equal. now apply IH.
Qed.

Lemma contains_occurs sep : forall s,
  contains sep s = true <-> exists i, occurs_at sep s i.
Proof.
  induction s as [|c s IH]; simpl.
  - rewrite orb_false_r. split.
    + intros H. exists 0, "", (drop (String.length sep) ""). split; [|reflexivity].
      now apply startswith_split.
    + intros (i & pre & post & E & _).
      destruct pre; simpl in E.
      * rewrite E. apply startswith_app.
      * discriminate.
  - rewrite orb_true_iff, IH. split.
    + intros [H | (i & pre & post & E & L)].
      * exists 0, "", (drop (String.length sep) (String c s)). split; [|reflexivity].
        now apply startswith_split.
      * exists (S i), (String c pre), post. simpl. now rewrite E, L.
    + intros (i & pre & post & E & L).
      destruct pre as [|a pre]; simpl in E.
      * left. rewrite E. apply startswith_app.
      * right. injection E as _ E. exists (String.length pre), pre, post. now split.
Qed.

Lemma rfind_none sep : forall s,
  rfind sep s = None -> contains sep s = false.
Proof.
  induction s as [|c s IH]; simpl.
  - now destruct (startswith sep "").
  - destruct (rfind sep s); [discriminate|].
    destruct (startswith sep (String c s)); [discriminate|].
    intros _. now rewrite IH.
Qed.

(** [rfind] returns an occurrence, the slices around it are the two sides,
    and no occurrence starts further right. *)
Lemma rfind_some sep : forall s i,
  rfind sep s = Some i ->
  s = take i s ++ sep ++ drop (i + String.length sep) s /\
  String.length (take i s) = i /\
  forall j, occurs_at sep s j -> j <= i.
Proof.
  induction s as [|c s IH]; simpl; intros i H.
  - destruct (startswith sep "") eqn:E; [|discriminate].
    injection H as <-. simpl. split; [|split; [reflexivity|]].
    + now apply startswith_split.
    + intros j (pre & post & Ej & Lj). destruct pre; [simpl in Lj; lia | discriminate].
  - destruct (rfind sep s) as [k|] eqn:R.
    + injection H as <-. destruct (IH k eq_refl) as (E & L & M).
      simpl. split; [|split].
      * now rewrite <- E.
      * now rewrite L.
      * intros j (pre & post & Ej & Lj).
        destruct pre as [|a pre]; simpl in *; [lia|].
        injection Ej as _ Ej. subst j.
        apply le_n_S, M. now exists pre, post.
    + destruct (startswith sep (String c s)) eqn:E; [|discriminate].
      injection H as <-. simpl. split; [|split; [reflexivity|]].
      * now apply startswith_split.
      * intros j (pre & post & Ej & Lj).
        destruct pre as [|a pre]; simpl in *; [lia|].
        injection Ej as _ Ej. exfalso.
        assert (C : contains sep s = true).
        { apply contains_occurs. exists (String.length pre). now exists pre, post. }
        now rewrite (rfind_none _ _ R) in C.
Qed.

Lemma app_inv_length : forall a a' b b' : string,
  a ++ b = a' ++ b' -> String.length a = String.length a' -> a = a' /\ b = b'.
Proof.
  induction a as [|x a IH]; intros [|y a'] b b' E L; simpl in *; try discriminate.
  - now split.
  - injection E as -> E. injection L as L. destruct (IH _ _ _ E L) as [-> ->]. now split.
Qed.

Lemma app_inv_head_str : forall a b b' : string, a ++ b = a ++ b' -> b = b'.
Proof. induction a; simpl; intros b b' E; [assumption|]. injection E as E. now apply IHa. Qed.

End PyStrFacts.

(* ---------------------------------------------------------------------- *)
(** ** Facts about truncation *)

Section NumpyFacts.
Import Numpy.
Local Open Scope Z_scope.

Lemma truncate_floor (x : Q) : (0 <= x)%Q -> truncate x = Qfloor x.
Proof.
  destruct x as [n d]. unfold Qle, truncate, Qfloor. simpl.
  intros H. apply Z.quot_div_nonneg; lia.
Qed.

Lemma Qfloor_nonneg (x : Q) : (0 <= x)%Q -> 0 <= Qfloor x.
Proof.
  intros H. change 0 with (Qfloor 0). now apply Qfloor_resp_le.
Qed.

Lemma astype_int_in_range (x : Q) :
  (0 <= x)%Q -> Qfloor x <= int64_max -> astype_int x = Qfloor x.
Proof.
  intros H0 H1. unfold astype_int. rewrite (truncate_floor _ H0).
  pose proof (Qfloor_nonneg _ H0) as H2.
  assert (E : ((int64_min <=? Qfloor x) && (Qfloor x <=? int64_max))%bool = true).
  { apply andb_true_iff. split; apply Z.leb_le; [unfold int64_min; lia | assumption]. }
  now rewrite E.
Qed.

End NumpyFacts.

(* ---------------------------------------------------------------------- *)
(** ** Facts about [unique], folds and the encoder *)

Section EncoderFacts.
Import Pandas Sklearn.

Lemma unique_In (s : series) v : In v s -> In v (unique s).
Proof.
  induction s as [|u s IH]; simpl; [easy|].
  intros [-> | H]; [now left|].
  destruct (String.eqb v u) eqn:E.
  - apply String.eqb_eq in E. now left.
  - right. apply filter_In. split; [now apply IH | now rewrite E].
Qed.

Lemma index_of_In cats v : In v cats -> exists i, index_of cats v = Some i.
Proof.
  induction cats as [|c cats IH]; simpl; [easy|].
  intros H. destruct (String.eqb c v) eqn:E; [now exists 0|].
  destruct H as [-> | H]; [now rewrite String.eqb_refl in E|].
  destruct (IH H) as [i ->]. now exists (S i).
Qed.

Lemma encode_column_known j cats s :
  (forall v, In v s -> In v cats) -> exists r, encode_column j cats s = Ok r.
Proof.
  induction s as [|v s IH]; simpl; intros H; [now exists []|].
  destruct (index_of_In cats v (H v (or_introl eq_refl))) as [i ->].
  destruct IH as [r ->]; [auto|]. now exists (i :: r).
Qed.

Lemma take_In s : forall rows r v, take s rows = Some r -> In v r -> In v s.
Proof.
  induction rows as [|i rows IH]; simpl; intros r v E H.
  - injection E as <-. destruct H.
  - destruct (nth_error s i) as [u|] eqn:N; [|discriminate].
    destruct (take s rows) as [r'|]; [|discriminate].
    injection E as <-. destruct H as [<- | H].
    + now apply nth_error_In in N.
    + now apply (IH r').
Qed.

Lemma take_in_range s : forall rows,
  (forall i, In i rows -> i < List.length s) -> exists r, take s rows = Some r.
Proof.
  induction rows as [|i rows IH]; simpl; intros H; [now exists []|].
  destruct (nth_error s i) as [u|] eqn:N.
  - destruct IH as [r ->]; [auto|]. now exists (u :: r).
  - apply nth_error_None in N. specialize (H i (or_introl eq_refl)). lia.
Qed.

Lemma take_frame_in_range rows : forall data : frame,
  (forall i, In i rows -> forall c s, In (c, s) data -> i < List.length s) ->
  exists d, take_frame data rows = Some d.
Proof.
  induction data as [|[c s] data IH]; simpl; intros H; [now exists []|].
  destruct (take_in_range s rows) as [r ->].
  { intros i Hi. apply (H i Hi c). now left. }
  destruct IH as [d ->].
  { intros i Hi c' s' Hc. apply (H i Hi c'). now right. }
  now exists ((c, r) :: d).
Qed.

(** The [j]-th column of a fold holds values of the [j]-th column of the
    frame. *)
Lemma fold_values_known rows : forall (data fold : frame) j c s,
  take_frame data rows = Some fold -> nth_error fold j = Some (c, s) ->
  exists s0, nth_error data j = Some (c, s0) /\ forall v, In v s -> In v (unique s0).
Proof.
  induction data as [|[c0 s0] data IH]; simpl; intros fold j c s E H.
  - injection E as <-. now destruct j.
  - destruct (take s0 rows) as [r|] eqn:T; [|discriminate].
    destruct (take_frame data rows) as [d'|] eqn:F; [|discriminate].
    injection E as <-. destruct j as [|j]; simpl in H |- *.
    + injection H as <- <-. exists s0. split; [reflexivity|].
      intros v Hv. apply unique_In. now apply (take_In s0 rows r).
    + now apply (IH d').
Qed.

(** Every value of a fold is in the [unique] list of its column, so the
    encoder finds a code for it. *)
Lemma encode_fold rows : forall (data d : frame) j,
  take_frame data rows = Some d ->
  exists codes, encode j (map (fun cs => unique (snd cs)) data) (map snd d) = Ok codes.
Proof.
  induction data as [|[c s] data IH]; simpl; intros d j E.
  - injection E as <-. now exists [].
  - destruct (take s rows) as [r|] eqn:T; [|discriminate].
    destruct (take_frame data rows) as [d'|] eqn:F; [|discriminate].
    injection E as <-. simpl.
    destruct (encode_column_known j (unique s) r) as [cr ->].
    { intros v Hv. apply unique_In. now apply (take_In s rows r). }
    destruct (IH d' (S j) eq_refl) as [codes ->]. now exists (cr :: codes).
Qed.

End EncoderFacts.

Lemma getitem_In (data : Pandas.frame) c s :
  NoDup (Pandas.columns data) -> In (c, s) data -> Pandas.getitem data c = Some s.
Proof.
  unfold Pandas.columns. induction data as [|[c' s'] data IH]; simpl; [easy|].
  intros N H. inversion N as [|? ? Hn N']; subst.
  destruct H as [H | H].
  - injection H as -> ->. now rewrite String.eqb_refl.
  - destruct (String.eqb c' c) eqn:E.
    + apply String.eqb_eq in E. subst c'. exfalso. apply Hn.
      apply in_map_iff. now exists (c, s).
    + now apply IH.
Qed.

Lemma categories_unique (data : Pandas.frame) :
  NoDup (Pandas.columns data) ->
  categories data = map (fun cs => Pandas.unique (snd cs)) data.
Proof.
  intros N. unfold categories, Pandas.columns. rewrite map_map.
  apply map_ext_in. intros [c s] H. simpl.
  now rewrite (getitem_In data c s N H).
Qed.

(* ---------------------------------------------------------------------- *)
(** ** In code without [Try] and [Raise], the first exception ends the cell *)

Section ExecutionFacts.

Variable exn : Type.
Variable w : world exn.

Local Abbreviation action := (action exn).
Local Abbreviation state := (state exn).
Local Abbreviation event := (event exn).
Local Abbreviation quiet := (quiet exn).
Local Abbreviation fits := (fits exn).
Local Abbreviation good_defs := (good_defs exn).
Local Abbreviation safe := (safe exn).
Local Abbreviation raised := (raised exn).
Local Abbreviation ending := (ending exn).
Local Abbreviation accounted := (accounted exn).

Lemma quiet_app a b : quiet a -> quiet b -> quiet (a ++ b).
Proof. unfold quiet. intros. apply Forall_app. now split. Qed.

Lemma fits_app o a b : quiet a -> fits o b -> fits o (a ++ b).
Proof.
  destruct o; simpl; intros Ha Hb; try (now apply quiet_app).
  destruct Hb as (pre & c & -> & Hq).
  exists (a ++ pre), c. rewrite app_assoc. split; [reflexivity | now apply quiet_app].
Qed.

(** An action that touches neither the trace nor what is shown. *)
Lemma safe_silent (m : action) :
  (forall st o st', good_defs st -> m st = (o, st') ->
     good_defs st' /\ shown exn st' = shown exn st /\ trace exn st' = trace exn st /\
     forall x, o <> Raised x) ->
  safe m.
Proof.
  intros H st o st' G E. destruct (H _ _ _ G E) as (G' & S & T & R).
  split; [assumption|]. split; [assumption|].
  exists []. rewrite app_nil_r. split; [assumption|].
  destruct o; simpl; try constructor. now destruct (R x).
Qed.

Lemma safe_ret : safe (ret exn).
Proof.
  apply safe_silent. intros st o st' G E. injection E as <- <-.
  repeat split; try assumption. discriminate.
Qed.

Lemma safe_seq m1 m2 : safe m1 -> safe m2 -> safe (seq exn m1 m2).
Proof.
  intros H1 H2 st o st' G E. unfold seq in E.
  destruct (m1 st) as [o1 st1] eqn:E1.
  destruct (H1 _ _ _ G E1) as (G1 & S1 & new1 & T1 & F1).
  destruct o1;
    try (injection E as <- <-; split; [assumption|]; split; [assumption|]; now exists new1).
  destruct (H2 _ _ _ G1 E) as (G2 & S2 & new2 & T2 & F2).
  split; [assumption|]. split; [congruence|]. exists (new1 ++ new2).
  rewrite T2, T1, app_assoc. split; [reflexivity | now apply fits_app].
Qed.

Lemma safe_seq_list {A} (f : A -> action) (P : A -> Prop) :
  (forall a, P a -> safe (f a)) -> forall l, Forall P l -> safe (seq_list exn f l).
Proof.
  intros Hf. induction l as [|a l IH]; intros Hl; simpl.
  - apply safe_ret.
  - inversion Hl; subst. apply safe_seq; auto.
Qed.

Lemma safe_repeat m : safe m -> forall n, safe (repeat_action exn n m).
Proof.
  intros Hm. induction n; simpl; [apply safe_ret | now apply safe_seq].
Qed.

Lemma safe_operation c : safe (operation exn w c).
Proof.
  intros st o st' G E. unfold operation in E. injection E as <- <-.
  split; [exact G|]. split; [reflexivity|]. simpl. eexists. split; [reflexivity|].
  destruct (raises exn w (n_calls exn st) c (disk exn st)) as [x|]; simpl.
  - exists [], c. split; [reflexivity | constructor].
  - repeat constructor.
Qed.

Lemma safe_operates e : safe (if operates e then operation exn w e else ret exn).
Proof. destruct (operates e); [apply safe_operation | apply safe_ret]. Qed.

Lemma safe_decide k : (forall d, safe (k d)) -> safe (decide exn w k).
Proof.
  intros Hk st o st' G E. unfold decide in E.
  exact (Hk _ (decided exn st) _ _ G E).
Qed.

Lemma safe_define n b : clean b -> safe (define exn n b).
Proof.
  intros Hb. apply safe_silent. intros st o st' G E. unfold define in E.
  injection E as <- <-. repeat split; try discriminate. now constructor.
Qed.

Lemma safe_returned : safe (fun st => (Returned, st)).
Proof.
  apply safe_silent. intros st o st' G E. injection E as <- <-.
  repeat split; try assumption. discriminate.
Qed.

Lemma safe_returning m : safe m -> safe (returning exn m).
Proof.
  intros Hm st o st' G E. unfold returning in E.
  destruct (m st) as [o1 st1] eqn:E1.
  destruct (Hm _ _ _ G E1) as (G1 & S1 & new & T & F).
  destruct o1; injection E as <- <-; (split; [assumption|]); (split; [assumption|]);
    now exists new.
Qed.

Lemma safe_scoped m : safe m -> safe (scoped exn m).
Proof.
  intros Hm st o st' G E. unfold scoped in E.
  destruct (m st) as [o1 st1] eqn:E1.
  destruct (Hm _ _ _ G E1) as (G1 & S1 & new & T & F).
  injection E as <- <-. split; [exact G|]. split; [exact S1|]. now exists new.
Qed.

Lemma lookup_clean g : forall l body,
  Forall (fun d => clean (snd d)) l -> lookup g l = Some body -> clean body.
Proof.
  induction l as [|[n b] l IH]; simpl; intros body Hl E; [discriminate|].
  inversion Hl; subst.
  destruct (String.eqb n g); [injection E as <-; assumption | now apply IH].
Qed.

Lemma safe_apply block e :
  (forall b, clean b -> safe (block b)) -> safe (apply exn w block e).
Proof.
  intros Hb st o st' G E. unfold apply in E.
  destruct e; try (now apply (safe_operation _ _ _ _ G E)).
  destruct e; try (now apply (safe_operation _ _ _ _ G E)).
  destruct (lookup id (defs exn st)) as [body|] eqn:L.
  - apply (safe_returning _ (Hb body (lookup_clean _ _ _ G L)) _ _ _ G E).
  - now apply (safe_operation _ _ _ _ G E).
Qed.

(** The statements nested in a clean block are clean. *)
Lemma forallb_flat_map {A B} (p : B -> bool) (f : A -> list B) (l : list A) :
  forallb p (flat_map f l) = forallb (fun a => forallb p (f a)) l.
Proof.
  induction l as [|a l IH]; simpl; [reflexivity|].
  now rewrite forallb_app, IH.
Qed.

Lemma clean_Forall b : clean b -> Forall (fun s => handler_free s = true) b.
Proof. unfold clean. intros H. now apply Forall_forall, forallb_forall. Qed.

Lemma handler_free_bodies s :
  handler_free s = true ->
  match s with
  | FunctionDef _ _ b | ClassDef _ _ b | For _ _ b | While _ b | With _ _ b => clean b
  | If _ b o => clean b /\ clean o
  | Try _ _ _ _ | Raise _ => False
  | _ => True
  end.
Proof.
  unfold handler_free, clean.
  destruct s; simpl; try (intros; exact I); try discriminate;
    rewrite ?forallb_app, ?forallb_flat_map, ?andb_true_iff; tauto.
Qed.

Lemma init_body_clean b : clean b -> clean (init_body b).
Proof.
  unfold clean. induction b as [|s b IH]; simpl; [reflexivity|].
  rewrite andb_true_iff. intros [Hs Hb].
  destruct s; auto.
  destruct (string_dec name "__init__") as [->|N].
  - apply (handler_free_bodies _ Hs).
  - assert (E : init_body (FunctionDef name params body :: b) = init_body b).
    { simpl. repeat (destruct name as [|[[] [] [] [] [] [] [] []] name]; try reflexivity).
      now contradict N. }
    simpl in E |- *. rewrite E. auto.
Qed.

(** Takes apart an action built from the combinators of the model. *)
Ltac safe_parts :=
  repeat match goal with
         | |- safe (ret _) => apply safe_ret
         | |- safe (operation _ _ _) => apply safe_operation
         | |- safe (if operates _ then _ else _) => apply safe_operates
         | |- safe (if Nat.eqb ?d 0 then _ else _) => destruct (Nat.eqb d 0)
         | |- safe (seq _ _ _) => apply safe_seq
         | |- safe (decide _ _ _) => apply safe_decide; intro
         | |- safe (repeat_action _ _ _) => apply safe_repeat
         end.

Lemma safe_both fuel :
  (forall e, safe (eval exn w fuel e)) /\
  (forall s, handler_free s = true -> safe (exec exn w fuel s)).
Proof.
  induction fuel as [|fuel [IHe IHs]].
  - split; intros; apply safe_silent; intros st o st' G E; injection E as <- <-;
      repeat split; try assumption; discriminate.
  - assert (EL : forall l, safe (seq_list exn (eval exn w fuel) l)).
    { intros l. apply (safe_seq_list _ (fun _ => True)); [auto|].
      apply Forall_forall. auto. }
    assert (BL : forall b, clean b -> safe (seq_list exn (exec exn w fuel) b)).
    { intros b Hb. apply (safe_seq_list _ (fun s => handler_free s = true)); [auto|].
      now apply clean_Forall. }
    split.
    + intros e. destruct e; cbn [eval]; safe_parts;
        try apply EL; try apply IHe; try (now apply safe_apply).
      apply (safe_seq_list _ (fun _ => True)).
      * intros i _. apply safe_seq; [apply IHe | apply safe_operation].
      * apply Forall_forall. auto.
    + intros s Hs. pose proof (handler_free_bodies s Hs) as Hb.
      destruct s; cbn [exec]; safe_parts;
        try apply EL; try apply IHe; try apply safe_returned;
        try (destruct Hb; fail);
        try (now apply safe_define); try (now apply BL);
        try (destruct Hb; now apply BL).
      * now apply safe_scoped, BL.
      * now apply safe_define, init_body_clean.
Qed.

Lemma quiet_raised (tr : list event) : quiet tr <-> raised tr = [].
Proof.
  unfold quiet, raised. induction tr as [|[c r] tr IH]; simpl.
  - split; [reflexivity | constructor].
  - split.
    + intros H. inversion H as [|? ? H1 H2]; subst. simpl in H1. subst r. now apply IH.
    + intros H. destruct r; [discriminate|]. constructor; [reflexivity | now apply IH].
Qed.

Lemma raised_app (a b : list event) : raised (a ++ b) = raised a ++ raised b.
Proof. unfold raised. apply flat_map_app. Qed.

Lemma fits_ending o (new : list event) : fits o new -> raised new = ending o.
Proof.
  destruct o; simpl; try (now apply quiet_raised).
  intros (pre & c & -> & Q). rewrite raised_app.
  apply quiet_raised in Q. now rewrite Q.
Qed.

Lemma fits_last o (new : list event) x :
  fits o new -> o = Raised x -> exists pre c, new = pre ++ [(c, Some x)].
Proof. intros F ->. destruct F as (pre & c & -> & _). now exists pre, c. Qed.

(** Code without handler shows nothing. *)
Lemma safe_accounted m : safe m -> accounted 0 m.
Proof.
  intros Hm st o st' G E. destruct (Hm _ _ _ G E) as (G' & S & new & T & F).
  split; [assumption|]. exists new, []. rewrite app_nil_r.
  repeat split; try assumption.
  - reflexivity.
  - now apply fits_ending.
  - intros x. now apply fits_last.
Qed.

(** Under [%%time] the exception of the body is shown, and is the only one
    the cell shows. *)
Lemma accounted_timed m : safe m -> accounted 1 (timed exn m).
Proof.
  intros Hm st o st' G E. unfold timed in E.
  destruct (m st) as [o1 st1] eqn:E1.
  destruct (Hm _ _ _ G E1) as (G1 & S1 & new & T & F).
  destruct o1.
  1, 2, 4: injection E as <- <-; (split; [assumption|]); exists new, [];
           rewrite app_nil_r; repeat split; try assumption;
           [simpl; lia | now apply fits_ending | discriminate].
  injection E as <- <-. split; [exact G1|]. exists new, [x]. simpl.
  repeat split; try assumption.
  - now rewrite S1.
  - lia.
  - now apply (fits_ending (Raised x)).
  - discriminate.
Qed.

Lemma accounted_le k k' m : k <= k' -> accounted k m -> accounted k' m.
Proof.
  intros L Hm st o st' G E.
  destruct (Hm _ _ _ G E) as (G' & new & sh & T & S & B & R & P).
  split; [assumption|]. exists new, sh. repeat split; try assumption. lia.
Qed.

Lemma accounted_ret : accounted 0 (ret exn).
Proof. apply safe_accounted, safe_ret. Qed.

Lemma accounted_seq k1 k2 m1 m2 :
  accounted k1 m1 -> accounted k2 m2 -> accounted (k1 + k2) (seq exn m1 m2).
Proof.
  intros H1 H2 st o st' G E. unfold seq in E.
  destruct (m1 st) as [o1 st1] eqn:E1.
  destruct (H1 _ _ _ G E1) as (G1 & new1 & sh1 & T1 & S1 & B1 & R1 & P1).
  destruct o1;
    try (injection E as <- <-; split; [assumption|]; exists new1, sh1;
         repeat split; try assumption; lia).
  destruct (H2 _ _ _ G1 E) as (G2 & new2 & sh2 & T2 & S2 & B2 & R2 & P2).
  split; [assumption|]. exists (new1 ++ new2), (sh1 ++ sh2).
  rewrite T2, T1, S2, S1, !app_assoc, raised_app, R1, R2, length_app.
  simpl. rewrite app_nil_r, app_assoc.
  repeat split; try reflexivity; [lia|].
  intros x Hx. destruct (P2 x Hx) as (pre & c & ->).
  exists (new1 ++ pre), c. now rewrite app_assoc.
Qed.

(** A cell of code without handler: at most one exception is shown, and
    only under a cell magic. *)
Lemma accounted_cell fuel c :
  clean (cell_body c) -> accounted (List.length (cell_magic c)) (run_cell exn w fuel c).
Proof.
  intros Hc.
  assert (B : safe (exec_block exn w fuel (cell_body c))).
  { apply (safe_seq_list _ (fun s => handler_free s = true)).
    - apply safe_both.
    - now apply clean_Forall. }
  destruct c as [|[m|] cs b]; simpl in *.
  - apply accounted_ret.
  - destruct (String.eqb m "%%time").
    + now apply accounted_timed.
    + apply (accounted_le 0); [lia|]. apply safe_accounted, safe_operation.
  - now apply safe_accounted.
Qed.

(** A cell without magic is run as its statements are. *)
Lemma safe_cell fuel c :
  clean (cell_body c) -> cell_magic c = [] -> safe (run_cell exn w fuel c).
Proof.
  intros Hc Hm. destruct c as [|[m|] cs b]; simpl in *; try discriminate.
  - apply safe_ret.
  - apply (safe_seq_list _ (fun s => handler_free s = true)).
    + apply safe_both.
    + now apply clean_Forall.
Qed.

Lemma accounted_cells fuel (cs : list cell) :
  clean (flat_map cell_body cs) ->
  accounted (List.length (flat_map cell_magic cs)) (seq_list exn (run_cell exn w fuel) cs).
Proof.
  unfold clean. induction cs as [|c cs IH]; simpl; intros H.
  - apply accounted_ret.
  - rewrite forallb_app in H. apply andb_true_iff in H as [Hc Hcs].
    rewrite length_app. apply accounted_seq; [now apply accounted_cell | now apply IH].
Qed.

(** A run of clean code: every exception raised by an operation was shown
    by a [%%time] cell or is the outcome of the run, in which case the
    operation that raised it is the last of the run. *)
Lemma clean_run fuel (nb : notebook) (d : files) (o : outcome exn) (st : state) :
  clean (code nb) -> execute exn w fuel nb d = (o, st) ->
  raised (trace exn st) = shown exn st ++ ending o /\
  List.length (shown exn st) <= List.length (flat_map cell_magic (cells nb)) /\
  forall x, o = Raised x -> exists pre c, trace exn st = pre ++ [(c, Some x)].
Proof.
  intros Hb E.
  assert (G0 : good_defs (initial exn d)) by constructor.
  destruct (accounted_cells fuel (cells nb) Hb _ _ _ G0 E)
    as (_ & new & sh & T & S & B & R & P).
  simpl in T, S. subst new sh. now repeat split.
Qed.

Lemma quiet_no_raise (tr : list event) c x : quiet tr -> ~ In (c, Some x) tr.
Proof.
  intros Q I. unfold quiet in Q. rewrite Forall_forall in Q.
  now specialize (Q _ I).
Qed.

(** When nothing was shown, a raising operation is the last of the run,
    and its exception the outcome. *)
Lemma nothing_shown o (tr : list event) c x :
  raised tr = ending o ->
  (forall y, o = Raised y -> exists pre c', tr = pre ++ [(c', Some y)]) ->
  In (c, Some x) tr ->
  o = Raised x /\ exists pre, tr = pre ++ [(c, Some x)] /\ quiet pre.
Proof.
  intros R P I. destruct o as [| |y|]; simpl in R;
    try (apply quiet_raised in R; now apply quiet_no_raise in I).
  destruct (P y eq_refl) as (pre & c' & ->).
  rewrite raised_app in R. simpl in R.
  assert (Q : quiet pre).
  { apply quiet_raised. destruct (raised pre) as [|z l]; [reflexivity|].
    destruct l; discriminate. }
  apply in_app_or in I as [I | [I | []]]; [now apply quiet_no_raise in I|].
  injection I as <- <-. split; [reflexivity|]. now exists pre.
Qed.

End ExecutionFacts.

(* ---------------------------------------------------------------------- *)
(** ** Enough fuel gives a result *)

Section FuelFacts.

Variable exn : Type.
Variable w : world exn.
Variable N : list string.
Variable D : nat.

Local Abbreviation action := (action exn).
Local Abbreviation state := (state exn).
Local Abbreviation known := (known exn N D).
Local Abbreviation live := (live exn N D).

Lemma live_ret : live (ret exn).
Proof. intros st o st' K E. injection E as <- <-. now split. Qed.

Lemma live_seq m1 m2 : live m1 -> live m2 -> live (seq exn m1 m2).
Proof.
  intros H1 H2 st o st' K E. unfold seq in E.
  destruct (m1 st) as [o1 st1] eqn:E1.
  destruct (H1 _ _ _ K E1) as (L1 & K1).
  destruct o1; try (injection E as <- <-; now split).
  now apply (H2 _ _ _ K1 E).
Qed.

Lemma live_seq_list {A} (f : A -> action) (P : A -> Prop) :
  (forall a, P a -> live (f a)) -> forall l, Forall P l -> live (seq_list exn f l).
Proof.
  intros Hf. induction l as [|a l IH]; intros Hl; simpl.
  - apply live_ret.
  - inversion Hl; subst. apply live_seq; auto.
Qed.

Lemma live_repeat m : live m -> forall n, live (repeat_action exn n m).
Proof. intros Hm. induction n; simpl; [apply live_ret | now apply live_seq]. Qed.

Lemma live_operation c : live (operation exn w c).
Proof.
  intros st o st' K E. unfold operation in E. injection E as <- <-.
  split; [|exact K]. now destruct (raises exn w (n_calls exn st) c (disk exn st)).
Qed.

Lemma live_operates e : live (if operates e then operation exn w e else ret exn).
Proof. destruct (operates e); [apply live_operation | apply live_ret]. Qed.

Lemma live_timed m : live m -> live (timed exn m).
Proof.
  intros Hm st o st' K E. unfold timed in E.
  destruct (m st) as [o1 st1] eqn:E1.
  destruct (Hm _ _ _ K E1) as (L1 & K1).
  destruct o1; injection E as <- <-; (split; [assumption || discriminate | exact K1]).
Qed.

Lemma live_decide k : (forall d, live (k d)) -> live (decide exn w k).
Proof.
  intros Hk st o st' K E. unfold decide in E.
  exact (Hk _ (decided exn st) _ _ K E).
Qed.

Lemma live_define n b :
  mem n N = true -> forallb (covered N D) b = true -> bdepth N D b <= D ->
  live (define exn n b).
Proof.
  intros Hn Hc Hd st o st' K E. unfold define in E. injection E as <- <-.
  split; [discriminate|]. constructor; [now repeat split | exact K].
Qed.

Lemma live_const o0 : o0 <> OutOfFuel -> live (fun st => (o0, st)).
Proof. intros H st o st' K E. injection E as <- <-. now split. Qed.

Lemma live_returning m : live m -> live (returning exn m).
Proof.
  intros Hm st o st' K E. unfold returning in E.
  destruct (m st) as [o1 st1] eqn:E1.
  destruct (Hm _ _ _ K E1) as (L1 & K1).
  destruct o1; injection E as <- <-; now split.
Qed.

Lemma live_scoped m : live m -> live (scoped exn m).
Proof.
  intros Hm st o st' K E. unfold scoped in E.
  destruct (m st) as [o1 st1] eqn:E1.
  destruct (Hm _ _ _ K E1) as (L1 & K1).
  injection E as <- <-. split; [exact L1 | exact K].
Qed.

Lemma live_try m h f : live m -> live h -> live f -> live (try_action exn w m h f).
Proof.
  intros Hm Hh Hf st o st' K E. unfold try_action in E.
  destruct (m st) as [o1 st1] eqn:E1.
  destruct (Hm _ _ _ K E1) as (L1 & K1).
  destruct o1; try (injection E as <- <-; now split).
  - now apply (Hf _ _ _ K1 E).
  - revert E. apply live_decide; [|exact K1].
    intros d. destruct (Nat.eqb d 0).
    + apply live_seq; [exact Hf | now apply live_const].
    + now apply live_seq.
Qed.

Lemma lookup_known g : forall l body,
  Forall (fun d => mem (fst d) N = true /\
                   forallb (covered N D) (snd d) = true /\
                   bdepth N D (snd d) <= D) l ->
  lookup g l = Some body ->
  mem g N = true /\ forallb (covered N D) body = true /\ bdepth N D body <= D.
Proof.
  induction l as [|[n b] l IH]; simpl; intros body Hl E; [discriminate|].
  inversion Hl as [|? ? Hd Hl']; subst. simpl in Hd.
  destruct (String.eqb n g) eqn:Q; [|now apply IH].
  apply String.eqb_eq in Q. subst n. now injection E as <-.
Qed.

Lemma live_apply block e fuel :
  (forall b, forallb (covered N D) b = true -> bdepth N D b <= fuel -> live (block b)) ->
  local_depth N D (callee_of e) <= fuel ->
  live (apply exn w block e).
Proof.
  intros Hb Hf st o st' K E. unfold apply in E.
  destruct e; try (now apply (live_operation _ _ _ _ K E)).
  destruct e; try (now apply (live_operation _ _ _ _ K E)).
  destruct (lookup id (defs exn st)) as [body|] eqn:L;
    [|now apply (live_operation _ _ _ _ K E)].
  destruct (lookup_known _ _ _ K L) as (Hn & Hc & Hd).
  simpl in Hf. rewrite Hn in Hf.
  refine (live_returning _ (Hb body Hc _) _ _ _ K E). lia.
Qed.

Lemma list_max_In {A} (f : A -> nat) l a : In a l -> f a <= list_max (map f l).
Proof.
  intros H. assert (F : Forall (fun k => k <= list_max (map f l)) (map f l)).
  { now apply list_max_le. }
  rewrite Forall_forall in F. apply F. now apply in_map.
Qed.

Lemma depth_children e c : In c (children e) -> S (depth N D c) <= depth N D e.
Proof.
  destruct e; simpl; intros H;
    repeat match goal with
           | H : _ \/ _ |- _ => destruct H as [H | H]
           | H : False |- _ => destruct H
           | H : _ = c |- _ => subst c
           end; try lia.
  - (* Call *)
    apply in_app_or in H as [H | H].
    + pose proof (list_max_In (depth N D) _ _ H). lia.
    + apply in_map_iff in H as ([k v] & <- & H).
      pose proof (list_max_In (fun kv : string * expr => let (_, v) := kv in depth N D v)
                              _ _ H) as L. simpl in L |- *. lia.
  - (* Slice *)
    destruct lower, upper; simpl in H; intuition (subst; lia).
  - pose proof (list_max_In (depth N D) _ _ H). lia.
  - pose proof (list_max_In (depth N D) _ _ H). lia.
  - (* Dict *)
    apply in_flat_map in H as ([k v] & H & Hc).
    pose proof (list_max_In (fun kv : expr * expr =>
                               let (k, v) := kv in Nat.max (depth N D k) (depth N D v))
                            _ _ H) as L.
    simpl in L, Hc. destruct Hc as [<- | [<- | []]]; lia.
  - (* ListComp *)
    apply in_app_or in H as [H | [<- | []]]; [|lia].
    pose proof (list_max_In (depth N D) _ _ H). lia.
  - pose proof (list_max_In (depth N D) _ _ H). lia.
Qed.

Lemma children_fuel e fuel :
  depth N D e <= S fuel -> Forall (fun c => depth N D c <= fuel) (children e).
Proof.
  intros H. apply Forall_forall. intros c Hc.
  pose proof (depth_children e c Hc). lia.
Qed.

Lemma depths_fuel l fuel :
  depths N D l <= fuel -> Forall (fun c => depth N D c <= fuel) l.
Proof.
  intros H. apply Forall_forall. intros c Hc.
  pose proof (list_max_In (depth N D) l c Hc). unfold depths in H. lia.
Qed.

Lemma bdepth_fuel b fuel :
  bdepth N D b <= fuel -> Forall (fun s => sdepth N D s <= fuel) b.
Proof.
  intros H. apply Forall_forall. intros s Hs.
  pose proof (list_max_In (sdepth N D) b s Hs). unfold bdepth in H. lia.
Qed.

(** The bodies nested in a covered statement are covered. *)
Lemma covered_bodies s :
  covered N D s = true ->
  covered1 N D s = true /\
  match s with
  | FunctionDef _ _ b | ClassDef _ _ b | For _ _ b | While _ b | With _ _ b =>
      forallb (covered N D) b = true
  | If _ b o => forallb (covered N D) b = true /\ forallb (covered N D) o = true
  | Try b _ h f =>
      forallb (covered N D) b = true /\ forallb (covered N D) h = true /\
      forallb (covered N D) f = true
  | _ => True
  end.
Proof.
  unfold covered.
  destruct s; simpl substmts; cbn [forallb];
    rewrite ?forallb_app, ?forallb_flat_map, ?andb_true_iff; tauto.
Qed.

Lemma init_body_covered b :
  forallb (covered N D) b = true ->
  forallb (covered N D) (init_body b) = true /\ bdepth N D (init_body b) <= D.
Proof.
  induction b as [|s b IH]; simpl; [intros _; split; [reflexivity | unfold bdepth; simpl; lia]|].
  rewrite andb_true_iff. intros [Hs Hb].
  destruct s; auto.
  destruct (string_dec name "__init__") as [->|Ne].
  - destruct (covered_bodies _ Hs) as [H1 H2]. simpl in H1.
    apply andb_true_iff in H1 as [_ H1]. apply Nat.leb_le in H1. now split.
  - assert (E : init_body (FunctionDef name params body :: b) = init_body b).
    { simpl. repeat (destruct name as [|[[] [] [] [] [] [] [] []] name]; try reflexivity).
      now contradict Ne. }
    simpl in E. rewrite E. auto.
Qed.

Lemma sdepth_own s : S (depths N D (own_exprs s)) <= sdepth N D s.
Proof. destruct s; cbn [sdepth]; lia. Qed.

(** Takes apart an action built from the combinators of the model. *)
Ltac live_parts :=
  repeat match goal with
         | |- live (ret _) => apply live_ret
         | |- live (operation _ _ _) => apply live_operation
         | |- live (if operates _ then _ else _) => apply live_operates
         | |- live (if Nat.eqb ?d 0 then _ else _) => destruct (Nat.eqb d 0)
         | |- live (seq _ _ _) => apply live_seq
         | |- live (decide _ _ _) => apply live_decide; intro
         | |- live (repeat_action _ _ _) => apply live_repeat
         | |- live (fun st => (Returned, st)) => apply live_const; discriminate
         | |- live (fun st => (Raised _, st)) => apply live_const; discriminate
         end.

Lemma live_both fuel :
  (forall e, depth N D e <= fuel -> live (eval exn w fuel e)) /\
  (forall s, covered N D s = true -> sdepth N D s <= fuel -> live (exec exn w fuel s)).
Proof.
  induction fuel as [|fuel [IHe IHs]].
  - split; [intros e H; destruct e | intros s _ H; destruct s]; simpl in H; lia.
  - assert (EL : forall l, Forall (fun c => depth N D c <= fuel) l ->
                           live (seq_list exn (eval exn w fuel) l)).
    { intros l. now apply live_seq_list. }
    assert (BL : forall b, forallb (covered N D) b = true -> bdepth N D b <= fuel ->
                           live (seq_list exn (exec exn w fuel) b)).
    { intros b Hc Hd.
      apply (live_seq_list _ (fun s => covered N D s = true /\ sdepth N D s <= fuel)).
      - intros s [H1 H2]. now apply IHs.
      - apply Forall_forall. intros s Hs. split.
        + rewrite forallb_forall in Hc. now apply Hc.
        + pose proof (bdepth_fuel b fuel Hd) as F. rewrite Forall_forall in F. now apply F. }
    split.
    + intros e He. pose proof (children_fuel e fuel He) as Hc.
      assert (Hin : forall c, In c (children e) -> live (eval exn w fuel c)).
      { intros c I. apply IHe. rewrite Forall_forall in Hc. now apply Hc. }
      destruct e; cbn [eval]; live_parts;
        try (apply EL; exact Hc);
        try (apply Hin; simpl; rewrite ?in_app_iff; simpl; tauto).
      * apply (live_apply _ _ fuel); [exact BL|]. simpl in He |- *. lia.
      * apply (live_seq_list _ (fun i => In i ifs)).
        -- intros i I. apply live_seq; [|apply live_operation].
           apply Hin. simpl. rewrite in_app_iff. tauto.
        -- now apply Forall_forall.
    + intros s Hs Hd. destruct (covered_bodies s Hs) as [C1 Cb].
      assert (Ho : Forall (fun c => depth N D c <= fuel) (own_exprs s)).
      { apply depths_fuel. pose proof (sdepth_own s). lia. }
      assert (Hin : forall c, In c (own_exprs s) -> live (eval exn w fuel c)).
      { intros c I. apply IHe. rewrite Forall_forall in Ho. now apply Ho. }
      destruct s; cbn [exec]; live_parts;
        try (apply EL; exact Ho);
        try (apply Hin; simpl; tauto);
        try (apply BL; [tauto | simpl in Hd; unfold bdepth; lia]).
      * simpl in C1. apply andb_true_iff in C1 as [Cn Cd]. apply Nat.leb_le in Cd.
        now apply live_define.
      * apply live_scoped, BL; [exact Cb | simpl in Hd; unfold bdepth; lia].
      * destruct (init_body_covered body Cb) as [I1 I2]. now apply live_define.
      * destruct Cb as (Cb & Ch & Cf).
        apply live_try.
        -- apply BL; [exact Cb | simpl in Hd; unfold bdepth; lia].
        -- apply live_seq; [apply EL; exact Ho|].
           apply BL; [exact Ch | simpl in Hd; unfold bdepth; lia].
        -- apply BL; [exact Cf | simpl in Hd; unfold bdepth; lia].
Qed.

Lemma live_cell fuel c :
  forallb (covered N D) (cell_body c) = true -> bdepth N D (cell_body c) <= fuel ->
  live (run_cell exn w fuel c).
Proof.
  intros Hc Hd.
  assert (B : live (exec_block exn w fuel (cell_body c))).
  { apply (live_seq_list _ (fun s => covered N D s = true /\ sdepth N D s <= fuel)).
    - intros s [H1 H2]. now apply live_both.
    - apply Forall_forall. intros s Hs. split.
      + rewrite forallb_forall in Hc. now apply Hc.
      + pose proof (bdepth_fuel _ fuel Hd) as F. rewrite Forall_forall in F. now apply F. }
  destruct c as [|[m|] cs b]; simpl in *.
  - apply live_ret.
  - destruct (String.eqb m "%%time"); [now apply live_timed | apply live_operation].
  - exact B.
Qed.

Lemma bdepth_cell (cs : list cell) c :
  In c cs -> bdepth N D (cell_body c) <= bdepth N D (flat_map cell_body cs).
Proof.
  intros I. unfold bdepth. apply list_max_le, Forall_forall. intros k Hk.
  apply in_map_iff in Hk as (s & <- & Hs).
  apply list_max_In, in_flat_map. now exists c.
Qed.

(** With fuel for its depth, a run of covered code ends normally or with an
    exception. *)
Lemma enough_fuel fuel (nb : notebook) (d : files) :
  forallb (covered N D) (code nb) = true -> bdepth N D (code nb) <= fuel ->
  fst (execute exn w fuel nb d) <> OutOfFuel.
Proof.
  unfold code. intros Hc Hd.
  assert (L : live (seq_list exn (run_cell exn w fuel) (cells nb))).
  { apply (live_seq_list _ (fun c => In c (cells nb))); [|now apply Forall_forall].
    intros c I. apply live_cell.
    - rewrite forallb_flat_map, forallb_forall in Hc. now apply Hc.
    - pose proof (bdepth_cell (cells nb) c I). lia. }
  unfold execute.
  destruct (seq_list exn (run_cell exn w fuel) (cells nb) (initial exn d)) as [o st] eqn:E.
  assert (K0 : known (initial exn d)) by constructor.
  exact (proj1 (L _ _ _ K0 E)).
Qed.

End FuelFacts.

(* ---------------------------------------------------------------------- *)
(** ** Code that does not write leaves the files as they were *)

Lemma subexprs_self e : In e (subexprs e).
Proof. destruct e; simpl; now left. Qed.

Lemma subexprs_children e c : In c (children e) -> incl (subexprs c) (subexprs e).
Proof.
  intros H x Hx.
  destruct e; simpl in H |- *; right;
    repeat match goal with
           | H : _ \/ _ |- _ => destruct H as [H | H]
           | H : False |- _ => destruct H
           | H : _ = c |- _ => subst c
           end;
    try assumption;
    try (repeat (apply in_or_app; first [now left | right]); assumption).
  - (* Call *)
    apply in_or_app. right. apply in_app_or in H as [H | H]; apply in_or_app.
    + left. apply in_flat_map. now exists c.
    + right. apply in_map_iff in H as ([k v] & <- & H).
      apply in_flat_map. now exists (k, v).
  - (* Slice *)
    destruct lower, upper; simpl in H;
      repeat match goal with
             | H : _ \/ _ |- _ => destruct H as [H | H]
             | H : False |- _ => destruct H
             | H : _ = c |- _ => subst c
             end; apply in_or_app; auto.
  - apply in_flat_map. now exists c.
  - apply in_flat_map. now exists c.
  - (* Dict *)
    apply in_flat_map in H as ([k v] & H & Hc).
    apply in_flat_map. exists (k, v). split; [assumption|].
    simpl in Hc. destruct Hc as [<- | [<- | []]]; apply in_or_app; auto.
  - (* ListComp *)
    apply in_app_or in H as [H | [<- | []]].
    + do 3 (apply in_or_app; right). apply in_flat_map. now exists c.
    + apply in_or_app. now left.
  - apply in_flat_map. now exists c.
Qed.

Lemma no_writes_children e c : no_writes e = true -> In c (children e) -> no_writes c = true.
Proof.
  unfold no_writes. intros H Hc.
  apply forallb_forall. intros x Hx. rewrite forallb_forall in H. apply H.
  now apply (subexprs_children e c Hc).
Qed.

(** The operation that ends the evaluation of [e] is not a writer. *)
Lemma no_writes_self e :
  no_writes e = true -> writes_files (callee_name (callee_of e)) = false.
Proof.
  unfold no_writes. intros H. rewrite forallb_forall in H.
  apply negb_true_iff, H, subexprs_self.
Qed.

(** What holds of every statement nested in [s] holds of [s] and of the
    statements of its bodies. *)
Lemma substmts_bodies (p : stmt -> bool) s :
  forallb p (substmts s) = true ->
  p s = true /\
  match s with
  | FunctionDef _ _ b | ClassDef _ _ b | For _ _ b | While _ b | With _ _ b =>
      forallb (fun s' => forallb p (substmts s')) b = true
  | If _ b o =>
      forallb (fun s' => forallb p (substmts s')) b = true /\
      forallb (fun s' => forallb p (substmts s')) o = true
  | Try b _ h f =>
      forallb (fun s' => forallb p (substmts s')) b = true /\
      forallb (fun s' => forallb p (substmts s')) h = true /\
      forallb (fun s' => forallb p (substmts s')) f = true
  | _ => True
  end.
Proof.
  destruct s; simpl substmts; cbn [forallb];
    rewrite ?forallb_app, ?forallb_flat_map, ?andb_true_iff; tauto.
Qed.

Section FrameFacts.

Variable exn : Type.
Variable w : world exn.
Hypothesis frame : writers_only exn w.

Local Abbreviation action := (action exn).
Local Abbreviation state := (state exn).
Local Abbreviation reading_defs := (reading_defs exn).
Local Abbreviation frozen := (frozen exn).

Lemma frozen_ret : frozen (ret exn).
Proof. intros st o st' R E. injection E as <- <-. now split. Qed.

Lemma frozen_const o0 : frozen (fun st => (o0, st)).
Proof. intros st o st' R E. injection E as <- <-. now split. Qed.

Lemma frozen_seq m1 m2 : frozen m1 -> frozen m2 -> frozen (seq exn m1 m2).
Proof.
  intros H1 H2 st o st' R E. unfold seq in E.
  destruct (m1 st) as [o1 st1] eqn:E1.
  destruct (H1 _ _ _ R E1) as (D1 & R1).
  destruct o1; try (injection E as <- <-; now split).
  destruct (H2 _ _ _ R1 E) as (D2 & R2). split; [congruence | assumption].
Qed.

Lemma frozen_seq_list {A} (f : A -> action) (P : A -> Prop) :
  (forall a, P a -> frozen (f a)) -> forall l, Forall P l -> frozen (seq_list exn f l).
Proof.
  intros Hf. induction l as [|a l IH]; intros Hl; simpl.
  - apply frozen_ret.
  - inversion Hl; subst. apply frozen_seq; auto.
Qed.

Lemma frozen_repeat m : frozen m -> forall n, frozen (repeat_action exn n m).
Proof. intros Hm. induction n; simpl; [apply frozen_ret | now apply frozen_seq]. Qed.

Lemma frozen_operation c :
  writes_files (callee_name (callee_of c)) = false -> frozen (operation exn w c).
Proof.
  intros Hc st o st' R E. unfold operation in E. injection E as <- <-.
  split; [|exact R]. simpl. now apply frame.
Qed.

Lemma frozen_operates e :
  no_writes e = true -> frozen (if operates e then operation exn w e else ret exn).
Proof.
  intros H. destruct (operates e); [|apply frozen_ret].
  now apply frozen_operation, no_writes_self.
Qed.

Lemma frozen_timed m : frozen m -> frozen (timed exn m).
Proof.
  intros Hm st o st' R E. unfold timed in E.
  destruct (m st) as [o1 st1] eqn:E1.
  destruct (Hm _ _ _ R E1) as (D1 & R1).
  destruct o1; injection E as <- <-; now split.
Qed.

Lemma frozen_decide k : (forall d, frozen (k d)) -> frozen (decide exn w k).
Proof.
  intros Hk st o st' R E. unfold decide in E.
  exact (Hk _ (decided exn st) _ _ R E).
Qed.

Lemma frozen_define n b : forallb reads_only b = true -> frozen (define exn n b).
Proof.
  intros Hb st o st' R E. unfold define in E. injection E as <- <-.
  split; [reflexivity|]. now constructor.
Qed.

Lemma frozen_returning m : frozen m -> frozen (returning exn m).
Proof.
  intros Hm st o st' R E. unfold returning in E.
  destruct (m st) as [o1 st1] eqn:E1.
  destruct (Hm _ _ _ R E1) as (D1 & R1).
  destruct o1; injection E as <- <-; now split.
Qed.

Lemma frozen_scoped m : frozen m -> frozen (scoped exn m).
Proof.
  intros Hm st o st' R E. unfold scoped in E.
  destruct (m st) as [o1 st1] eqn:E1.
  destruct (Hm _ _ _ R E1) as (D1 & R1).
  injection E as <- <-. split; [exact D1 | exact R].
Qed.

Lemma frozen_try m h f : frozen m -> frozen h -> frozen f -> frozen (try_action exn w m h f).
Proof.
  intros Hm Hh Hf st o st' R E. unfold try_action in E.
  destruct (m st) as [o1 st1] eqn:E1.
  destruct (Hm _ _ _ R E1) as (D1 & R1).
  destruct o1; try (injection E as <- <-; now split).
  - destruct (Hf _ _ _ R1 E) as (D2 & R2). split; [congruence | assumption].
  - assert (F : frozen (decide exn w (fun d => if Nat.eqb d 0
                                                then seq exn f (fun s => (Raised x, s))
                                                else seq exn h f))).
    { apply frozen_decide. intros d. destruct (Nat.eqb d 0).
      - apply frozen_seq; [exact Hf | apply frozen_const].
      - now apply frozen_seq. }
    destruct (F _ _ _ R1 E) as (D2 & R2). split; [congruence | assumption].
Qed.

Lemma lookup_reading g : forall l body,
  Forall (fun d => forallb reads_only (snd d) = true) l ->
  lookup g l = Some body -> forallb reads_only body = true.
Proof.
  induction l as [|[n b] l IH]; simpl; intros body Hl E; [discriminate|].
  inversion Hl; subst.
  destruct (String.eqb n g); [injection E as <-; assumption | now apply IH].
Qed.

Lemma frozen_apply block e :
  (forall b, forallb reads_only b = true -> frozen (block b)) ->
  writes_files (callee_name (callee_of e)) = false ->
  frozen (apply exn w block e).
Proof.
  intros Hb Hc st o st' R E. unfold apply in E.
  destruct e; try (now apply (frozen_operation _ Hc _ _ _ R E)).
  destruct e; try (now apply (frozen_operation _ Hc _ _ _ R E)).
  destruct (lookup id (defs exn st)) as [body|] eqn:L.
  - apply (frozen_returning _ (Hb body (lookup_reading _ _ _ R L)) _ _ _ R E).
  - now apply (frozen_operation _ Hc _ _ _ R E).
Qed.

Lemma init_body_reading b :
  forallb reads_only b = true -> forallb reads_only (init_body b) = true.
Proof.
  induction b as [|s b IH]; simpl; [reflexivity|].
  rewrite andb_true_iff. intros [Hs Hb].
  destruct s; auto.
  destruct (string_dec name "__init__") as [->|Ne].
  - apply (substmts_bodies _ _ Hs).
  - assert (E : init_body (FunctionDef name params body :: b) = init_body b).
    { simpl. repeat (destruct name as [|[[] [] [] [] [] [] [] []] name]; try reflexivity).
      now contradict Ne. }
    simpl in E. rewrite E. auto.
Qed.

(** Takes apart an action built from the combinators of the model. *)
Ltac frozen_parts :=
  repeat match goal with
         | |- frozen (ret _) => apply frozen_ret
         | |- frozen (if Nat.eqb ?d 0 then _ else _) => destruct (Nat.eqb d 0)
         | |- frozen (seq _ _ _) => apply frozen_seq
         | |- frozen (decide _ _ _) => apply frozen_decide; intro
         | |- frozen (repeat_action _ _ _) => apply frozen_repeat
         | |- frozen (fun st => (_, st)) => apply frozen_const
         end.

Lemma frozen_both fuel :
  (forall e, no_writes e = true -> frozen (eval exn w fuel e)) /\
  (forall s, reads_only s = true -> frozen (exec exn w fuel s)).
Proof.
  induction fuel as [|fuel [IHe IHs]].
  - split; intros; apply frozen_const.
  - assert (EL : forall l, forallb no_writes l = true ->
                           frozen (seq_list exn (eval exn w fuel) l)).
    { intros l Hl. apply (frozen_seq_list _ (fun e => no_writes e = true)); [auto|].
      now apply Forall_forall, forallb_forall. }
    assert (BL : forall b, forallb reads_only b = true ->
                           frozen (seq_list exn (exec exn w fuel) b)).
    { intros b Hb. apply (frozen_seq_list _ (fun s => reads_only s = true)); [auto|].
      now apply Forall_forall, forallb_forall. }
    split.
    + intros e He.
      assert (Hin : forall c, In c (children e) -> no_writes c = true).
      { intros c. now apply no_writes_children. }
      assert (Hc : forallb no_writes (children e) = true).
      { now apply forallb_forall. }
      assert (Hev : forall c, In c (children e) -> frozen (eval exn w fuel c)).
      { intros c I. apply IHe. now apply Hin. }
      assert (Hop : forall c, In c (children e) -> frozen (operation exn w c)).
      { intros c I. apply frozen_operation, no_writes_self. now apply Hin. }
      destruct e; cbn [eval]; frozen_parts;
        try (apply EL; exact Hc);
        try (now apply frozen_operates);
        try (apply Hev; simpl; rewrite ?in_app_iff; simpl; tauto);
        try (apply Hop; simpl; rewrite ?in_app_iff; simpl; tauto).
      * apply frozen_apply; [exact BL|]. exact (no_writes_self _ He).
      * apply (frozen_seq_list _ (fun i => In i ifs)); [|now apply Forall_forall].
        intros i I. apply frozen_seq; [apply Hev | apply Hop];
          simpl; rewrite in_app_iff; tauto.
    + intros s Hs. destruct (substmts_bodies _ s Hs) as [S1 Sb].
      unfold reads_only1 in S1. apply andb_true_iff in S1 as [Ho Hi].
      fold reads_only in Sb.
      assert (Hin : forall c, In c (own_exprs s) -> no_writes c = true).
      { now apply forallb_forall. }
      assert (Hev : forall c, In c (own_exprs s) -> frozen (eval exn w fuel c)).
      { intros c I. apply IHe. now apply Hin. }
      assert (Hop : forall c, In c (own_exprs s) -> frozen (operation exn w c)).
      { intros c I. apply frozen_operation, no_writes_self. now apply Hin. }
      destruct s; cbn [exec]; frozen_parts;
        try (apply EL; exact Ho);
        try (apply Hev; simpl; tauto);
        try (apply Hop; simpl; tauto);
        try (apply BL; tauto).
      * apply frozen_operation. reflexivity.
      * apply frozen_operation. simpl. now apply negb_true_iff.
      * apply frozen_operation. simpl. now apply negb_true_iff.
      * now apply frozen_define.
      * now apply frozen_scoped, BL.
      * now apply frozen_define, init_body_reading.
      * destruct Sb as (Sb & Sh & Sf).
        apply frozen_try; [now apply BL | | now apply BL].
        apply frozen_seq; [apply EL; exact Ho | now apply BL].
Qed.

(** A cell that does not write, under a magic that does not write. *)
Lemma frozen_cell fuel c :
  forallb reads_only (cell_body c) = true ->
  forallb (fun m => negb (writes_files m)) (cell_magic c) = true ->
  frozen (run_cell exn w fuel c).
Proof.
  intros Hb Hm.
  assert (B : frozen (exec_block exn w fuel (cell_body c))).
  { apply (frozen_seq_list _ (fun s => reads_only s = true)).
    - apply frozen_both.
    - now apply Forall_forall, forallb_forall. }
  destruct c as [|[m|] cs b]; simpl in *.
  - apply frozen_ret.
  - destruct (String.eqb m "%%time"); [now apply frozen_timed|].
    apply frozen_operation. simpl. apply negb_true_iff.
    now apply andb_true_iff in Hm as [Hm _].
  - exact B.
Qed.

(** A run of code that does not write ends on the files it started on. *)
Lemma files_kept fuel (nb : notebook) (d : files) :
  forallb reads_only (code nb) = true ->
  forallb (fun m => negb (writes_files m)) (flat_map cell_magic (cells nb)) = true ->
  disk exn (snd (execute exn w fuel nb d)) = d.
Proof.
  unfold code. rewrite !forallb_flat_map. intros Hb Hm.
  assert (F : frozen (seq_list exn (run_cell exn w fuel) (cells nb))).
  { apply (frozen_seq_list _ (fun c => In c (cells nb))); [|now apply Forall_forall].
    intros c I. rewrite forallb_forall in Hb, Hm. apply frozen_cell; auto. }
  unfold execute.
  destruct (seq_list exn (run_cell exn w fuel) (cells nb) (initial exn d)) as [o st] eqn:E.
  assert (R0 : reading_defs (initial exn d)) by constructor.
  exact (proj1 (F _ _ _ R0 E)).
Qed.

End FrameFacts.

(* ---------------------------------------------------------------------- *)
(** ** Facts about the repository shared by several theorems *)

Lemma repository_clean nb : In nb repository -> clean (code nb).
Proof. intros H. each_notebook H; vm_compute; reflexivity. Qed.

Lemma repository_fuel nb :
  In nb repository ->
  forallb (covered repository_names 8) (code nb) = true /\
  bdepth repository_names 8 (code nb) <= 16.
Proof.
  intros H. each_notebook H; (split; [vm_compute; reflexivity|]);
    apply Nat.leb_le; vm_compute; reflexivity.
Qed.

Lemma repository_reads_only nb :
  In nb repository -> forallb reads_only (code nb) = true.
Proof. intros H. each_notebook H; vm_compute; reflexivity. Qed.

Lemma repository_magics nb :
  In nb repository ->
  forallb (fun m => negb (writes_files m)) (flat_map cell_magic (cells nb)) = true.
Proof. intros H. each_notebook H; vm_compute; reflexivity. Qed.

(* ====================================================================== *)
(** * Part IV: the claims *)
(* ====================================================================== *)

(* ---------------------------------------------------------------------- *)
(** ** C1: who computes *)

(** C1, as stated, fails.  The repository does define a class with a
    sampling computation of its own and a function with a parsing
    computation of its own: of its four definitions, [shorten_param] takes
    its parameter apart with [rsplit], and [reciprocal_int] is a class with
    an [rvs] method, which is handed to the randomized search as the
    distribution of three hyper-parameters. *)
Lemma own_computation_defined :
  map def_name (all_definitions repository) =
    ["shorten_param"; "reciprocal_int"; "plot_decision_function"; "plot_regression_model"] /\
  map def_name (filter own_computation (all_definitions repository)) =
    ["shorten_param"; "reciprocal_int"] /\
  map (fun c => (def_name c, methods c, draws_samples c))
      (flat_map classes repository) = [("reciprocal_int", ["__init__"; "rvs"], true)] /\
  calls_of "reciprocal_int" nb_04_parameter_tuning_search =
    [[Int 2; Int 256]; [Int 1; Int 100]; [Int 2; Int 255]].
Proof. vm_compute. repeat split. Qed.

(** C1, amended.  Every notebook imports libraries only, and every call
    of an algorithmic entry point (fit, predict, score, cross-validation,
    search, tree, encoder and the other estimators) goes to the library:
    the entry point is imported from scikit-learn or is a method of an
    object, and no definition or method of the repository carries such a
    name.  The repository's own
    definitions are free of loops and comprehensions and call no other
    definition of the repository; two of them compute something of their
    own: the class [reciprocal_int], whose [rvs] returns the library's
    draw converted with [astype(int)], and the function [shorten_param],
    which splits a parameter name at its last ["__"]. *)
Theorem algorithms_delegated (nb : notebook) :
  In nb repository ->
  imports_libraries_only nb = true /\
  forallb (delegated nb) (calls nb) = true /\
  (forall d, In d (definitions nb) ->
     mem (def_name d) algorithmic_entry_points = false /\
     existsb (fun m => mem m algorithmic_entry_points) (methods d) = false /\
     loop_free d = true /\
     internal_calls (flat_map defined_names repository) d = [] /\
     (own_computation d = true ->
        d = FunctionDef "shorten_param" [Param "param_name" None]
              [If (Compare CmpIn (Str "__") (Name "param_name"))
                 [Return
                    (Some
                       (Subscript
                          (Call (Attribute (Name "param_name") "rsplit") [Str "__"; Int 1] [])
                          (Int 1)))]
                 [];
               Return (Some (Name "param_name"))] \/
        def_name d = "reciprocal_int" /\
        In (FunctionDef "rvs" [Param "self" None; VarArgs "args"; VarKw "kwargs"]
              [Expr (Str "Random variable sample");
               Return
                 (Some
                    (Call
                       (Attribute
                          (Call (Attribute (Attribute (Name "self") "_distribution") "rvs")
                             [Starred (Name "args"); DoubleStarred (Name "kwargs")]
                             [])
                          "astype")
                       [Name "int"]
                       []))])
           (substmts d))).
Proof.
  intros H. each_notebook H; (split; [vm_compute; reflexivity|]);
    (split; [vm_compute; reflexivity|]); intros d Hd;
    vm_compute in Hd; repeat (destruct Hd as [<- | Hd]); try destruct Hd;
    (repeat split; try (vm_compute; reflexivity)); intros Ho;
    try (vm_compute in Ho; discriminate).
  - now left.
  - right. split; [reflexivity|]. simpl. right. right. right. right. now left.
Qed.

Lemma algorithms_delegated_witness :
  forallb (delegated nb_trees) (calls nb_trees) = true.
Proof.
  exact (proj1 (proj2 (algorithms_delegated nb_trees
                  (or_intror (or_intror (or_intror (or_intror (or_intror (or_intror
                     (or_intror (or_introl eq_refl))))))))))).
Defined.

(* ---------------------------------------------------------------------- *)
(** ** C2: where the data comes from *)

(** C2, as stated, fails: feature_selection.ipynb reads no CSV file; its
    data is made in memory by [make_classification] and by the draws of a
    NumPy random state. *)
Lemma feature_selection_generates_its_data :
  In nb_feature_selection repository /\
  loads_csv nb_feature_selection = false /\
  csv_sources nb_feature_selection = [] /\
  generates_data nb_feature_selection = true.
Proof. vm_compute. repeat split. do 6 right. now left. Qed.

(** C2, amended.  Every notebook other than feature_selection.ipynb
    obtains its data with [pd.read_csv], from a relative path given as a
    string literal, and generates none; feature_selection.ipynb reads no
    CSV file and generates its data in memory. *)
Theorem data_sources (nb : notebook) :
  In nb repository ->
  if String.eqb (path nb) "src/notebooks/feature_selection.ipynb"
  then loads_csv nb = false /\ generates_data nb = true
  else loads_csv nb = true /\ generates_data nb = false /\
       forallb relative_csv_literal (csv_sources nb) = true.
Proof. intros H. each_notebook H; vm_compute; repeat split. Qed.

Lemma data_sources_witness :
  loads_csv nb_trees = true /\ generates_data nb_trees = false /\
  forallb relative_csv_literal (csv_sources nb_trees) = true.
Proof.
  exact (data_sources nb_trees
           (or_intror (or_intror (or_intror (or_intror (or_intror (or_intror
              (or_intror (or_introl eq_refl))))))))).
Defined.

(* ---------------------------------------------------------------------- *)
(** ** C3: exceptions *)




(* ---------------------------------------------------------------------- *)
(** ** C4: the file system *)

(** C4.  No notebook calls an entry point that writes, saves or dumps to
    a file; every call that touches the file system is [pd.read_csv] of a
    relative path to a CSV file, given as a string literal. *)
Theorem files_are_only_read (nb : notebook) :
  In nb repository ->
  write_calls nb = [] /\
  files_written nb = [] /\
  forall c, In c (file_calls nb) ->
    is_read_csv c = true /\
    exists p rest,
      arguments c = Str p :: rest /\
      PyStr.startswith "../" p = true /\ endswith ".csv" p = true.
Proof.
  intros H. each_notebook H; (split; [reflexivity|]); (split; [reflexivity|]);
    intros c Hc; vm_compute in Hc;
    repeat (destruct Hc as [<- | Hc]); try destruct Hc;
    (split; [reflexivity|]); eexists; eexists; (split; [reflexivity|]); split; reflexivity.
Qed.

Lemma files_are_only_read_witness :
  write_calls nb_04_parameter_tuning_search = [] /\
  files_written nb_04_parameter_tuning_search = [] /\
  files_read nb_04_parameter_tuning_search =
    ["../datasets/adult-census.csv"; "../figures/randomized_search_results.csv"].
Proof.
  pose proof (files_are_only_read nb_04_parameter_tuning_search
                (or_intror (or_intror (or_intror (or_intror (or_intror
                   (or_introl eq_refl))))))) as (H1 & H2 & _).
  split; [exact H1|]. split; [exact H2 | reflexivity].
Defined.

(* ---------------------------------------------------------------------- *)
(** ** C5: the steps of a notebook *)

(** C5, as stated, fails.  The exercise notebook loads the data and
    imports the estimators, and stops there: its last cell holds the
    imports and the comment [# TODO: write me!]; it constructs no
    estimator, calls no entry point and prints or plots nothing.  And two
    of the notebooks that do model build no pipeline: part_001 fits a bare
    [LogisticRegression], trees.ipynb bare estimators and grid searches. *)
Lemma exercise_stops_short :
  In nb_part_000_exercise_01 repository /\
  last (cells nb_part_000_exercise_01) Markdown =
    Code None [["# TODO: write me!"]]
      [ImportFrom "sklearn.model_selection" [("cross_val_score", None)];
       ImportFrom "sklearn.pipeline" [("make_pipeline", None)];
       ImportFrom "sklearn.preprocessing" [("OrdinalEncoder", None)];
       ImportFrom "sklearn.linear_model" [("LogisticRegression", None)]] /\
  constructs_estimator nb_part_000_exercise_01 = false /\
  calls_entry_points nb_part_000_exercise_01 = false /\
  prints_or_plots nb_part_000_exercise_01 = false /\
  builds_pipeline nb_part_001 = false /\
  builds_pipeline nb_trees = false.
Proof. vm_compute. repeat split. now left. Qed.

(** C5, amended.  Every notebook that is not left unfinished (that carries
    no TODO comment) constructs scikit-learn estimators, calls the fit,
    predict, score or cross-validation entry points, and prints or plots;
    it composes its estimators into a pipeline, except for part_001 and
    trees.ipynb.  The unfinished notebook is the exercise. *)
Theorem modelling_steps (nb : notebook) :
  In nb repository ->
  if unfinished nb
  then nb = nb_part_000_exercise_01
  else constructs_estimator nb = true /\
       calls_entry_points nb = true /\
       prints_or_plots nb = true /\
       (builds_pipeline nb = false ->
        path nb = "src/unnamed/part_001" \/ path nb = "src/notebooks/trees.ipynb").
Proof.
  intros H. each_notebook H; vm_compute; repeat split; try discriminate; auto.
Qed.

Lemma modelling_steps_witness :
  constructs_estimator nb_feature_selection = true /\
  calls_entry_points nb_feature_selection = true /\
  prints_or_plots nb_feature_selection = true /\
  (builds_pipeline nb_feature_selection = false ->
   path nb_feature_selection = "src/unnamed/part_001" \/
   path nb_feature_selection = "src/notebooks/trees.ipynb").
Proof.
  exact (modelling_steps nb_feature_selection
           (or_intror (or_intror (or_intror (or_intror (or_intror (or_intror
              (or_introl eq_refl)))))))).
Defined.

(* ---------------------------------------------------------------------- *)
(** ** C6: parallelism *)

(** C6, as stated, fails: the repository's code does select degrees of
    parallelism, with [n_jobs=4] for both searches of
    04_parameter_tuning_search.ipynb, and its deployment workflow caps the
    threads of the numerical libraries. *)
Lemma parallelism_is_selected :
  parallelism_selections nb_04_parameter_tuning_search =
    [("GridSearchCV", Int 4); ("RandomizedSearchCV", Int 4)] /\
  thread_env deploy_gh_pages =
    [("OMP_NUM_THREADS", 1%Z); ("MKL_NUM_THREADS", 2%Z); ("OPENBLAS_NUM_THREADS", 2%Z)].
Proof. split; reflexivity. Qed.

(** C6, amended.  No notebook imports a module with which it could start
    threads, processes or tasks of its own: whatever runs in parallel runs
    inside the libraries.  The degree of that parallelism is selected by
    the repository in two notebooks, through [n_jobs]: 4 for the grid and
    randomized searches of 04_parameter_tuning_search.ipynb, -1 (all
    processors) for the random forests and one [cross_val_score] of
    feature_selection.ipynb; and the deployment workflow sets
    OMP_NUM_THREADS=1, MKL_NUM_THREADS=2 and OPENBLAS_NUM_THREADS=2. *)
Theorem parallelism_is_the_librarys (nb : notebook) :
  In nb repository ->
  concurrency_imports nb = [] /\
  parallelism_selections nb =
    (if String.eqb (path nb) "src/notebooks/04_parameter_tuning_search.ipynb"
     then [("GridSearchCV", Int 4); ("RandomizedSearchCV", Int 4)]
     else if String.eqb (path nb) "src/notebooks/feature_selection.ipynb"
     then [("RandomForestClassifier", Int (-1)); ("RandomForestClassifier", Int (-1));
           ("cross_val_score", Int (-1)); ("RandomForestClassifier", Int (-1));
           ("RandomForestClassifier", Int (-1)); ("RandomForestClassifier", Int (-1))]
     else []) /\
  thread_env deploy_gh_pages =
    [("OMP_NUM_THREADS", 1%Z); ("MKL_NUM_THREADS", 2%Z); ("OPENBLAS_NUM_THREADS", 2%Z)].
Proof. intros H. each_notebook H; vm_compute; repeat split. Qed.

Lemma parallelism_is_the_librarys_witness :
  concurrency_imports nb_feature_selection = [] /\
  List.length (parallelism_selections nb_feature_selection) = 6.
Proof.
  pose proof (parallelism_is_the_librarys nb_feature_selection
                (or_intror (or_intror (or_intror (or_intror (or_intror (or_intror
                   (or_introl eq_refl)))))))) as (H1 & H2 & _).
  split; [exact H1 | now rewrite H2].
Defined.

(* ---------------------------------------------------------------------- *)
(** ** C7: independence of the notebooks *)

(** C7.  Every notebook runs in a kernel of its own; what one run can
    leave for another is on disk.  For every pair of notebooks of the
    repository, and whatever the libraries do (as long as they write files
    only through their writing entry points): a run of the second leaves
    the files as they were, so a run of the first on the files left by the
    second is the run of the first on the files as they were.  And the
    first needs nothing else from outside: it reads no variable that it has
    not bound itself (it loads or generates its data and constructs its
    estimators itself), through no dynamic access to names or files. *)
Theorem notebooks_independent (nb1 nb2 : notebook) :
  In nb1 repository -> In nb2 repository ->
  static nb1 = true /\ free_names nb1 = [] /\ write_calls nb2 = [] /\
  forall (exn : Type) (w1 w2 : world exn) (fuel1 fuel2 : nat) (d : files),
    writers_only exn w2 ->
    disk exn (snd (execute exn w2 fuel2 nb2 d)) = d /\
    execute exn w1 fuel1 nb1 (disk exn (snd (execute exn w2 fuel2 nb2 d))) =
    execute exn w1 fuel1 nb1 d.
Proof.
  intros H1 H2.
  split; [each_notebook H1; vm_compute; reflexivity|].
  split; [each_notebook H1; vm_compute; reflexivity|].
  split; [each_notebook H2; vm_compute; reflexivity|].
  intros exn w1 w2 fuel1 fuel2 d Hw.
  assert (K : disk exn (snd (execute exn w2 fuel2 nb2 d)) = d).
  { apply files_kept;
      [exact Hw | now apply repository_reads_only | now apply repository_magics]. }
  split; [exact K | now rewrite K].
Qed.

Lemma notebooks_independent_witness :
  execute string malformed_csv 16 nb_part_002
    (disk string (snd (execute string unknown_category 16 nb_trees no_files))) =
  execute string malformed_csv 16 nb_part_002 no_files.
Proof.
  refine (proj2 (proj2 (proj2 (proj2 (notebooks_independent nb_part_002 nb_trees _ _)))
                   string malformed_csv unknown_category 16 16 no_files _)).
  - do 3 right. now left.
  - do 7 right. now left.
  - intros k c d _. reflexivity.
Defined.

(* ---------------------------------------------------------------------- *)
(** ** C8: [shorten_param] *)

(** C8.  For every string [s]: when [s] contains ["__"], [shorten_param s]
    returns the part of [s] after the last occurrence of ["__"], that is,
    the [post] of any decomposition [s = pre ++ "__" ++ post] in which no
    occurrence of ["__"] starts after [pre], and such a decomposition
    exists; when [s] does not contain ["__"], [shorten_param s] returns
    [s] unchanged. *)
Theorem shorten_param_spec (s : string) :
  (forall pre post,
     s = (pre ++ dunder ++ post)%string ->
     (forall j, PyStr.occurs_at dunder s j -> j <= String.length pre) ->
     shorten_param s = Some post) /\
  ((exists i, PyStr.occurs_at dunder s i) ->
   exists pre post,
     s = (pre ++ dunder ++ post)%string /\
     (forall j, PyStr.occurs_at dunder s j -> j <= String.length pre) /\
     shorten_param s = Some post) /\
  ((~ exists i, PyStr.occurs_at dunder s i) -> shorten_param s = Some s).
Proof.
  assert (L : (exists i, PyStr.occurs_at dunder s i) ->
              exists pre post,
                s = (pre ++ dunder ++ post)%string /\
                (forall j, PyStr.occurs_at dunder s j -> j <= String.length pre) /\
                shorten_param s = Some post).
  { unfold shorten_param. intros H. apply contains_occurs in H. rewrite H.
    unfold PyStr.rsplit1.
    destruct (PyStr.rfind dunder s) as [i|] eqn:R.
    - destruct (rfind_some _ _ _ R) as (E & Hl & M).
      exists (PyStr.take i s), (PyStr.drop (i + String.length dunder) s).
      split; [exact E|]. split; [now rewrite Hl | reflexivity].
    - apply rfind_none in R. congruence. }
  split; [|split; [exact L|]].
  - intros pre post E M.
    destruct L as (pre' & post' & E' & M' & R).
    { exists (String.length pre). now exists pre, post. }
    assert (Hlen : String.length pre' = String.length pre).
    { apply Nat.le_antisymm.
      - apply M. now exists pre', post'.
      - apply M'. now exists pre, post. }
    rewrite R. f_equal.
    rewrite E in E'.
    destruct (app_inv_length _ _ _ _ E' (eq_sym Hlen)) as [_ E2].
    symmetry. exact (app_inv_head_str _ _ _ E2).
  - intros H. unfold shorten_param.
    destruct (PyStr.contains dunder s) eqn:C; [|reflexivity].
    exfalso. apply H. now apply contains_occurs.
Qed.

Lemma shorten_param_spec_witness :
  shorten_param "param_classifier__max_leaf_nodes" = Some "max_leaf_nodes".
Proof.
  refine (proj1 (shorten_param_spec "param_classifier__max_leaf_nodes")
            "param_classifier" "max_leaf_nodes" eq_refl _).
  intros j (pre & post & E & L). subst j.
  destruct (le_gt_dec (String.length pre) 16) as [Hle | Hgt]; [exact Hle | exfalso].
  do 17 (destruct pre as [|? pre]; [simpl in Hgt; lia | injection E as _ E]).
  clear Hgt.
  repeat (destruct pre as [|? pre]; [discriminate E | try injection E as _ E; try discriminate E]).
Defined.

(* ---------------------------------------------------------------------- *)
(** ** C9: [reciprocal_int] *)

(** C9, as stated, fails for bounds beyond the 64-bit integers:
    [reciprocal_int(1, 2**64)] can draw [2**63], which [astype(int)] turns
    into the minimum integer, below [floor(1)]. *)
Lemma rvs_beyond_int64 :
  reciprocal_int.returns 1 (inject_Z (2 ^ 64)) (- 2 ^ 63)%Z /\
  (- 2 ^ 63 < Qfloor 1)%Z.
Proof.
  split; [|reflexivity].
  exists (inject_Z (2 ^ 63)). split; [|reflexivity].
  unfold Scipy.rvs. simpl. repeat split; vm_compute; congruence.
Qed.

(** C9, amended.  For every pair of reals [0 < a <= b] with
    [floor(b) < 2^63], every value returned by [reciprocal_int(a, b).rvs()]
    is an integer [n] with [floor(a) <= n <= floor(b)]: the draw lies in
    [[a, b]], it is positive, and the conversion drops its fractional
    part. *)
Theorem rvs_within_bounds (a b : Q) (n : Z) :
  (0 < a)%Q -> (a <= b)%Q -> (Qfloor b < 2 ^ 63)%Z ->
  reciprocal_int.returns a b n ->
  (Qfloor a <= n <= Qfloor b)%Z.
Proof.
  intros Ha Hab Hb (x & (_ & _ & Hax & Hxb) & <-). simpl in Hax, Hxb.
  unfold reciprocal_int.rvs.
  assert (H0 : (0 <= x)%Q) by (apply Qle_trans with a; [now apply Qlt_le_weak | assumption]).
  pose proof (Qfloor_resp_le _ _ Hax) as L1.
  pose proof (Qfloor_resp_le _ _ Hxb) as L2.
  rewrite astype_int_in_range; [lia | assumption | unfold Numpy.int64_max; lia].
Qed.

Lemma rvs_within_bounds_witness :
  reciprocal_int.returns 2 256 255 /\ (Qfloor 2 <= 255 <= Qfloor 256)%Z.
Proof.
  assert (R : reciprocal_int.returns 2 256 255).
  { exists (1023 # 4)%Q. split; [|reflexivity].
    unfold Scipy.rvs. simpl. repeat split; vm_compute; congruence. }
  split; [exact R|].
  apply (rvs_within_bounds 2 256 255); [reflexivity | discriminate | reflexivity | exact R].
Defined.

(* ---------------------------------------------------------------------- *)
(** ** C10: the encoder never meets an unknown category *)

(** C10.  Let the encoder be constructed with [categories data], the
    unique values of every categorical column of the whole of [data]
    (whose column names are distinct).  Then for every split of the rows of
    [data] into a training and a validation fold, fitting on the training
    fold and transforming the validation fold succeeds: every value of a
    column of any fold is in that column's category list, and neither step
    ends in the encoder's unknown-category error. *)
Theorem no_unknown_category (data : Pandas.frame) (train validation : list nat) :
  NoDup (Pandas.columns data) ->
  (forall i, In i (train ++ validation) ->
   forall c s, In (c, s) data -> i < List.length s) ->
  (forall rows fold j c s,
     Pandas.take_frame data rows = Some fold -> nth_error fold j = Some (c, s) ->
     exists cats, nth_error (categories data) j = Some cats /\ forall v, In v s -> In v cats) /\
  exists codes, fit_transform_fold data train validation = Some (Sklearn.Ok codes).
Proof.
  intros N R. split.
  - rewrite (categories_unique data N).
    intros rows fold j c s E H.
    destruct (fold_values_known rows data fold j c s E H) as (s0 & Hj & Hv).
    exists (Pandas.unique s0). split; [|exact Hv].
    now rewrite (map_nth_error (fun cs => Pandas.unique (snd cs)) j data Hj).
  - unfold fit_transform_fold.
    destruct (take_frame_in_range train data) as [d_train Et].
    { intros i Hi. apply R, in_or_app. now left. }
    destruct (take_frame_in_range validation data) as [d_val Ev].
    { intros i Hi. apply R, in_or_app. now right. }
    rewrite Et, Ev. unfold Sklearn.fit, Sklearn.transform. simpl.
    rewrite (categories_unique data N).
    destruct (encode_fold train data d_train 0 Et) as [c1 ->]. simpl.
    destruct (encode_fold validation data d_val 0 Ev) as [c2 ->].
    now exists c2.
Qed.

Lemma no_unknown_category_witness :
  exists codes, fit_transform_fold census_sample [0; 1] [2; 3] = Some (Sklearn.Ok codes).
Proof.
  refine (proj2 (no_unknown_category census_sample [0; 1] [2; 3] _ _)).
  - repeat constructor; simpl; intuition discriminate.
  - intros i Hi c s Hc. simpl in Hi, Hc.
    destruct Hc as [Hc | [Hc | []]]; injection Hc as _ <-; simpl; intuition lia.
Defined.

(* ====================================================================== *)
(** * Part V: further properties of the notebooks' code *)
(* ====================================================================== *)

(* ---------------------------------------------------------------------- *)
(** ** Comprehensions that can raise *)

Lemma traverse_app {A B} (f : A -> option B) (l1 l2 : list A) r1 r2 :
  traverse f l1 = Some r1 -> traverse f l2 = Some r2 ->
  traverse f (l1 ++ l2) = Some (r1 ++ r2).
Proof.
  revert r1. induction l1 as [|a l1 IH]; simpl; intros r1 E1 E2.
  - injection E1 as <-. exact E2.
  - destruct (f a) as [b|]; [|discriminate].
    destruct (traverse f l1) as [r|]; [|discriminate].
    injection E1 as <-. now rewrite (IH r eq_refl E2).
Qed.

Lemma traverse_map_some {A B C} (f : A -> option B) (g : C -> A) (h : C -> B) (l : list C) :
  (forall c, In c l -> f (g c) = Some (h c)) ->
  traverse f (map g l) = Some (map h l).
Proof.
  induction l as [|c l IH]; simpl; intros H; [reflexivity|].
  rewrite (H c (or_introl eq_refl)), IH; [reflexivity|]. auto.
Qed.

Lemma traverse_length {A B} (f : A -> option B) : forall l r,
  traverse f l = Some r -> List.length r = List.length l.
Proof.
  induction l as [|a l IH]; simpl; intros r E.
  - now injection E as <-.
  - destruct (f a); [|discriminate]. destruct (traverse f l) as [r'|]; [|discriminate].
    injection E as <-. simpl. now rewrite (IH r').
Qed.

(** A comprehension raises exactly when one of its elements does. *)
Lemma traverse_none {A B} (f : A -> option B) : forall l,
  traverse f l = None <-> exists a, In a l /\ f a = None.
Proof.
  induction l as [|a l IH]; simpl.
  - split; [discriminate | now intros (a & [] & _)].
  - destruct (f a) as [b|] eqn:E.
    + destruct (traverse f l) as [r|].
      * split; [discriminate|]. intros (x & [<- | Hx] & Ex); [congruence|].
        assert (N : Some r = None) by (apply IH; now exists x). discriminate N.
      * split; [|reflexivity]. intros _.
        destruct (proj1 IH eq_refl) as (x & Hx & Ex). exists x. auto.
    + split; [|reflexivity]. intros _. exists a. auto.
Qed.

(* ---------------------------------------------------------------------- *)
(** ** More facts about the string primitives *)

Section MoreStringFacts.
Import PyStr.
Local Open Scope string_scope.

Lemma str_app_assoc (a b c : string) : (a ++ b) ++ c = a ++ (b ++ c).
Proof. induction a as [|x a IH]; simpl; [reflexivity | now rewrite IH]. Qed.

Lemma str_length_app (a b : string) :
  String.length (a ++ b) = String.length a + String.length b.
Proof. induction a as [|x a IH]; simpl; [reflexivity | now rewrite IH]. Qed.

Lemma drop_app (pre s : string) : drop (String.length pre) (pre ++ s) = s.
Proof. induction pre as [|x pre IH]; simpl; [now destruct s | exact IH]. Qed.

Lemma drop_add (n m : nat) : forall s, drop (n + m) s = drop m (drop n s).
Proof.
  induction n as [|n IH]; intros s; simpl; [reflexivity|].
  destruct s as [|c s]; [now destruct m | apply IH].
Qed.

Lemma rfind_contains sep s i : rfind sep s = Some i -> contains sep s = true.
Proof.
  intros R. destruct (rfind_some _ _ _ R) as (E & L & _).
  apply contains_occurs. exists i.
  now exists (take i s), (drop (i + String.length sep) s).
Qed.

Lemma contains_rfind sep s : contains sep s = true -> exists i, rfind sep s = Some i.
Proof.
  intros C. destruct (rfind sep s) as [i|] eqn:R; [now exists i|].
  apply rfind_none in R. congruence.
Qed.

Lemma rfind_app sep pre : forall s i,
  rfind sep s = Some i -> rfind sep (pre ++ s) = Some (String.length pre + i).
Proof.
  induction pre as [|c pre IH]; simpl; intros s i R; [exact R|].
  now rewrite (IH s i R).
Qed.

Lemma occurs_at_app sep pre s k :
  occurs_at sep s k -> occurs_at sep (pre ++ s) (String.length pre + k).
Proof.
  intros (p & q & E & L). exists (pre ++ p), q. split.
  - now rewrite E, str_app_assoc.
  - now rewrite str_length_app, L.
Qed.

End MoreStringFacts.

(* ---------------------------------------------------------------------- *)
(** ** [shorten_param] and the columns of the search results *)

Lemma shorten_param_defined (s : string) : exists r, shorten_param s = Some r.
Proof.
  unfold shorten_param. destruct (PyStr.contains dunder s) eqn:C; [|now exists s].
  destruct (contains_rfind _ _ C) as [i R].
  unfold PyStr.rsplit1. rewrite R. simpl. eauto.
Qed.

Lemma shorten_param_result (s r : string) :
  shorten_param s = Some r ->
  (exists pre, s = (pre ++ r)%string) /\ PyStr.contains dunder r = false.
Proof.
  unfold shorten_param. destruct (PyStr.contains dunder s) eqn:C.
  - destruct (contains_rfind _ _ C) as [i R].
    unfold PyStr.rsplit1. rewrite R. simpl. intros E. injection E as <-.
    destruct (rfind_some _ _ _ R) as (E & L & M). split.
    + exists (PyStr.take i s ++ dunder)%string. now rewrite str_app_assoc.
    + destruct (PyStr.contains dunder (PyStr.drop (i + String.length dunder) s)) eqn:C2;
        [exfalso | exact C2].
      apply contains_occurs in C2 as [k Hk].
      apply (occurs_at_app dunder (PyStr.take i s ++ dunder)) in Hk.
      rewrite <- str_app_assoc in E. rewrite <- E in Hk.
      apply M in Hk. rewrite str_length_app, L in Hk. simpl in Hk. lia.
  - intros E. injection E as <-. split; [now exists ""%string | exact C].
Qed.

(** What comes after a double underscore is returned whole when it holds
    no further double underscore, also not one formed with the second
    underscore of the separator. *)
Lemma shorten_param_app (pre name : string) :
  PyStr.contains dunder ("_" ++ name) = false ->
  shorten_param (pre ++ dunder ++ name) = Some name.
Proof.
  intros C.
  assert (R0 : PyStr.rfind dunder (dunder ++ name) = Some 0).
  { change (dunder ++ name)%string with (String "_" ("_" ++ name)).
    cbn [PyStr.rfind].
    destruct (PyStr.rfind dunder ("_" ++ name)) as [i|] eqn:R.
    - apply rfind_contains in R. congruence.
    - reflexivity. }
  pose proof (rfind_app dunder pre _ _ R0) as R.
  unfold shorten_param. rewrite (rfind_contains _ _ _ R).
  unfold PyStr.rsplit1. rewrite R. simpl nth_error. f_equal.
  rewrite Nat.add_0_r, drop_add, drop_app. reflexivity.
Qed.

(** X1.  [shorten_param] never fails (the index [[1]] into the split is
    always there); what it returns is a tail of its argument, and holds no
    double underscore. *)
Theorem shorten_param_returns_a_tail (s : string) :
  exists pre r,
    shorten_param s = Some r /\ s = (pre ++ r)%string /\ PyStr.contains dunder r = false.
Proof.
  destruct (shorten_param_defined s) as [r E].
  destruct (shorten_param_result s r E) as ((pre & Es) & C).
  now exists pre, r.
Qed.

(** X2.  [shorten_param] is idempotent: applied to a name that it has
    returned, it returns that name, so that running the renaming cell of
    the notebook again leaves the columns as they are. *)
Theorem shorten_param_idempotent (s r : string) :
  shorten_param s = Some r -> shorten_param r = Some r.
Proof.
  intros E. destruct (shorten_param_result s r E) as (_ & C).
  unfold shorten_param. now rewrite C.
Qed.

Lemma shorten_param_idempotent_witness :
  shorten_param "classifier__max_bins" = Some "max_bins" /\
  shorten_param "max_bins" = Some "max_bins".
Proof.
  split; [reflexivity|].
  exact (shorten_param_idempotent "classifier__max_bins" "max_bins" eq_refl).
Defined.

(** X3.  For a search over parameters of pipeline steps, keyed
    [step__name], the columns selected and renamed by the notebook are the
    bare parameter names followed by the three score columns, provided no
    name holds a double underscore or begins with an underscore. *)
Theorem renamed_columns_are_parameter_names (params : list (string * string)) :
  (forall step name, In (step, name) params ->
                     PyStr.contains dunder ("_" ++ name) = false) ->
  renamed_columns (map (fun sn => step_parameter (fst sn) (snd sn)) params) =
    Some (map snd params ++ score_columns).
Proof.
  intros H. unfold renamed_columns, DataFrame.rename, column_results.
  apply traverse_app; [|reflexivity].
  rewrite map_map. apply traverse_map_some.
  intros [step name] Hin. cbn [fst snd]. unfold step_parameter.
  rewrite <- (str_app_assoc "param_" step (dunder ++ name)).
  apply shorten_param_app. exact (H step name Hin).
Qed.

Lemma renamed_columns_are_parameter_names_witness :
  renamed_columns ["classifier__learning_rate"; "classifier__max_leaf_nodes"] =
    Some ["learning_rate"; "max_leaf_nodes";
          "mean_test_score"; "std_test_score"; "rank_test_score"].
Proof.
  apply (renamed_columns_are_parameter_names
           [("classifier", "learning_rate"); ("classifier", "max_leaf_nodes")]).
  intros step name [E | [E | []]]; injection E as <- <-; reflexivity.
Defined.

(** X4.  A parameter name that begins with an underscore comes back
    without it: the split is made at the last double underscore, which is
    then the one formed by the second underscore of the separator and the
    first character of the name. *)
Theorem shorten_param_drops_leading_underscore (step name : string) :
  PyStr.contains dunder ("_" ++ name) = false ->
  shorten_param (step_parameter step ("_" ++ name)) = Some name.
Proof.
  intros C. unfold step_parameter.
  replace (step ++ dunder ++ "_" ++ name)%string
    with ((step ++ "_") ++ dunder ++ name)%string
    by (rewrite str_app_assoc; reflexivity).
  now apply shorten_param_app.
Qed.

Lemma shorten_param_drops_leading_underscore_witness :
  shorten_param "classifier___cache" = Some "cache".
Proof.
  exact (shorten_param_drops_leading_underscore "classifier" "cache" eq_refl).
Defined.

(* ---------------------------------------------------------------------- *)
(** ** [reciprocal_int]: how it rounds *)

(** X6.  [rvs] rounds the draw down: the draw [x] lies in
    [[n, n + 1)] for the integer [n] returned.  So an upper bound [b] that
    is an integer is returned only when the draw is [b] itself. *)
Theorem rvs_rounds_down (a b x : Q) :
  Scipy.rvs {| Scipy.a := a; Scipy.b := b |} x -> (Qfloor b < 2 ^ 63)%Z ->
  (inject_Z (reciprocal_int.rvs (reciprocal_int.__init__ a b) x) <= x)%Q /\
  (x < inject_Z (reciprocal_int.rvs (reciprocal_int.__init__ a b) x) + 1)%Q /\
  (inject_Z (reciprocal_int.rvs (reciprocal_int.__init__ a b) x) == b -> x == b)%Q.
Proof.
  intros (Ha & Hab & Hax & Hxb) Hb. simpl in Ha, Hab, Hax, Hxb.
  unfold reciprocal_int.rvs.
  pose proof (Qfloor_resp_le _ _ Hxb) as L.
  rewrite astype_int_in_range; [| lra | unfold Numpy.int64_max; lia].
  pose proof (Qfloor_le x) as F1. pose proof (Qlt_floor x) as F2.
  rewrite inject_Z_plus in F2. change (inject_Z 1) with 1%Q in F2.
  repeat split; [exact F1 | exact F2 | intros E; lra].
Qed.

Lemma rvs_rounds_down_witness :
  (inject_Z (reciprocal_int.rvs (reciprocal_int.__init__ 2 256) (1023 # 4)) <= 1023 # 4)%Q /\
  (1023 # 4 < inject_Z (reciprocal_int.rvs (reciprocal_int.__init__ 2 256) (1023 # 4)) + 1)%Q.
Proof.
  assert (H : Scipy.rvs {| Scipy.a := 2; Scipy.b := 256 |} (1023 # 4)).
  { unfold Scipy.rvs. simpl. repeat split; vm_compute; congruence. }
  destruct (rvs_rounds_down 2 256 (1023 # 4) H eq_refl) as (H1 & H2 & _).
  split; [exact H1 | exact H2].
Defined.

(* ---------------------------------------------------------------------- *)
(** ** The census notebooks: target, features and categories *)

Lemma mem_In (x : string) (l : list string) : mem x l = true <-> In x l.
Proof.
  unfold mem. rewrite existsb_exists. split.
  - intros (y & Hy & E). apply String.eqb_eq in E. now subst y.
  - intros H. exists x. split; [assumption | apply String.eqb_refl].
Qed.

Lemma mem_not_In (x : string) (l : list string) : mem x l = false <-> ~ In x l.
Proof.
  rewrite <- mem_In. destruct (mem x l); split; intros H; congruence.
Qed.

Lemma getitem_some_In (df : Pandas.frame) c :
  In c (Pandas.columns df) <-> exists s, Pandas.getitem df c = Some s.
Proof.
  unfold Pandas.columns. induction df as [|[c' s'] df IH]; simpl.
  - split; [easy | now intros [s E]].
  - destruct (String.eqb c' c) eqn:E.
    + apply String.eqb_eq in E. split; [eauto | now left].
    + rewrite <- IH. apply String.eqb_neq in E. tauto.
Qed.

Lemma getitem_filter (df : Pandas.frame) (labels : list string) c :
  mem c labels = false ->
  Pandas.getitem (filter (fun cs : string * Pandas.series => negb (mem (fst cs) labels)) df) c =
  Pandas.getitem df c.
Proof.
  intros Hc. induction df as [|[c' s'] df IH]; simpl; [reflexivity|].
  destruct (mem c' labels) eqn:M; simpl.
  - destruct (String.eqb c' c) eqn:E; [|exact IH].
    apply String.eqb_eq in E. congruence.
  - now rewrite IH.
Qed.

Lemma getitem_none_In (df : Pandas.frame) c :
  Pandas.getitem df c = None <-> ~ In c (Pandas.columns df).
Proof.
  rewrite getitem_some_In. destruct (Pandas.getitem df c) as [s|]; split.
  - discriminate.
  - intros H. exfalso. apply H. now exists s.
  - now intros _ [s E].
  - reflexivity.
Qed.

(** X7.  For a frame with distinct column labels (as [read_csv] makes
    them): [data = df.drop(columns=[target_name, "fnlwgt"])] fails
    (KeyError) exactly when [df] lacks the target column or lacks the
    sampling weight, and [target = df[target_name]] fails exactly when
    [df] lacks the target column.  When the drop succeeds, the target
    column and the sampling weight are not among the features, every other
    column is in [data] as it is in [df], and the target has been found. *)
Theorem target_is_not_a_feature (df : Pandas.frame) :
  NoDup (Pandas.columns df) ->
  (census.data df = None <->
     ~ In census.target_name (Pandas.columns df) \/ ~ In "fnlwgt" (Pandas.columns df)) /\
  (census.target df = None <-> ~ In census.target_name (Pandas.columns df)) /\
  forall data, census.data df = Some data ->
    ~ In census.target_name (Pandas.columns data) /\
    ~ In "fnlwgt" (Pandas.columns data) /\
    (forall c, c <> census.target_name -> c <> "fnlwgt" ->
               Pandas.getitem data c = Pandas.getitem df c) /\
    exists target, census.target df = Some target.
Proof.
  intros _. split; [|split].
  - unfold census.data, DataFrame.drop. cbn [forallb]. rewrite andb_true_r.
    pose proof (mem_In census.target_name (Pandas.columns df)) as M1.
    pose proof (mem_In "fnlwgt" (Pandas.columns df)) as M2.
    destruct (mem census.target_name (Pandas.columns df));
      destruct (mem "fnlwgt" (Pandas.columns df)); cbn [andb];
      (split; [try discriminate; intros _ | try reflexivity; intros [H | H]; exfalso; tauto]).
    + right. intros H. apply M2 in H. discriminate.
    + left. intros H. apply M1 in H. discriminate.
    + left. intros H. apply M1 in H. discriminate.
  - apply getitem_none_In.
  - unfold census.data, DataFrame.drop.
    destruct (forallb _ _) eqn:F; [|discriminate].
    intros data E. injection E as <-.
    simpl in F. rewrite !andb_true_iff in F. destruct F as (F1 & F2 & _).
    assert (D : forall c, In c (Pandas.columns
                (filter (fun cs : string * Pandas.series =>
                           negb (mem (fst cs) [census.target_name; "fnlwgt"])) df)) ->
                          mem c [census.target_name; "fnlwgt"] = false).
    { intros c H. unfold Pandas.columns in H. apply in_map_iff in H as ([c' s] & <- & H).
      apply filter_In in H as [_ H]. now apply negb_true_iff in H. }
    repeat split.
    + intros H. apply D in H. discriminate H.
    + intros H. apply D in H. discriminate H.
    + intros c H1 H2. apply (getitem_filter df [census.target_name; "fnlwgt"]).
      apply mem_not_In. intros [E | [E | []]]; congruence.
    + apply getitem_some_In, mem_In. exact F1.
Qed.

Lemma target_is_not_a_feature_witness :
  (census.data census.adult_sample = None <->
     ~ In census.target_name (Pandas.columns census.adult_sample) \/
     ~ In "fnlwgt" (Pandas.columns census.adult_sample)) /\
  ~ In census.target_name (map fst (filter (fun cs : string * Pandas.series =>
        negb (mem (fst cs) [census.target_name; "fnlwgt"])) census.adult_sample)) /\
  exists target, census.target census.adult_sample = Some target.
Proof.
  assert (N : NoDup (Pandas.columns census.adult_sample)).
  { repeat constructor; simpl; intuition discriminate. }
  pose proof (target_is_not_a_feature census.adult_sample N) as (H0 & _ & H).
  destruct (H _ eq_refl) as (H1 & _ & _ & H4).
  split; [exact H0|]. split; [exact H1 | exact H4].
Defined.

Lemma select_getitem (data : Pandas.frame) : forall cols sub,
  DataFrame.select data cols = Some sub ->
  Pandas.columns sub = cols /\
  forall c s, In (c, s) sub -> Pandas.getitem data c = Some s.
Proof.
  unfold DataFrame.select.
  induction cols as [|c cols IH]; simpl; intros sub E.
  - injection E as <-. split; [reflexivity | easy].
  - destruct (Pandas.getitem data c) as [s|] eqn:G; [|discriminate]. simpl in E.
    destruct (traverse _ cols) as [r|]; [|discriminate].
    injection E as <-. destruct (IH r eq_refl) as [C H]. split.
    + simpl. now rewrite C.
    + intros c' s' [E | Hin]; [injection E as <- <-; exact G | now apply H].
Qed.

Lemma select_none (data : Pandas.frame) (cols : list string) :
  DataFrame.select data cols = None ->
  exists c, In c cols /\ ~ In c (Pandas.columns data).
Proof.
  unfold DataFrame.select. intros E. apply traverse_none in E as (c & Hc & E).
  exists c. split; [exact Hc|]. intros H. apply getitem_some_In in H as [s G].
  now rewrite G in E.
Qed.

(** In a frame selected from another, looking a label up gives the column
    that it has in the frame selected from. *)
Lemma getitem_selected (data : Pandas.frame) cols sub c s :
  DataFrame.select data cols = Some sub -> In (c, s) sub ->
  Pandas.getitem sub c = Some s.
Proof.
  intros E. destruct (select_getitem data cols sub E) as [_ H]. clear E.
  induction sub as [|[c' s'] sub IH]; simpl; [easy|].
  intros Hin. destruct (String.eqb c' c) eqn:Ec.
  - apply String.eqb_eq in Ec. subst c'.
    pose proof (H c s' (or_introl eq_refl)) as G1.
    pose proof (H c s Hin) as G2. congruence.
  - destruct Hin as [Hin | Hin].
    + injection Hin as -> ->. now rewrite String.eqb_refl in Ec.
    + apply IH; [|exact Hin]. intros c0 s0 H0. apply H. now right.
Qed.

Lemma traverse_unique (data sub : Pandas.frame) :
  (forall c s, In (c, s) sub -> Pandas.getitem data c = Some s) ->
  traverse (fun column => option_map Pandas.unique (Pandas.getitem data column))
           (Pandas.columns sub) =
  Some (map (fun cs : string * Pandas.series => Pandas.unique (snd cs)) sub).
Proof.
  intros H. unfold Pandas.columns. apply traverse_map_some.
  intros [c s] Hin. simpl. now rewrite (H c s Hin).
Qed.

Lemma select_fails (data : Pandas.frame) (cols : list string) :
  DataFrame.select data cols = None <->
  exists c, In c cols /\ ~ In c (Pandas.columns data).
Proof.
  unfold DataFrame.select. split.
  - intros E. apply traverse_none in E as (c & Hc & H).
    exists c. split; [exact Hc|].
    apply getitem_none_In. now destruct (Pandas.getitem data c).
  - intros (c & Hc & H). apply traverse_none.
    exists c. split; [exact Hc|].
    apply getitem_none_In in H. now rewrite H.
Qed.

Lemma categories_003_fails (data : Pandas.frame) (cols : list string) :
  categories_003 data cols = None <->
  exists c, In c cols /\ ~ In c (Pandas.columns data).
Proof.
  unfold categories_003. split.
  - intros E. apply traverse_none in E as (c & Hc & H).
    exists c. split; [exact Hc|].
    apply getitem_none_In. now destruct (Pandas.getitem data c).
  - intros (c & Hc & H). apply traverse_none.
    exists c. split; [exact Hc|].
    apply getitem_none_In in H. now rewrite H.
Qed.

(** X8.  For a frame with distinct column labels, the list of categories
    is aligned with the columns that the encoder receives: its [j]-th
    entry holds the unique values of the [j]-th column of
    [data[categorical_columns]].  The two ways in which the notebooks write
    the comprehension (over the labels of the selected frame, over the list
    of labels) give the same list.  The selection and both comprehensions
    raise (KeyError) exactly when a label is not a column of [data]: they
    raise when one is missing, and only then. *)
Theorem categories_are_aligned (data : Pandas.frame) (categorical_columns : list string) :
  NoDup (Pandas.columns data) ->
  (DataFrame.select data categorical_columns = None <->
     exists c, In c categorical_columns /\ ~ In c (Pandas.columns data)) /\
  (categories_of data categorical_columns = None <->
     exists c, In c categorical_columns /\ ~ In c (Pandas.columns data)) /\
  (categories_003 data categorical_columns = None <->
     exists c, In c categorical_columns /\ ~ In c (Pandas.columns data)) /\
  forall data_categorical,
    DataFrame.select data categorical_columns = Some data_categorical ->
    categories_of data categorical_columns =
      Some (map (fun cs : string * Pandas.series => Pandas.unique (snd cs)) data_categorical) /\
    categories_003 data categorical_columns = categories_of data categorical_columns /\
    categories data_categorical =
      map (fun cs : string * Pandas.series => Pandas.unique (snd cs)) data_categorical.
Proof.
  intros _.
  assert (A : forall sub, DataFrame.select data categorical_columns = Some sub ->
            categories_of data categorical_columns =
              Some (map (fun cs : string * Pandas.series => Pandas.unique (snd cs)) sub)).
  { intros sub E. unfold categories_of. rewrite E.
    destruct (select_getitem _ _ _ E) as [C H]. exact (traverse_unique data sub H). }
  split; [apply select_fails|]. split; [|split; [apply categories_003_fails|]].
  - rewrite <- select_fails.
    destruct (DataFrame.select data categorical_columns) as [sub|] eqn:E.
    + rewrite (A sub eq_refl). split; discriminate.
    + unfold categories_of. rewrite E. tauto.
  - intros sub E. split; [exact (A sub E)|]. split.
    + rewrite (A sub E). destruct (select_getitem _ _ _ E) as [C H].
      unfold categories_003. rewrite <- C. exact (traverse_unique data sub H).
    + unfold categories, Pandas.columns. rewrite map_map.
      apply map_ext_in. intros [c s] Hin. simpl.
      now rewrite (getitem_selected data categorical_columns sub c s E Hin).
Qed.

Lemma categories_are_aligned_witness :
  (categories_003 census.adult_sample ["workclass"; "sex"] = None <->
     exists c, In c ["workclass"; "sex"] /\ ~ In c (Pandas.columns census.adult_sample)) /\
  categories_of census.adult_sample ["workclass"; "sex"] =
    Some [["State-gov"; "Self-emp-not-inc"; "Private"]; ["Male"; "Female"]] /\
  categories_003 census.adult_sample ["workclass"; "sex"] =
    categories_of census.adult_sample ["workclass"; "sex"].
Proof.
  assert (N : NoDup (Pandas.columns census.adult_sample)).
  { repeat constructor; simpl; intuition discriminate. }
  pose proof (categories_are_aligned census.adult_sample ["workclass"; "sex"] N)
    as (_ & _ & H0 & H).
  destruct (H _ eq_refl) as (H1 & H2 & _).
  split; [exact H0|]. split; [exact H1 | exact H2].
Defined.

(** X9.  Selecting the columns that a selector has picked from the same
    frame never fails: [data[categorical_columns]] and
    [data[numerical_columns]] exist and have those columns, in that order,
    and the comprehension that builds [categories] raises no KeyError and
    gives one entry per categorical column. *)
Theorem selected_columns_exist (data : Pandas.frame) (dtypes : list (string * dtype)) :
  NoDup (Pandas.columns data) ->
  Pandas.columns data = map fst dtypes ->
  (exists data_categorical,
     DataFrame.select data (categorical_columns dtypes) = Some data_categorical /\
     Pandas.columns data_categorical = categorical_columns dtypes) /\
  (exists data_numeric,
     DataFrame.select data (numerical_columns dtypes) = Some data_numeric /\
     Pandas.columns data_numeric = numerical_columns dtypes) /\
  exists cats,
    categories_of data (categorical_columns dtypes) = Some cats /\
    List.length cats = List.length (categorical_columns dtypes).
Proof.
  intros _ C.
  assert (S : forall p : string * dtype -> bool,
            exists sub, DataFrame.select data (map fst (filter p dtypes)) = Some sub /\
                        Pandas.columns sub = map fst (filter p dtypes)).
  { intros p. destruct (DataFrame.select data (map fst (filter p dtypes))) as [sub|] eqn:E.
    - exists sub. split; [reflexivity|]. exact (proj1 (select_getitem _ _ _ E)).
    - exfalso. destruct (select_none _ _ E) as (c & Hc & Hn). apply Hn. rewrite C.
      apply in_map_iff in Hc as (x & <- & Hx). apply filter_In in Hx as [Hx _].
      now apply in_map. }
  split; [apply S|]. split; [apply S|].
  destruct (S (fun cd : string * dtype => is_object (snd cd))) as (sub & E & Hs).
  unfold categories_of, categorical_columns, selector_include_object. rewrite E.
  destruct (select_getitem _ _ _ E) as [_ H].
  rewrite (traverse_unique data sub H). eexists. split; [reflexivity|].
  rewrite length_map. rewrite <- Hs. unfold Pandas.columns. now rewrite length_map.
Qed.

Lemma selected_columns_exist_witness :
  exists cats,
    categories_of census_sample (categorical_columns [("workclass", object); ("sex", object)]) =
      Some cats /\
    List.length cats = List.length (categorical_columns [("workclass", object); ("sex", object)]).
Proof.
  refine (proj2 (proj2 (selected_columns_exist census_sample
                          [("workclass", object); ("sex", object)] _ eq_refl))).
  repeat constructor; simpl; intuition discriminate.
Defined.

(* ---------------------------------------------------------------------- *)
(** ** The codes of the encoder can be decoded *)

Lemma index_of_nth (cats : list string) v : forall i,
  Sklearn.index_of cats v = Some i -> nth_error cats i = Some v.
Proof.
  induction cats as [|c cats IH]; simpl; intros i E; [discriminate|].
  destruct (String.eqb c v) eqn:Ec.
  - injection E as <-. apply String.eqb_eq in Ec. now subst c.
  - destruct (Sklearn.index_of cats v) as [k|]; [|discriminate].
    injection E as <-. now apply IH.
Qed.

Lemma encode_column_decode j (cats : list string) : forall s r,
  Sklearn.encode_column j cats s = Sklearn.Ok r ->
  map (nth_error cats) r = map Some s.
Proof.
  induction s as [|v s IH]; simpl; intros r E.
  - now injection E as <-.
  - destruct (Sklearn.index_of cats v) as [i|] eqn:I; [|discriminate].
    destruct (Sklearn.encode_column j cats s) as [r'|]; [|discriminate].
    injection E as <-. simpl. now rewrite (index_of_nth _ _ _ I), (IH r').
Qed.

Lemma encode_decode : forall (cats : list (list string)) (X : list (list string)) j codes,
  Sklearn.encode j cats X = Sklearn.Ok codes ->
  List.length codes = List.length X /\
  forall k r, nth_error codes k = Some r ->
    exists ct s, nth_error cats k = Some ct /\ nth_error X k = Some s /\
                 map (nth_error ct) r = map Some s.
Proof.
  induction cats as [|ct cats IH]; intros [|s X] j codes E; simpl in E; try discriminate.
  - injection E as <-. split; [reflexivity|]. intros [|k] r H; discriminate.
  - destruct (Sklearn.encode_column j ct s) as [r0|] eqn:E0; [|discriminate].
    destruct (Sklearn.encode (S j) cats X) as [rs|] eqn:E1; [|discriminate].
    injection E as <-. destruct (IH X (S j) rs E1) as [L H]. split.
    + simpl. now rewrite L.
    + intros [|k] r Hk; simpl in Hk.
      * injection Hk as <-. exists ct, s. repeat split.
        now apply (encode_column_decode j).
      * now apply H.
Qed.

Lemma take_frame_nth rows : forall (data d : Pandas.frame),
  Pandas.take_frame data rows = Some d ->
  List.length d = List.length data /\
  forall k s, nth_error (map snd d) k = Some s ->
    exists c s0, nth_error data k = Some (c, s0) /\ Pandas.take s0 rows = Some s.
Proof.
  induction data as [|[c s0] data IH]; simpl; intros d E.
  - injection E as <-. split; [reflexivity|]. intros [|k] s H; discriminate.
  - destruct (Pandas.take s0 rows) as [r|] eqn:T; [|discriminate].
    destruct (Pandas.take_frame data rows) as [d'|]; [|discriminate].
    injection E as <-. destruct (IH d' eq_refl) as [L H]. split.
    + simpl. now rewrite L.
    + intros [|k] s Hk; simpl in Hk.
      * injection Hk as <-. now exists c, s0.
      * now apply H.
Qed.

(** X10.  The codes that a fold comes out with can be decoded: there is one
    list of codes per column of [data], and the code of a value is the
    position of that value among the unique values of its column in the
    whole of [data], so that looking the codes up in that list gives the
    rows of the fold back. *)
Theorem codes_decode (data : Pandas.frame) (train validation : list nat)
        (codes : list (list nat)) :
  NoDup (Pandas.columns data) ->
  fit_transform_fold data train validation = Some (Sklearn.Ok codes) ->
  List.length codes = List.length data /\
  forall j col_codes, nth_error codes j = Some col_codes ->
    exists c s rows,
      nth_error data j = Some (c, s) /\
      Pandas.take s validation = Some rows /\
      map (nth_error (Pandas.unique s)) col_codes = map Some rows.
Proof.
  intros N. unfold fit_transform_fold.
  destruct (Pandas.take_frame data train) as [d_train|]; [|discriminate].
  destruct (Pandas.take_frame data validation) as [d_val|] eqn:Ev; [|discriminate].
  unfold Sklearn.fit, Sklearn.transform. simpl.
  destruct (Sklearn.encode 0 (categories data) (map snd d_train)); [|discriminate].
  simpl. intros E. injection E as E.
  destruct (encode_decode _ _ _ _ E) as [L H].
  destruct (take_frame_nth _ _ _ Ev) as [Lv Hv]. split.
  - now rewrite L, length_map.
  - intros j col_codes Hj.
    destruct (H j col_codes Hj) as (ct & s & Hc & Hs & D).
    destruct (Hv j s Hs) as (c & s0 & Hd & Ht).
    exists c, s0, s. repeat split; [exact Hd | exact Ht |].
    rewrite (categories_unique data N) in Hc.
    rewrite (map_nth_error (fun cs : string * Pandas.series => Pandas.unique (snd cs)) j data Hd)
      in Hc.
    injection Hc as <-. exact D.
Qed.

Lemma codes_decode_witness :
  exists c s rows,
    nth_error census_sample 0 = Some (c, s) /\
    Pandas.take s [2; 3] = Some rows /\
    map (nth_error (Pandas.unique s)) [0; 2] = map Some rows.
Proof.
  refine (proj2 (codes_decode census_sample [0; 1] [2; 3] [[0; 2]; [1; 0]] _ eq_refl)
            0 [0; 2] eq_refl).
  repeat constructor; simpl; intuition discriminate.
Defined.

(* ---------------------------------------------------------------------- *)
(** ** part_003: the columns of the three transformers *)

Lemma filter_split_perm {A} (p : A -> bool) (l : list A) :
  Permutation (filter p l ++ filter (fun a => negb (p a)) l) l.
Proof.
  induction l as [|a l IH]; simpl; [constructor|].
  destruct (p a); simpl.
  - now constructor.
  - apply Permutation_sym, Permutation_cons_app, Permutation_sym. exact IH.
Qed.

(** The labels picked by a selector are distinct when those of the frame
    are. *)
Lemma categorical_columns_NoDup (dtypes : list (string * dtype)) :
  NoDup (map fst dtypes) -> NoDup (categorical_columns dtypes).
Proof.
  unfold categorical_columns, selector_include_object.
  induction dtypes as [|[c d] dtypes IH]; simpl; intros N; [constructor|].
  inversion N as [|? ? Hn N']; subst.
  destruct (is_object d); simpl; [|auto]. constructor; [|auto].
  intros H. apply Hn. apply in_map_iff in H as (x & E & Hx).
  apply filter_In in Hx as [Hx _]. apply in_map_iff. now exists x.
Qed.

Lemma filter_out_perm (x : string) (l : list string) :
  NoDup l -> In x l ->
  Permutation (x :: filter (fun c => negb (mem c [x])) l) l.
Proof.
  induction l as [|a l IH]; intros N H; [easy|].
  inversion N as [|? ? Hn N']; subst. cbn [filter].
  assert (M : mem a [x] = String.eqb a x) by (unfold mem; simpl; apply orb_false_r).
  rewrite M. destruct (String.eqb a x) eqn:E; cbn [negb].
  - apply String.eqb_eq in E. subst a. constructor.
    assert (F : filter (fun c => negb (mem c [x])) l = l).
    { apply forallb_filter_id, forallb_forall. intros c Hc.
      apply negb_true_iff, mem_not_In. intros [-> | []]. contradiction. }
    now rewrite F.
  - destruct H as [-> | H]; [now rewrite String.eqb_refl in E|].
    apply perm_trans with (a :: x :: filter (fun c => negb (mem c [x])) l);
      [apply perm_swap | constructor; now apply IH].
Qed.

(** X11.  In a frame whose column [sex] holds strings, the three column
    lists handed to the [ColumnTransformer] are, taken together, a
    rearrangement of the columns of the frame: every column goes to
    exactly one transformer, and none is left to be dropped. *)
Theorem every_column_is_transformed_once (dtypes : list (string * dtype)) :
  NoDup (map fst dtypes) -> In ("sex", object) dtypes ->
  Permutation (List.concat (preprocessor_columns dtypes)) (map fst dtypes).
Proof.
  intros N S. unfold preprocessor_columns. simpl. rewrite app_nil_r.
  unfold one_hot_encoding_columns, numerical_columns, categorical_columns,
    selector_include_object, selector_exclude_object, binary_encoding_columns.
  apply perm_trans with
    (map fst (filter (fun cd : string * dtype => is_object (snd cd)) dtypes) ++
     map fst (filter (fun cd : string * dtype => negb (is_object (snd cd))) dtypes)).
  - change ("sex" :: ?l ++ ?r) with (("sex" :: l) ++ r).
    apply Permutation_app_tail. apply filter_out_perm.
    + now apply categorical_columns_NoDup.
    + apply in_map_iff. exists ("sex", object). split; [reflexivity|].
      apply filter_In. now split.
  - rewrite <- map_app. apply Permutation_map, filter_split_perm.
Qed.

Lemma every_column_is_transformed_once_witness :
  Permutation
    (List.concat (preprocessor_columns
               [("age", int64); ("workclass", object); ("sex", object);
                ("capital-gain", int64)]))
    ["age"; "workclass"; "sex"; "capital-gain"].
Proof.
  apply (every_column_is_transformed_once
           [("age", int64); ("workclass", object); ("sex", object); ("capital-gain", int64)]).
  - repeat constructor; simpl; intuition discriminate.
  - simpl. tauto.
Defined.

(* ---------------------------------------------------------------------- *)
(** ** part_001: the share of correct predictions *)

Lemma series_eq_length : forall a b r,
  Series.eq a b = Some r ->
  List.length r = List.length a /\ List.length a = List.length b.
Proof.
  induction a as [|x a IH]; intros [|y b] r E; simpl in E; try discriminate.
  - injection E as <-. now split.
  - destruct (Series.eq a b) as [r'|] eqn:E'; [|discriminate].
    injection E as <-. destruct (IH b r' E') as [L1 L2]. simpl. now rewrite L1, L2.
Qed.

Lemma series_eq_none : forall a b,
  Series.eq a b = None <-> List.length a <> List.length b.
Proof.
  induction a as [|x a IH]; intros [|y b]; simpl; try easy.
  destruct (Series.eq a b) as [r|] eqn:E.
  - split; [discriminate|]. intros H. exfalso. apply H. f_equal.
    exact (proj2 (series_eq_length a b r E)).
  - split; [|reflexivity]. intros _ H. injection H as H. now apply (IH b).
Qed.

Lemma series_eq_sym : forall a b, Series.eq a b = Series.eq b a.
Proof.
  induction a as [|x a IH]; intros [|y b]; simpl; try reflexivity.
  now rewrite (IH b), String.eqb_sym.
Qed.

Lemma series_eq_all_true : forall a b r,
  Series.eq a b = Some r ->
  (count_occ bool_dec r true = List.length r <-> a = b).
Proof.
  induction a as [|x a IH]; intros [|y b] r E; simpl in E; try discriminate.
  - injection E as <-. simpl. tauto.
  - destruct (Series.eq a b) as [r'|] eqn:E'; [|discriminate].
    injection E as <-. specialize (IH b r' E').
    pose proof (count_occ_bound bool_dec true r') as B.
    destruct (String.eqb x y) eqn:Exy.
    + apply String.eqb_eq in Exy. subst y.
      rewrite count_occ_cons_eq by reflexivity. simpl. split.
      * intros H. injection H as H. f_equal. now apply IH.
      * intros H. injection H as H. f_equal. now apply IH.
    + apply String.eqb_neq in Exy.
      rewrite count_occ_cons_neq by discriminate. simpl. split.
      * intros H. lia.
      * intros H. injection H as H _. contradiction.
Qed.

Lemma Zpos_of_nat (n : nat) : n <> 0 -> Zpos (Pos.of_nat n) = Z.of_nat n.
Proof.
  intros H. rewrite <- (Nat2Pos.id n H) at 2. symmetry. apply positive_nat_Z.
Qed.

Lemma mean_nonempty (l : list bool) :
  l <> [] ->
  Series.mean l = num (Z.of_nat (count_occ bool_dec l true) # Pos.of_nat (List.length l)).
Proof. destruct l; [congruence | reflexivity]. Qed.

(** X12.  When it is a number, the share of correct predictions lies
    between 0 and 1, and it is 1 exactly when every prediction is the
    expected class. *)
Theorem mean_correct_range (target_test target_predicted : list string) (q : Q) :
  mean_correct target_test target_predicted = Some (num q) ->
  (0 <= q)%Q /\ (q <= 1)%Q /\ (q == 1 <-> target_test = target_predicted)%Q.
Proof.
  unfold mean_correct.
  destruct (Series.eq target_test target_predicted) as [r|] eqn:E; [|discriminate].
  cbn [option_map]. destruct r as [|b r]; [simpl; discriminate|].
  pose proof (series_eq_all_true _ _ _ E) as A.
  pose proof (count_occ_bound bool_dec true (b :: r)) as B.
  assert (P : Zpos (Pos.of_nat (List.length (b :: r))) = Z.of_nat (List.length (b :: r))).
  { apply Zpos_of_nat. discriminate. }
  rewrite (mean_nonempty (b :: r)) by discriminate.
  remember (b :: r) as l eqn:El. clear El.
  intros H. injection H as <-.
  unfold Qle, Qeq. cbn [Qnum Qden]. rewrite P. repeat split; try lia.
  - intros H. apply A. lia.
  - intros H. apply A in H. lia.
Qed.

Lemma mean_correct_range_witness :
  mean_correct [" <=50K"; " >50K"; " <=50K"] [" <=50K"; " <=50K"; " <=50K"] = Some (num (2 # 3)) /\
  (0 <= 2 # 3)%Q /\ (2 # 3 <= 1)%Q.
Proof.
  split; [reflexivity|].
  destruct (mean_correct_range [" <=50K"; " >50K"; " <=50K"] [" <=50K"; " <=50K"; " <=50K"]
              (2 # 3) eq_refl) as (H0 & H1 & _).
  split; [exact H0 | exact H1].
Defined.

(** X13.  The comparison can be written either way round, as the notebook
    does ([target_predicted == target_test] for the column [correct],
    [target_test == target_predicted] for the mean): the share is the
    same, and so is the failure. *)
Theorem mean_correct_symmetric (target_test target_predicted : list string) :
  mean_correct target_test target_predicted = mean_correct target_predicted target_test.
Proof. unfold mean_correct. now rewrite series_eq_sym. Qed.

(** X14.  The comparison raises exactly when the two columns differ in
    length, and the mean is NaN exactly when both are empty. *)
Theorem mean_correct_edges (target_test target_predicted : list string) :
  (mean_correct target_test target_predicted = None <->
   List.length target_test <> List.length target_predicted) /\
  (mean_correct target_test target_predicted = Some nan <->
   target_test = [] /\ target_predicted = []).
Proof.
  unfold mean_correct. split.
  - rewrite <- series_eq_none.
    destruct (Series.eq target_test target_predicted); simpl; split; congruence.
  - destruct (Series.eq target_test target_predicted) as [r|] eqn:E; simpl.
    + destruct (series_eq_length _ _ _ E) as [L1 L2].
      destruct r as [|b r]; simpl.
      * split; [|reflexivity]. intros _.
        destruct target_test; [|discriminate]. destruct target_predicted; [|discriminate].
        now split.
      * split; [discriminate|]. intros [-> _]. discriminate.
    + split; [discriminate|]. intros [-> ->]. discriminate.
Qed.

(* ---------------------------------------------------------------------- *)
(** ** Minimum and maximum of a column *)

Section ColumnFacts.
Import Series.
Local Open Scope Q_scope.

Lemma qmin_spec x y : qmin x y <= x /\ qmin x y <= y /\ (qmin x y = x \/ qmin x y = y).
Proof.
  unfold qmin. destruct (Qle_bool x y) eqn:E.
  - apply Qle_bool_iff in E. repeat split; [apply Qle_refl | exact E | now left].
  - assert (y < x).
    { apply Qnot_le_lt. intros H. apply Qle_bool_iff in H. congruence. }
    repeat split; [now apply Qlt_le_weak | apply Qle_refl | now right].
Qed.

Lemma qmax_spec x y : x <= qmax x y /\ y <= qmax x y /\ (qmax x y = x \/ qmax x y = y).
Proof.
  unfold qmax. destruct (Qle_bool x y) eqn:E.
  - apply Qle_bool_iff in E. repeat split; [exact E | apply Qle_refl | now right].
  - assert (y < x).
    { apply Qnot_le_lt. intros H. apply Qle_bool_iff in H. congruence. }
    repeat split; [apply Qle_refl | now apply Qlt_le_weak | now left].
Qed.

Lemma fold_qmin_spec : forall l x,
  (fold_left qmin l x = x \/ In (fold_left qmin l x) l) /\
  fold_left qmin l x <= x /\
  forall v, In v l -> fold_left qmin l x <= v.
Proof.
  induction l as [|a l IH]; intros x; simpl.
  - repeat split; [now left | apply Qle_refl | easy].
  - destruct (IH (qmin x a)) as (H1 & H2 & H3).
    destruct (qmin_spec x a) as (Q1 & Q2 & Q3).
    repeat split.
    + destruct H1 as [H1 | H1]; [|now right; right].
      rewrite H1. destruct Q3 as [-> | ->]; [now left | now right; left].
    + now apply Qle_trans with (qmin x a).
    + intros v [<- | Hv]; [now apply Qle_trans with (qmin x a) | now apply H3].
Qed.

Lemma fold_qmax_spec : forall l x,
  (fold_left qmax l x = x \/ In (fold_left qmax l x) l) /\
  x <= fold_left qmax l x /\
  forall v, In v l -> v <= fold_left qmax l x.
Proof.
  induction l as [|a l IH]; intros x; simpl.
  - repeat split; [now left | apply Qle_refl | easy].
  - destruct (IH (qmax x a)) as (H1 & H2 & H3).
    destruct (qmax_spec x a) as (Q1 & Q2 & Q3).
    repeat split.
    + destruct H1 as [H1 | H1]; [|now right; right].
      rewrite H1. destruct Q3 as [-> | ->]; [now left | now right; left].
    + now apply Qle_trans with (qmax x a).
    + intros v [<- | Hv]; [now apply Qle_trans with (qmax x a) | now apply H3].
Qed.

(** A column with rows has a least and a greatest value, which [min] and
    [max] return. *)
Lemma min_max_spec (c : list Q) :
  c <> [] ->
  exists lo hi,
    min c = Some lo /\ max c = Some hi /\ In lo c /\ In hi c /\
    forall v, In v c -> lo <= v /\ v <= hi.
Proof.
  destruct c as [|x c]; [congruence | intros _].
  exists (fold_left qmin c x), (fold_left qmax c x).
  destruct (fold_qmin_spec c x) as (A1 & A2 & A3).
  destruct (fold_qmax_spec c x) as (B1 & B2 & B3).
  repeat split; simpl.
  - destruct A1 as [-> | A1]; [now left | now right].
  - destruct B1 as [-> | B1]; [now left | now right].
  - destruct H as [<- | H]; [exact A2 | now apply A3].
  - destruct H as [<- | H]; [exact B2 | now apply B3].
Qed.

End ColumnFacts.

(* ---------------------------------------------------------------------- *)
(** ** [plot_regression_model]: the points of [X_test] *)

Lemma nth_map_seq {A} (f : nat -> A) (m i : nat) (d : A) :
  i < m -> nth i (map f (List.seq 0 m)) d = f i.
Proof.
  intros H. rewrite (nth_indep _ d (f 0)) by (rewrite length_map, length_seq; lia).
  rewrite map_nth, seq_nth; [reflexivity | assumption].
Qed.

Lemma flat_map_singleton {A B} (f : A -> B) (l : list A) :
  flat_map (fun a => [f a]) l = map f l.
Proof. induction l as [|a l IH]; simpl; [reflexivity | now rewrite IH]. Qed.

Section LinspaceFacts.
Local Open Scope Q_scope.

Lemma inject_nat_nonzero (n : nat) : n <> 0%nat -> ~ inject_Z (Z.of_nat n) == 0.
Proof. intros H E. apply H. unfold Qeq in E. simpl in E. lia. Qed.

Lemma inject_nat_le (i j : nat) : (i <= j)%nat -> inject_Z (Z.of_nat i) <= inject_Z (Z.of_nat j).
Proof. intros H. rewrite <- Zle_Qle. lia. Qed.

Lemma linspace_steps (start stop : Q) (n : nat) :
  np.linspace start stop (S (S n)) =
  map (fun i => inject_Z (Z.of_nat i) * ((stop - start) / inject_Z (Z.of_nat (S n))) + start)
      (List.seq 0 (S n)) ++ [stop].
Proof.
  unfold np.linspace. cbn [Nat.ltb Nat.leb]. rewrite (seq_S (S n)), map_app.
  cbn [map]. rewrite removelast_last.
  replace (S (S n) - 1)%nat with (S n) by lia. reflexivity.
Qed.

(** On rationals the stored last point lies on the same line as the
    others. *)
Lemma linspace_nth (start stop : Q) (n i : nat) :
  (i < S (S n))%nat ->
  nth i (np.linspace start stop (S (S n))) 0 ==
  start + inject_Z (Z.of_nat i) * ((stop - start) / inject_Z (Z.of_nat (S n))).
Proof.
  intros H. rewrite linspace_steps.
  destruct (Nat.eq_dec i (S n)) as [-> | Hne].
  - rewrite app_nth2 by (rewrite length_map, length_seq; lia).
    rewrite length_map, length_seq, Nat.sub_diag. cbn [nth].
    field. now apply inject_nat_nonzero.
  - rewrite app_nth1 by (rewrite length_map, length_seq; lia).
    rewrite nth_map_seq by lia. ring.
Qed.

Lemma linspace_length (start stop : Q) (n : nat) :
  List.length (np.linspace start stop (S (S n))) = S (S n).
Proof. rewrite linspace_steps, length_app, length_map, length_seq. simpl. lia. Qed.

(** Between its ends, when they are in order. *)
Lemma linspace_between (start stop : Q) (n i : nat) :
  start <= stop -> (i < S (S n))%nat ->
  start <= nth i (np.linspace start stop (S (S n))) 0 <= stop.
Proof.
  intros Hle Hi. rewrite linspace_nth by assumption.
  set (d := (stop - start) / inject_Z (Z.of_nat (S n))).
  assert (N : ~ inject_Z (Z.of_nat (S n)) == 0) by now apply inject_nat_nonzero.
  assert (P : 0 < inject_Z (Z.of_nat (S n))).
  { change 0 with (inject_Z 0). rewrite <- Zlt_Qlt. lia. }
  assert (D : 0 <= d).
  { unfold d. apply Qle_shift_div_l; [exact P | lra]. }
  assert (E : inject_Z (Z.of_nat (S n)) * d == stop - start).
  { unfold d. field. exact N. }
  assert (I0 : 0 <= inject_Z (Z.of_nat i)).
  { change 0 with (inject_Z 0). rewrite <- Zle_Qle. lia. }
  assert (I1 : inject_Z (Z.of_nat i) <= inject_Z (Z.of_nat (S n))) by (apply inject_nat_le; lia).
  pose proof (Qmult_le_0_compat _ _ I0 D) as M0.
  pose proof (Qmult_le_compat_r _ _ d I1 D) as M1.
  lra.
Qed.

End LinspaceFacts.

Lemma X_test_single (c : list Q) (extrapolate : bool) (lo hi : Q) :
  Series.min c = Some lo -> Series.max c = Some hi ->
  X_test [c] extrapolate =
    Some (map (fun i => nth i (np.linspace (lo - (if extrapolate then 20 else 0))
                                            (hi + (if extrapolate then 20 else 0)) 100) 0%Q)
              (List.seq 0 100)).
Proof.
  intros Hlo Hhi. unfold X_test. cbn [traverse]. rewrite Hlo, Hhi.
  rewrite (flat_map_singleton
             (fun i => nth i (np.linspace (lo - (if extrapolate then 20 else 0))
                                          (hi + (if extrapolate then 20 else 0)) 100) 0%Q)).
  reflexivity.
Qed.

(** X15.  For a frame [X] of one column with rows, [X_test] holds 100
    points; the first is the least value of the column less the offset,
    the last is the greatest value plus the offset, and every point lies
    between the two.  Without extrapolation the offset is 0: the model is
    asked for predictions within the range of the training data only. *)
Theorem test_grid_bounds (c : list Q) (extrapolate : bool) :
  c <> [] ->
  exists g lo hi,
    X_test [c] extrapolate = Some g /\ List.length g = 100 /\
    In lo c /\ In hi c /\ (forall v, In v c -> lo <= v /\ v <= hi)%Q /\
    (nth 0 g 0 == lo - (if extrapolate then 20 else 0))%Q /\
    (nth 99 g 0 == hi + (if extrapolate then 20 else 0))%Q /\
    (forall x, In x g ->
       lo - (if extrapolate then 20 else 0) <= x /\
       x <= hi + (if extrapolate then 20 else 0))%Q.
Proof.
  intros Hc. destruct (min_max_spec c Hc) as (lo & hi & Hlo & Hhi & Ilo & Ihi & B).
  assert (O : (0 <= (if extrapolate then 20 else 0))%Q) by (destruct extrapolate; lra).
  assert (L : (lo - (if extrapolate then 20 else 0) <= hi + (if extrapolate then 20 else 0))%Q).
  { destruct (B lo Ilo) as [_ H]. lra. }
  eexists. exists lo, hi. split; [apply (X_test_single c extrapolate lo hi Hlo Hhi)|].
  set (off := (if extrapolate then 20%Q else 0%Q)) in *.
  split; [now rewrite length_map, length_seq|].
  split; [exact Ilo|]. split; [exact Ihi|]. split; [exact B|].
  split; [|split].
  - rewrite nth_map_seq by lia. rewrite (linspace_nth _ _ 98 0) by lia.
    change (inject_Z (Z.of_nat 0)) with 0%Q. ring.
  - rewrite nth_map_seq by lia. rewrite (linspace_nth _ _ 98 99) by lia. field.
  - intros x H. apply in_map_iff in H as (i & <- & Hi). apply in_seq in Hi.
    apply (linspace_between _ _ 98 i L). lia.
Qed.

Lemma test_grid_bounds_witness :
  exists g lo hi,
    X_test [[181; 186; 195; 172]%Q] false = Some g /\ List.length g = 100 /\
    In lo [181; 186; 195; 172]%Q /\ In hi [181; 186; 195; 172]%Q /\
    (forall v, In v [181; 186; 195; 172] -> lo <= v /\ v <= hi)%Q /\
    (nth 0 g 0 == lo - 0)%Q /\ (nth 99 g 0 == hi + 0)%Q /\
    (forall x, In x g -> lo - 0 <= x /\ x <= hi + 0)%Q.
Proof.
  apply (test_grid_bounds [181; 186; 195; 172]%Q false). discriminate.
Defined.

(** X16.  The points of [X_test] are in order: none is smaller than one
    before it, so that the curve [plt.plot(X_test, y_pred)] runs from left
    to right without turning back.  (Floats are modelled by the rationals
    they denote.  The order does not rest on that: rounding a product and
    a sum keeps the order of what is rounded.  The distances between
    neighbouring points differ by rounding on floats, and nothing is said
    of them.) *)
Theorem test_grid_in_order (c : list Q) (extrapolate : bool) (g : list Q) (i j : nat) :
  X_test [c] extrapolate = Some g -> i <= j -> j < 100 ->
  (nth i g 0 <= nth j g 0)%Q.
Proof.
  intros E Hij Hj. destruct c as [|x c]; [discriminate|].
  destruct (min_max_spec (x :: c)) as (lo & hi & Hlo & Hhi & Ilo & _ & B); [discriminate|].
  rewrite (X_test_single _ extrapolate lo hi Hlo Hhi) in E.
  apply (f_equal (fun o => match o with Some v => v | None => g end)) in E.
  cbv beta iota in E. subst g.
  rewrite !nth_map_seq by lia.
  rewrite (linspace_nth _ _ 98 i), (linspace_nth _ _ 98 j) by lia.
  assert (O : (0 <= (if extrapolate then 20 else 0))%Q) by (destruct extrapolate; lra).
  set (off := (if extrapolate then 20%Q else 0%Q)) in *.
  assert (D : (0 <= (hi + off - (lo - off)) / inject_Z (Z.of_nat 99))%Q).
  { apply Qle_shift_div_l; [reflexivity|]. destruct (B lo Ilo) as [_ H]. lra. }
  pose proof (Qmult_le_compat_r _ _ _ (inject_nat_le i j Hij) D). lra.
Qed.

Lemma test_grid_in_order_witness :
  exists g,
    X_test [[181; 186; 195; 172]%Q] true = Some g /\ (nth 0 g 0 <= nth 1 g 0)%Q.
Proof.
  eexists. split; [reflexivity|].
  apply (test_grid_in_order [181; 186; 195; 172]%Q true _ 0 1 eq_refl); lia.
Defined.

(* ---------------------------------------------------------------------- *)
(** ** [plot_decision_function]: the points handed to the classifier *)

Section ArangeFacts.
Local Open Scope Q_scope.

Lemma div_plot_step (x : Q) : x / plot_step == x * 50.
Proof. unfold plot_step. field. Qed.

Lemma arange_In (start stop g : Q) :
  In g (np.arange start stop plot_step) -> start <= g /\ g < stop.
Proof.
  unfold np.arange. intros H. apply in_map_iff in H as (i & <- & Hi).
  apply in_seq in Hi. destruct Hi as [_ Hi]. simpl in Hi.
  pose proof (Qceiling_lt ((stop - start) / plot_step)) as C.
  set (m := Qceiling ((stop - start) / plot_step)) in *.
  rewrite div_plot_step in C.
  assert (I0 : 0 <= inject_Z (Z.of_nat i)).
  { change 0 with (inject_Z 0). rewrite <- Zle_Qle. lia. }
  assert (I1 : inject_Z (Z.of_nat i) <= inject_Z (m - 1)).
  { rewrite <- Zle_Qle. lia. }
  unfold plot_step. split; lra.
Qed.

Lemma arange_covers (start stop v : Q) :
  start <= v -> v < stop ->
  exists g, In g (np.arange start stop plot_step) /\ g <= v /\ v < g + plot_step.
Proof.
  intros H1 H2.
  pose proof (Qfloor_le ((v - start) / plot_step)) as F1.
  pose proof (Qlt_floor ((v - start) / plot_step)) as F2.
  pose proof (Qle_ceiling ((stop - start) / plot_step)) as C.
  rewrite inject_Z_plus in F2. change (inject_Z 1) with 1 in F2.
  assert (K0 : (0 <= Qfloor ((v - start) / plot_step))%Z).
  { change 0%Z with (Qfloor 0). apply Qfloor_resp_le.
    rewrite div_plot_step. lra. }
  set (k := Qfloor ((v - start) / plot_step)) in *.
  set (m := Qceiling ((stop - start) / plot_step)) in *.
  rewrite div_plot_step in F1, F2, C.
  assert (KM : (k < m)%Z).
  { rewrite Zlt_Qlt. lra. }
  exists (start + inject_Z (Z.of_nat (Z.to_nat k)) * plot_step). split.
  - unfold np.arange. apply in_map_iff. exists (Z.to_nat k). split; [reflexivity|].
    apply in_seq. fold m. lia.
  - rewrite Z2Nat.id by exact K0. unfold plot_step. split; lra.
Qed.

Lemma arange_length (start stop : Q) :
  start + 2 <= stop -> (100 <= List.length (np.arange start stop plot_step))%nat.
Proof.
  intros H. unfold np.arange. rewrite length_map, length_seq.
  assert (C : (100 <= Qceiling ((stop - start) / plot_step))%Z).
  { change 100%Z with (Qceiling (inject_Z 100)). apply Qceiling_resp_le.
    rewrite div_plot_step. change (inject_Z 100) with 100. lra. }
  lia.
Qed.

End ArangeFacts.

Lemma meshgrid_points_In (a b : list Q) (x y : Q) :
  In (x, y) (np.meshgrid_points a b) <-> In x a /\ In y b.
Proof.
  unfold np.meshgrid_points. rewrite in_flat_map. split.
  - intros (y' & Hy & H). apply in_map_iff in H as (x' & E & Hx).
    injection E as -> ->. now split.
  - intros [Hx Hy]. exists y. split; [exact Hy|]. apply in_map_iff. now exists x.
Qed.

Lemma meshgrid_points_length (a b : list Q) :
  List.length (np.meshgrid_points a b) = List.length b * List.length a.
Proof.
  unfold np.meshgrid_points. induction b as [|y b IH]; simpl; [reflexivity|].
  now rewrite length_app, length_map, IH.
Qed.

Lemma decision_grid_defined (c0 c1 : list Q) (rest : list (list Q)) (lo0 hi0 lo1 hi1 : Q) :
  Series.min c0 = Some lo0 -> Series.max c0 = Some hi0 ->
  Series.min c1 = Some lo1 -> Series.max c1 = Some hi1 ->
  decision_grid (c0 :: c1 :: rest) =
    Some (np.meshgrid_points (np.arange (lo0 - 1) (hi0 + 1) plot_step)
                             (np.arange (lo1 - 1) (hi1 + 1) plot_step)).
Proof. intros H1 H2 H3 H4. unfold decision_grid. now rewrite H1, H2, H3, H4. Qed.





(* ---------------------------------------------------------------------- *)
(** ** trees.ipynb: the first word of the species *)

Example first_word_of_a_species :
  first_word (Some "Adelie Penguin (Pygoscelis adeliae)") = Some "Adelie".
Proof. reflexivity. Qed.

Section SplitFacts.
Import str.
Local Open Scope string_scope.

(** The first of the words of [s] comes after the white space that [s]
    begins with, holds no white space, and ends where [s] ends or white
    space follows; there is no word exactly when [s] is blank. *)
Lemma split_first : forall s,
  match split s with
  | [] => blank s = true
  | w :: _ =>
      exists pre post,
        s = pre ++ w ++ post /\ blank pre = true /\ w <> "" /\ solid w = true /\
        (post = "" \/ exists c post', post = String c post' /\ is_space c = true)
  end.
Proof.
  induction s as [|c s IH]; [reflexivity|].
  cbn [split]. destruct (is_space c) eqn:Sc.
  - destruct (split s) as [|w ws].
    + unfold blank in *. simpl. now rewrite Sc, IH.
    + destruct IH as (pre & post & E & Bp & Nw & Sw & P).
      exists (String c pre), post. repeat split; try assumption.
      * simpl. now rewrite E.
      * unfold blank in *. simpl. now rewrite Sc, Bp.
  - destruct s as [|c' s'].
    + exists "", "". repeat split; [discriminate | | now left].
      unfold solid. simpl. now rewrite Sc.
    + destruct (is_space c') eqn:Sc'.
      * exists "", (String c' s'). repeat split; [discriminate | |].
        -- unfold solid. simpl. now rewrite Sc.
        -- right. now exists c', s'.
      * destruct (split (String c' s')) as [|w ws].
        -- unfold blank in IH. simpl in IH. now rewrite Sc' in IH.
        -- destruct IH as (pre & post & E & Bp & Nw & Sw & P).
           destruct pre as [|x pre].
           ++ exists "", post. repeat split; try assumption.
              ** simpl in *. now rewrite E.
              ** discriminate.
              ** unfold solid in *. simpl. now rewrite Sc, Sw.
           ++ simpl in E. injection E as <- _.
              unfold blank in Bp. simpl in Bp. now rewrite Sc' in Bp.
Qed.

Lemma split_solid : forall w, w <> "" -> solid w = true -> split w = [w].
Proof.
  induction w as [|c w IH]; [congruence|]. intros _ S.
  unfold solid in S. simpl in S. apply andb_true_iff in S as [Sc Sw].
  apply negb_true_iff in Sc. cbn [split]. rewrite Sc.
  destruct w as [|c' w']; [reflexivity|].
  assert (Sc' : is_space c' = false).
  { simpl in Sw. apply andb_true_iff in Sw as [H _]. now apply negb_true_iff in H. }
  rewrite Sc'. rewrite IH; [reflexivity | discriminate | exact Sw].
Qed.

End SplitFacts.

(** X19.  For a species written in ASCII, the cell is replaced by its
    first word: what stands between the leading white space and the next
    white space (or the end), which is not empty and holds no white space;
    a blank or empty cell becomes a missing value. *)
Theorem first_word_spec (s : string) :
  str.is_ascii s = true ->
  match first_word (Some s) with
  | Some w =>
      exists pre post,
        s = (pre ++ w ++ post)%string /\ str.blank pre = true /\ w <> ""%string /\
        str.solid w = true /\
        (post = ""%string \/ exists c post', post = String c post' /\ str.is_space c = true)
  | None => str.blank s = true
  end.
Proof.
  intros _. unfold first_word, str.get. pose proof (split_first s) as H.
  destruct (str.split s) as [|w ws]; exact H.
Qed.

Lemma first_word_spec_witness :
  exists pre post,
    "Gentoo penguin (Pygoscelis papua)"%string = (pre ++ "Gentoo" ++ post)%string /\
    str.blank pre = true /\ "Gentoo"%string <> ""%string /\ str.solid "Gentoo" = true /\
    (post = ""%string \/ exists c post', post = String c post' /\ str.is_space c = true).
Proof.
  exact (first_word_spec "Gentoo penguin (Pygoscelis papua)" eq_refl).
Defined.

(** X20.  Shortening the species is idempotent: a cell that has been
    replaced by its first word is left as it is when the cell of the
    notebook is run again. *)
Theorem first_word_idempotent (s w : string) :
  str.is_ascii s = true ->
  first_word (Some s) = Some w -> first_word (Some w) = Some w.
Proof.
  intros _ E. unfold first_word, str.get in *. pose proof (split_first s) as H.
  destruct (str.split s) as [|w' ws]; [discriminate|].
  simpl in E. injection E as ->.
  destruct H as (pre & post & _ & _ & Nw & Sw & _).
  now rewrite (split_solid w Nw Sw).
Qed.

Lemma first_word_idempotent_witness :
  first_word (Some "Chinstrap penguin (Pygoscelis antarctica)") = Some "Chinstrap" /\
  first_word (Some "Chinstrap") = Some "Chinstrap".
Proof.
  split; [reflexivity|].
  exact (first_word_idempotent "Chinstrap penguin (Pygoscelis antarctica)" "Chinstrap"
           eq_refl eq_refl).
Defined.

(* ---------------------------------------------------------------------- *)
(** ** trees.ipynb: the data prepared for classification *)

Section TableFacts.
Import Table.

Lemma keep_In {A} (x : A) : forall m l, In x (keep m l) -> In x l.
Proof.
  induction m as [|b m IH]; intros [|y l] H; simpl in H; try easy.
  destruct b; [destruct H as [-> | H]; [now left | right; now apply IH]|].
  right. now apply IH.
Qed.

Lemma keep_length {A} : forall m (l : list A),
  List.length m = List.length l ->
  List.length (keep m l) = count_occ bool_dec m true.
Proof.
  induction m as [|b m IH]; intros [|y l] H; simpl in H; try discriminate; [reflexivity|].
  injection H as H. simpl. destruct b; simpl.
  - now rewrite IH.
  - destruct (bool_dec false true); [discriminate | now apply IH].
Qed.

Lemma keep_map {A B} (f : A -> B) : forall m l, keep m (map f l) = map f (keep m l).
Proof.
  induction m as [|b m IH]; intros [|y l]; simpl; try reflexivity.
  destruct b; simpl; now rewrite IH.
Qed.

(** Where the mask holds only at rows that are [true], the rows kept are
    all [true]. *)
Lemma keep_all_true : forall m n,
  (forall i, nth i m false = true -> nth i n false = true) ->
  forallb (fun b : bool => b) (keep m n) = true.
Proof.
  induction m as [|b m IH]; intros [|y n] H; simpl; try reflexivity.
  assert (H' : forall i, nth i m false = true -> nth i n false = true).
  { intros i Hi. exact (H (S i) Hi). }
  destruct b; simpl; [|now apply IH].
  rewrite (H 0 eq_refl : y = true). now apply IH.
Qed.

Lemma both_nth : forall a b i,
  nth i (both a b) false = nth i a false && nth i b false.
Proof.
  induction a as [|x a IH]; intros [|y b] [|i]; simpl; try reflexivity.
  - now rewrite andb_false_r.
  - now rewrite andb_false_r.
  - apply IH.
Qed.

Lemma both_length : forall a b,
  List.length a = List.length b -> List.length (both a b) = List.length a.
Proof.
  induction a as [|x a IH]; intros [|y b] H; simpl in *; try discriminate; [reflexivity|].
  injection H as H. now rewrite IH.
Qed.

Lemma notna_length (c : column) : List.length (notna c) = rows c.
Proof. destruct c; simpl; apply length_map. Qed.

Lemma notna_keep_rows m (c : column) : notna (keep_rows m c) = keep m (notna c).
Proof. destruct c; simpl; now rewrite keep_map. Qed.

Lemma rows_keep_rows m (c : column) :
  List.length m = rows c -> rows (keep_rows m c) = count_occ bool_dec m true.
Proof. destruct c; simpl; apply keep_length. Qed.

Lemma getitem_In_table (t : table) l c : getitem t l = Some c -> In (l, c) t.
Proof.
  induction t as [|[l' c'] t IH]; simpl; [discriminate|].
  destruct (String.eqb l' l) eqn:E.
  - intros H. injection H as <-. apply String.eqb_eq in E. subst l'. now left.
  - intros H. right. now apply IH.
Qed.

Lemma all_present_some {A} : forall l : list (option A),
  forallb (fun b : bool => b) (map present l) = true -> exists ws, l = map Some ws.
Proof.
  induction l as [|[w|] l IH]; simpl; intros H.
  - now exists [].
  - destruct (IH H) as [ws ->]. now exists (w :: ws).
  - discriminate.
Qed.

End TableFacts.

Lemma first_word_solid (cell : option string) (w : string) :
  first_word cell = Some w -> w <> ""%string /\ str.solid w = true.
Proof.
  destruct cell as [s|]; [|discriminate]. unfold first_word, str.get.
  pose proof (split_first s) as H.
  destruct (str.split s) as [|w' ws]; [discriminate|].
  simpl. intros E. injection E as ->.
  destruct H as (pre & post & _ & _ & Nw & Sw & _). now split.
Qed.

(** What the cells of the notebook compute from a frame that has the three
    columns, the species being strings. *)
Lemma classification_data_steps (data : Table.table) (a b : Table.column)
      (species : list (option string)) :
  Table.getitem data "Culmen Length (mm)" = Some a ->
  Table.getitem data "Culmen Depth (mm)" = Some b ->
  Table.getitem data "Species" = Some (Table.text species) ->
  classification_data data =
    let m := Table.both (Table.both (Table.notna a) (Table.notna b))
                        (map Table.present (map first_word species)) in
    Some ([("Culmen Length (mm)", Table.keep_rows m a);
           ("Culmen Depth (mm)", Table.keep_rows m b)],
          Table.text (Table.keep m (map first_word species))).
Proof.
  intros Ha Hb Hs. unfold classification_data, Table.select, culmen_columns, target_column.
  cbn [app traverse].
  rewrite Ha. cbn [option_map]. rewrite Hb. cbn [option_map]. rewrite Hs. reflexivity.
Qed.

(** X21.  The data prepared for classification is complete and aligned:
    [X] holds the two culmen columns, each with as many rows as [y] and
    without a missing value, and every cell of [y] is a word, not empty
    and without white space. *)
Theorem classification_data_is_complete (data X : Table.table) (y : Table.column) :
  NoDup (map fst data) -> Table.rectangular data ->
  classification_data data = Some (X, y) ->
  map fst X = culmen_columns /\
  (forall l c, In (l, c) X -> Table.rows c = Table.rows y /\ Table.complete c = true) /\
  exists words,
    y = Table.text (map Some words) /\
    forall w, In w words -> w <> ""%string /\ str.solid w = true.
Proof.
  intros _ R E.
  destruct (Table.getitem data "Culmen Length (mm)") as [a|] eqn:Ha;
    [|unfold classification_data, Table.select, culmen_columns, target_column in E;
      cbn [app traverse] in E; rewrite Ha in E; discriminate].
  destruct (Table.getitem data "Culmen Depth (mm)") as [b|] eqn:Hb;
    [|unfold classification_data, Table.select, culmen_columns, target_column in E;
      cbn [app traverse] in E; rewrite Ha in E;
      cbn [option_map] in E; rewrite Hb in E;
      discriminate].
  destruct (Table.getitem data "Species") as [[cells|species]|] eqn:Hs;
    [unfold classification_data, Table.select, culmen_columns, target_column in E;
     cbn [app traverse] in E; rewrite Ha in E;
     cbn [option_map] in E; rewrite Hb in E; cbn [option_map] in E; rewrite Hs in E;
     discriminate
    | |unfold classification_data, Table.select, culmen_columns, target_column in E;
       cbn [app traverse] in E; rewrite Ha in E;
     cbn [option_map] in E; rewrite Hb in E; cbn [option_map] in E; rewrite Hs in E;
       discriminate].
  rewrite (classification_data_steps data a b species Ha Hb Hs) in E.
  cbv zeta in E.
  set (m := Table.both (Table.both (Table.notna a) (Table.notna b))
                       (map Table.present (map first_word species))) in E.
  apply (f_equal (fun o => match o with Some v => v | None => (X, y) end)) in E.
  cbv beta iota in E. injection E as <- <-.
  pose proof (getitem_In_table _ _ _ Ha) as Ia.
  pose proof (getitem_In_table _ _ _ Hb) as Ib.
  pose proof (getitem_In_table _ _ _ Hs) as Is.
  pose proof (R _ _ _ _ Ia Is) as Ras. pose proof (R _ _ _ _ Ib Is) as Rbs.
  simpl in Ras, Rbs.
  assert (Lm : List.length m = List.length species).
  { unfold m. rewrite both_length; rewrite both_length;
      rewrite ?notna_length, ?length_map; congruence. }
  assert (Mn : forall i, nth i m false = true ->
                 nth i (Table.notna a) false = true /\ nth i (Table.notna b) false = true /\
                 nth i (map Table.present (map first_word species)) false = true).
  { intros i Hi. unfold m in Hi. rewrite !both_nth, !andb_true_iff in Hi. tauto. }
  split; [reflexivity|]. split.
  - intros l c [H | [H | []]]; injection H as <- <-; split.
    + rewrite rows_keep_rows by congruence. simpl.
      rewrite keep_length; [reflexivity | now rewrite !length_map].
    + unfold Table.complete. rewrite notna_keep_rows. apply keep_all_true.
      intros i Hi. now apply Mn.
    + rewrite rows_keep_rows by congruence. simpl.
      rewrite keep_length; [reflexivity | now rewrite !length_map].
    + unfold Table.complete. rewrite notna_keep_rows. apply keep_all_true.
      intros i Hi. now apply Mn.
  - destruct (all_present_some (Table.keep m (map first_word species))) as [words W].
    { rewrite <- keep_map. apply keep_all_true. intros i Hi. now apply Mn. }
    exists words. split; [now rewrite W|].
    intros w Hw.
    assert (In (Some w) (map first_word species)).
    { apply (keep_In _ m). rewrite W. now apply in_map. }
    apply in_map_iff in H as (cell & Hc & _).
    exact (first_word_solid cell w Hc).
Qed.

Lemma classification_data_is_complete_witness :
  classification_data penguins_sample =
    Some ([("Culmen Length (mm)", Table.numeric [Some 39.1%Q; Some 46.5%Q]);
           ("Culmen Depth (mm)", Table.numeric [Some 18.7%Q; Some 17.9%Q])],
          Table.text [Some "Adelie"; Some "Chinstrap"]) /\
  exists words,
    Table.text [Some "Adelie"; Some "Chinstrap"] = Table.text (map Some words) /\
    forall w, In w words -> w <> ""%string /\ str.solid w = true.
Proof.
  split; [reflexivity|].
  refine (proj2 (proj2 (classification_data_is_complete penguins_sample _ _ _ _ eq_refl))).
  { repeat constructor; simpl; intuition discriminate. }
  intros l1 c1 l2 c2 H1 H2. simpl in H1, H2.
  repeat (destruct H1 as [H1 | H1]; [injection H1 as <- <- |]); try contradiction;
    repeat (destruct H2 as [H2 | H2]; [injection H2 as <- <- |]); try contradiction;
    reflexivity.
Defined.

(** X22.  Preparing the data fails exactly when one of the three columns
    is missing (KeyError) or the species are not strings
    (AttributeError). *)
Theorem classification_data_fails (data : Table.table) :
  NoDup (map fst data) ->
  classification_data data = None <->
  (exists l, In l (culmen_columns ++ [target_column]) /\ Table.getitem data l = None) \/
  (exists cells, Table.getitem data target_column = Some (Table.numeric cells)).
Proof.
  intros _.
  destruct (Table.getitem data "Culmen Length (mm)") as [a|] eqn:Ha.
  2:{ split; [intros _|intros _].
      - left. exists "Culmen Length (mm)"%string. split; [now left | exact Ha].
      - unfold classification_data, Table.select, culmen_columns, target_column.
        cbn [app traverse]. now rewrite Ha. }
  destruct (Table.getitem data "Culmen Depth (mm)") as [b|] eqn:Hb.
  2:{ split; [intros _|intros _].
      - left. exists "Culmen Depth (mm)"%string. split; [right; now left | exact Hb].
      - unfold classification_data, Table.select, culmen_columns, target_column.
        cbn [app traverse].
        rewrite Ha. cbn [option_map]. now rewrite Hb. }
  destruct (Table.getitem data "Species") as [[cells|species]|] eqn:Hs.
  - split; [intros _|intros _].
    + right. now exists cells.
    + unfold classification_data, Table.select, culmen_columns, target_column.
      cbn [app traverse].
      rewrite Ha. cbn [option_map]. rewrite Hb. cbn [option_map]. now rewrite Hs.
  - rewrite (classification_data_steps data a b species Ha Hb Hs). split; [discriminate|].
    unfold culmen_columns, target_column.
    intros [(l & Hl & E) | (cells & E)].
    + simpl in Hl. destruct Hl as [<- | [<- | [<- | []]]]; congruence.
    + congruence.
  - split; [intros _|intros _].
    + left. exists "Species"%string. split; [right; right; now left | exact Hs].
    + unfold classification_data, Table.select, culmen_columns, target_column.
      cbn [app traverse].
      rewrite Ha. cbn [option_map]. rewrite Hb. cbn [option_map]. now rewrite Hs.
Qed.

Lemma classification_data_fails_witness :
  classification_data
    [("Species", Table.numeric [None; None]);
     ("Culmen Length (mm)", Table.numeric [Some 39.1%Q; Some 39.5%Q]);
     ("Culmen Depth (mm)", Table.numeric [Some 18.7%Q; Some 17.4%Q])] = None.
Proof.
  refine (proj2 (classification_data_fails _ _) _).
  - repeat constructor; simpl; intuition discriminate.
  - right. now exists [None; None].
Defined.

(* ---------------------------------------------------------------------- *)
(** ** feature_selection.ipynb: the two features printed *)

Section ArgsortFacts.

Variable a : list Q.

Local Abbreviation below := (fun i j : nat => (nth i a 0 <= nth j a 0)%Q).

Lemma insert_perm (i : nat) : forall idx, Permutation (np.insert a i idx) (i :: idx).
Proof.
  induction idx as [|j idx IH]; simpl; [reflexivity|].
  destruct (Qle_bool _ _); [reflexivity|].
  apply perm_trans with (j :: i :: idx); [now constructor | apply perm_swap].
Qed.

Lemma insert_sorted (i : nat) : forall idx,
  Sorted below idx -> Sorted below (np.insert a i idx).
Proof.
  induction idx as [|j idx IH]; simpl; intros S; [repeat constructor|].
  destruct (Qle_bool (nth i a 0%Q) (nth j a 0%Q)) eqn:E.
  - apply Qle_bool_iff in E. constructor; [exact S | now constructor].
  - assert (L : (nth j a 0 <= nth i a 0)%Q).
    { apply Qlt_le_weak, Qnot_le_lt. intros H. apply Qle_bool_iff in H. congruence. }
    inversion S as [|? ? S' Hd]; subst. constructor; [now apply IH|].
    destruct idx as [|k idx]; simpl.
    + now constructor.
    + destruct (Qle_bool (nth i a 0%Q) (nth k a 0%Q)); constructor;
        [exact L | now inversion Hd].
Qed.

(** The order computed by insertion is one that [np.argsort] may return. *)
Lemma argsort_sorts : np.sorts a (np.argsort a).
Proof.
  unfold np.sorts, np.argsort.
  induction (List.seq 0 (List.length a)) as [|i l [P S]]; simpl.
  - split; constructor.
  - split.
    + apply perm_trans with (i :: fold_right (np.insert a) [] l);
        [apply insert_perm | now constructor].
    + now apply insert_sorted.
Qed.

Lemma below_transitive : Relations_1.Transitive below.
Proof. intros x y z H1 H2. now apply Qle_trans with (nth y a 0%Q). Qed.

Lemma strongly_sorted_app (l1 l2 : list nat) :
  StronglySorted below (l1 ++ l2) ->
  forall x y, In x l1 -> In y l2 -> (nth x a 0 <= nth y a 0)%Q.
Proof.
  induction l1 as [|z l1 IH]; simpl; intros S x y Hx Hy; [easy|].
  inversion S as [|? ? S' F]; subst.
  destruct Hx as [-> | Hx].
  - rewrite Forall_forall in F. apply F, in_or_app. now right.
  - now apply IH.
Qed.

End ArgsortFacts.

(** X23.  Whatever order of equal scores the sort settles on, the indices
    printed for a fold are those of the best scores: there are two of
    them (or as many as there are features, if fewer), they differ, and no
    feature left out has a higher score than a feature printed. *)
Theorem printed_features_are_the_best (scores : list Q) (idx : list nat) :
  np.sorts scores idx ->
  List.length (last_two idx) = Nat.min 2 (List.length scores) /\
  NoDup (last_two idx) /\
  (forall j, In j (last_two idx) -> j < List.length scores) /\
  forall i j, i < List.length scores -> ~ In i (last_two idx) -> In j (last_two idx) ->
              (nth i scores 0 <= nth j scores 0)%Q.
Proof.
  intros [P S]. unfold last_two.
  pose proof (Permutation_length P) as L. rewrite length_seq in L.
  assert (N : NoDup idx).
  { apply (Permutation_NoDup (Permutation_sym P)), seq_NoDup. }
  assert (I : forall i, In i idx <-> i < List.length scores).
  { intros i. split; intros H.
    - apply (Permutation_in _ P) in H. apply in_seq in H. lia.
    - apply (Permutation_in _ (Permutation_sym P)). apply in_seq. lia. }
  set (k := List.length idx - 2) in *.
  assert (E : idx = firstn k idx ++ skipn k idx) by (symmetry; apply firstn_skipn).
  split; [rewrite length_skipn; lia|]. split; [|split].
  - rewrite E in N. now apply NoDup_app_remove_l in N.
  - intros j Hj. apply I. rewrite E. apply in_or_app. now right.
  - intros i j Hi Hn Hj.
    apply (strongly_sorted_app scores (firstn k idx) (skipn k idx)); [| |exact Hj].
    + rewrite <- E. apply Sorted_StronglySorted; [apply below_transitive | exact S].
    + apply I in Hi. rewrite E in Hi. apply in_app_or in Hi. tauto.
Qed.

Lemma printed_features_are_the_best_witness :
  selected_features [0.3; 7.5; 0.1; 4.2]%Q = [3; 1] /\
  forall i j, i < 4 -> ~ In i [3; 1] -> In j [3; 1] ->
              (nth i [0.3; 7.5; 0.1; 4.2] 0 <= nth j [0.3; 7.5; 0.1; 4.2] 0)%Q.
Proof.
  split; [reflexivity|].
  exact (proj2 (proj2 (proj2
    (printed_features_are_the_best [0.3; 7.5; 0.1; 4.2]%Q
       (np.argsort [0.3; 7.5; 0.1; 4.2]%Q) (argsort_sorts _))))).
Defined.
